(** * Management-group policy definitions: a shallow embedding

    The development follows
    [azurerm/resource_arm_management_group_policy_definition.go]: the
    identifier parser, the refresh function of the post-write wait, and the
    Create/Update, Read and Delete operations of the resource.

    Go values are modelled as the code has them: [int] and [time.Duration] as
    [Z], strings as byte strings, a returned [error] as [option error] ([None]
    is Go's [nil]), pointers that may be [nil] as options, [interface{}]
    values by their dynamic type, [map[string]T] as a finite map.  A function
    that can panic returns an [outcome]. *)

From Stdlib Require Import ZArith String Ascii List Bool Lia.
From Stdlib Require Import Numbers.DecimalString.
From stdpp Require Import gmap strings.
Import ListNotations.

Set Warnings "-register-all".
Local Open Scope string_scope.
Local Open Scope Z_scope.

(** ** Errors

    An [error] built by [fmt.Errorf] is kept as its format string and its
    arguments, in the order of the call.  Errors produced by the libraries the
    resource calls (the SDK client, the JSON decoder, the state-change waiter)
    have constructors of their own. *)

Inductive arg : Type :=
| AString (s : string)
| AInt (n : Z)
| AError (e : error)
with error : Type :=
| Errorf (format : string) (args : list arg)
| LibraryError (message : string)
| TimeoutError (timeout : Z) (expectedState : list string)
| UnexpectedStateError (state : string) (expectedState : list string).

(** A computation either returns or panics (a failed type assertion, an index
    out of range, a nil dereference).  [OutOfFuel] is the answer of a loop
    whose iteration bound was too small; it is shown not to occur. *)
Inductive outcome (A : Type) : Type :=
| Ret (a : A)
| Panic (reason : string)
| OutOfFuel.
Arguments Ret {A} a.
Arguments Panic {A} reason.
Arguments OutOfFuel {A}.

(** ** Package [strings] and slices *)

Module strings.

(** [strings.Split(s, sep)] for a separator of one byte, the only use the
    resource makes of it: the substrings of [s] between the occurrences of
    [sep], in order; a string without [sep] (the empty one too) gives one
    element. [cur] is the substring being read. *)
Fixpoint splitFrom (sep : ascii) (cur s : string) : list string :=
  match s with
  | EmptyString => [cur]
  | String c rest =>
      if Ascii.eqb c sep
      then cur :: splitFrom sep EmptyString rest
      else splitFrom sep (cur ++ String c EmptyString) rest
  end.

Definition Split (s : string) (sep : ascii) : list string :=
  splitFrom sep EmptyString s.

(** [strings.Join(elems, sep)]. *)
Fixpoint Join (elems : list string) (sep : string) : string :=
  match elems with
  | [] => EmptyString
  | [a] => a
  | a :: rest => a ++ sep ++ Join rest sep
  end.

End strings.

(** [s[lo:hi]] on a slice: [None] stands for the run-time panic on bounds
    that are out of range. *)
Definition slice {A : Type} (s : list A) (lo hi : Z) : option (list A) :=
  if (0 <=? lo) && (lo <=? hi) && (hi <=? Z.of_nat (length s))
  then Some (firstn (Z.to_nat (hi - lo)) (skipn (Z.to_nat lo) s))
  else None.

(** [s[i]] on a slice, [None] for the index-out-of-range panic. *)
Definition index {A : Type} (s : list A) (i : Z) : option A :=
  if (0 <=? i) && (i <? Z.of_nat (length s))
  then nth_error s (Z.to_nat i)
  else None.

(** [len(s)] as a Go [int]. *)
Definition len {A : Type} (s : list A) : Z := Z.of_nat (length s).

(** ** Identifier parsing *)

Record managementGroupPolicyResourceID : Type := {
  ManagementGroupID : string;
  Name : string
}.

Definition errIdEmpty : string :=
  "Azure Management Group Policy Definition Id is empty or not formatted correctly: %s".

Definition errIdSegments : string :=
  "Azure Management Group Policy Definition Id should have 8 segments, got %d: '%s'".

(** [parseManagementGroupPolicyDefinitionNameFromID]: the pair is the Go
    result, a pointer to the identifier (or nil) and an error (or nil). *)
Definition parseManagementGroupPolicyDefinitionNameFromID (id : string)
  : outcome (option managementGroupPolicyResourceID * option error) :=
  let components := strings.Split id "/"%char in
  if len components =? 0 then
    Ret (None, Some (Errorf errIdEmpty [AString id]))
  else if negb (len components =? 9) then
    Ret (None, Some (Errorf errIdSegments [AInt (len components - 1); AString id]))
  else
    match slice components 0 5, index components (len components - 1) with
    | Some scope, Some name =>
        Ret (Some {| ManagementGroupID := strings.Join scope "/"; Name := name |}, None)
    | _, _ => Panic "slice bounds out of range"
    end.

(** The identifier of the spec's example. *)
Definition literalId : string :=
  "/providers/Microsoft.Management/managementGroups/mg1/providers/Microsoft.Authorization/policyDefinitions/pol1".


(** ** The libraries' data, as the resource sees it *)

Module strconv.

(** [strconv.Itoa]. *)
Definition Itoa (i : Z) : string := NilZero.string_of_int (Z.to_int i).

End strconv.

Module time.

(** A [time.Duration] is a number of nanoseconds. *)
Definition Second : Z := 1000000000.
Definition Minute : Z := 60 * Second.

End time.

Module http.

Record Response : Type := { StatusCode : Z }.

Definition StatusNotFound : Z := 404.

End http.

Module autorest.

(** [autorest.Response] embeds a pointer to the HTTP response, nil when the
    request produced none. *)
Record Response : Type := { httpResponse : option http.Response }.

End autorest.

(** The dynamic type and value of an [interface{}] that holds a decoded JSON
    document: nil, a bool, a float64 (its IEEE 754 bit pattern; no arithmetic
    on it is modelled), a string, a slice, a map, and the pointer to a map
    that Create/Update stores in a request. *)
Inductive value : Type :=
| VNil
| VBool (b : bool)
| VFloat64 (bits : Z)
| VString (s : string)
| VSlice (elems : list value)
| VMap (m : gmap string value)
| VMapPtr (m : gmap string value).

(** [v != nil] on an interface value. *)
Definition notNil (v : value) : bool :=
  match v with VNil => false | _ => true end.

Module policy.

(** [policy.DefinitionProperties]; [PolicyType] and [Mode] are string types,
    [DisplayName] and [Description] string pointers. *)
Record DefinitionProperties : Type := {
  PolicyType : string;
  Mode : string;
  DisplayName : option string;
  Description : option string;
  PolicyRule : value;
  Metadata : value;
  Parameters : value
}.

(** [policy.Definition] (the name is a keyword here): the embedded
    [autorest.Response], the embedded pointer to the properties, and the [ID]
    and [Name] string pointers. *)
Record PolicyDefinition : Type := {
  Response : autorest.Response;
  Properties : option DefinitionProperties;
  ID : option string;
  Name : option string
}.

(** [policy.DefinitionsClient], the remote: each call acts on the state
    [World] of the remote system and answers with the Go result pair. *)
Record DefinitionsClient (World : Type) : Type := {
  CreateOrUpdateAtManagementGroup :
    string -> PolicyDefinition -> string -> World -> (PolicyDefinition * option error) * World;
  GetAtManagementGroup :
    string -> string -> World -> (PolicyDefinition * option error) * World;
  DeleteAtManagementGroup :
    string -> string -> World -> (autorest.Response * option error) * World
}.
Arguments CreateOrUpdateAtManagementGroup {World} _ _ _ _ _.
Arguments GetAtManagementGroup {World} _ _ _ _.
Arguments DeleteAtManagementGroup {World} _ _ _ _.

End policy.

(** [res.StatusCode] through the embedded pointer: a nil dereference when the
    response carries no HTTP response. *)
Definition statusCodeOf (r : autorest.Response) : outcome Z :=
  match autorest.httpResponse r with
  | Some h => Ret (http.StatusCode h)
  | None => Panic "invalid memory address or nil pointer dereference"
  end.

Module utils.

(** Modelled from the spec: [utils.ResponseWasNotFound] of the provider's
    [azurerm/utils] package, which is not among the source files.  Section 6:
    error responses carry a status code, and 404 is the distinguished
    not-found signal. *)
Definition ResponseWasNotFound (resp : autorest.Response) : bool :=
  match autorest.httpResponse resp with
  | Some r => http.StatusCode r =? http.StatusNotFound
  | None => false
  end.

(** [utils.String]: a pointer to the string. *)
Definition String (s : string) : option string := Some s.

End utils.

Module schema.

(** [schema.ResourceData]: the stored id and the attributes of the schema,
    all of them of type string. *)
Record ResourceData : Type := {
  id : string;
  attributes : gmap string string
}.

(** [d.Get(key).(string)]: the zero value for an attribute that is not set. *)
Definition Get (d : ResourceData) (key : string) : string :=
  default EmptyString (attributes d !! key).

(** [d.Set(key, v)] for a string. *)
Definition SetAttr (d : ResourceData) (key v : string) : ResourceData :=
  {| id := id d; attributes := <[key := v]> (attributes d) |}.

(** [d.Set(key, p)] for a string pointer; nil stores the zero value. *)
Definition SetPtr (d : ResourceData) (key : string) (p : option string) : ResourceData :=
  SetAttr d key (default EmptyString p).

Definition Id (d : ResourceData) : string := id d.

Definition SetId (d : ResourceData) (v : string) : ResourceData :=
  {| id := v; attributes := attributes d |}.

End schema.

Record ArmClient (World : Type) : Type := {
  policyDefinitionsClient : policy.DefinitionsClient World
}.
Arguments policyDefinitionsClient {World} _.

(** The calls a run makes to the remote and to the JSON helpers, in order. *)
Inductive call : Type :=
| ExpandJsonFromStringCall (jsonString : string)
| FlattenJsonToStringCall (input : gmap string value)
| CreateOrUpdateCall (name : string) (definition : policy.PolicyDefinition) (managementGroupID : string)
| GetCall (name managementGroupID : string)
| DeleteCall (name managementGroupID : string).

Definition errAssert : string :=
  "interface conversion: interface {} is not map[string]interface {}".

(** [x.(map[string]interface{})] without the comma-ok form. *)
Definition assertMap (v : value) : outcome (gmap string value) :=
  match v with
  | VMap m => Ret m
  | _ => Panic errAssert
  end.

(** ** The operations

    [World] is the state of the remote system.  The two helpers of the
    Terraform [structure] package, [structure.ExpandJsonFromString] and
    [structure.FlattenJsonToString], are parameters: each is a function from
    its argument to the Go result pair. *)

Section Model.

Context {World : Type}.
Variable ExpandJsonFromString : string -> gmap string value * option error.
Variable FlattenJsonToString : gmap string value -> string * option error.

(** What an operation acts on: the resource data [d] it was handed, the
    remote, and the record of the calls made so far. *)
Record state : Type := {
  data : schema.ResourceData;
  remote : World;
  calls : list call
}.

Definition M (A : Type) : Type := state -> outcome A * state.

Definition ret {A : Type} (a : A) : M A := fun st => (Ret a, st).

Definition bind {A B : Type} (c : M A) (k : A -> M B) : M B :=
  fun st =>
    match c st with
    | (Ret a, st') => k a st'
    | (Panic reason, st') => (Panic reason, st')
    | (OutOfFuel, st') => (OutOfFuel, st')
    end.

Definition lift {A : Type} (o : outcome A) : M A := fun st => (o, st).

Notation "x <- c ;; k" := (bind c (fun x => k))
  (at level 100, c at next level, right associativity).
Notation "c ;; k" := (bind c (fun _ => k))
  (at level 100, right associativity).

(** Statements that may return early: [Some e] is [return e] with a non-nil
    error, [None] falls through to the statements that follow. *)
Definition andThen (c k : M (option error)) : M (option error) :=
  r <- c ;;
  match r with
  | Some e => ret (Some e)
  | None => k
  end.

Definition record (c : call) : M unit :=
  fun st => (Ret tt, {| data := data st; remote := remote st; calls := (calls st ++ [c])%list |}).

Definition onRemote {A : Type} (f : World -> A * World) : M A :=
  fun st =>
    let '(a, w) := f (remote st) in
    (Ret a, {| data := data st; remote := w; calls := calls st |}).

Definition onData (f : schema.ResourceData -> schema.ResourceData) : M unit :=
  fun st => (Ret tt, {| data := f (data st); remote := remote st; calls := calls st |}).

Definition dGet (key : string) : M string :=
  fun st => (Ret (schema.Get (data st) key), st).

Definition dId : M string := fun st => (Ret (schema.Id (data st)), st).

Definition dSet (key v : string) : M unit := onData (fun d => schema.SetAttr d key v).

Definition dSetPtr (key : string) (p : option string) : M unit :=
  onData (fun d => schema.SetPtr d key p).

Definition dSetId (v : string) : M unit := onData (fun d => schema.SetId d v).

Definition expandJsonFromString (jsonString : string) : M (gmap string value * option error) :=
  record (ExpandJsonFromStringCall jsonString) ;;
  ret (ExpandJsonFromString jsonString).

Definition flattenJsonToString (input : gmap string value) : M (string * option error) :=
  record (FlattenJsonToStringCall input) ;;
  ret (FlattenJsonToString input).

Definition createOrUpdateAtManagementGroup (client : policy.DefinitionsClient World)
    (name : string) (definition : policy.PolicyDefinition) (managementGroupID : string)
  : M (policy.PolicyDefinition * option error) :=
  record (CreateOrUpdateCall name definition managementGroupID) ;;
  onRemote (policy.CreateOrUpdateAtManagementGroup client name definition managementGroupID).

Definition getAtManagementGroup (client : policy.DefinitionsClient World)
    (name managementGroupID : string) : M (policy.PolicyDefinition * option error) :=
  record (GetCall name managementGroupID) ;;
  onRemote (policy.GetAtManagementGroup client name managementGroupID).

Definition deleteAtManagementGroup (client : policy.DefinitionsClient World)
    (name managementGroupID : string) : M (autorest.Response * option error) :=
  record (DeleteCall name managementGroupID) ;;
  onRemote (policy.DeleteAtManagementGroup client name managementGroupID).

(** *** The post-write wait *)

(** What a [resource.StateRefreshFunc] returns: result, state, error. *)
Definition refreshResult : Type := option policy.PolicyDefinition * string * option error.

Definition errRefresh : string :=
  "Error issuing read request in managementGroupPolicyDefinitionRefreshFunc for Management Group Policy Defintion %q: %s".

(** [managementGroupPolicyDefinitionRefreshFunc]: the closure it returns. *)
Definition managementGroupPolicyDefinitionRefreshFunc
    (client : policy.DefinitionsClient World) (name managementGroupID : string)
  : M refreshResult :=
  r <- getAtManagementGroup client name managementGroupID ;;
  let '(res, err) := r in
  match err with
  | Some e =>
      code <- lift (statusCodeOf (policy.Response res)) ;;
      ret (None, strconv.Itoa code, Some (Errorf errRefresh [AString name; AError e]))
  | None =>
      code <- lift (statusCodeOf (policy.Response res)) ;;
      ret (Some res, strconv.Itoa code, None)
  end.

(** [resource.StateChangeConf], with the fields the resource sets. *)
Record StateChangeConf : Type := {
  Pending : list string;
  Target : list string;
  Refresh : M refreshResult;
  Timeout : Z;
  MinTimeout : Z;
  ContinuousTargetOccurence : Z
}.

(** Modelled from the spec: the wait of [resource.StateChangeConf.WaitForState]
    (Terraform's [helper/resource] package, not among the source files), as
    the state machine of the design notes.  [Waiting] holds the time slept so
    far and the number of consecutive target observations; the other three
    states are final. *)
Inductive waitState : Type :=
| Waiting (elapsed : Z) (targetOccurence : Z)
| Reached (result : option policy.PolicyDefinition)
| TimedOut
| Failed (err : error).

Definition inStates (s : string) (states : list string) : bool :=
  existsb (String.eqb s) states.

(** Modelled from the spec: what one poll does to a wait in progress (section
    4.1 and the design notes).  An error from the refresh function is fatal at
    once; otherwise a target state counts towards the streak, which completes
    the wait when it reaches [ContinuousTargetOccurence]; a pending state is
    expected and restarts the count; any other state is an error.  The next
    poll comes [MinTimeout] later. *)
Definition observe (conf : StateChangeConf) (elapsed targetOccurence : Z)
    (r : refreshResult) : waitState :=
  match r with
  | (_, _, Some err) => Failed err
  | (res, currentState, None) =>
      if inStates currentState (Target conf) then
        if targetOccurence + 1 =? ContinuousTargetOccurence conf
        then Reached res
        else Waiting (elapsed + MinTimeout conf) (targetOccurence + 1)
      else if inStates currentState (Pending conf) then
        Waiting (elapsed + MinTimeout conf) 0
      else Failed (UnexpectedStateError currentState (Target conf))
  end.

(** Modelled from the spec: the wait over a given sequence of poll outcomes,
    as a step relation iterated.  A wait in progress times out once [Timeout]
    has elapsed, and otherwise reads the next outcome.  The answer is the
    state the wait is left in and the outcomes it has not read. *)
Fixpoint waitRun (conf : StateChangeConf) (s : waitState) (rs : list refreshResult)
  : waitState * list refreshResult :=
  match s with
  | Waiting elapsed targetOccurence =>
      if Timeout conf <=? elapsed then (TimedOut, rs)
      else match rs with
           | [] => (s, [])
           | r :: rs' => waitRun conf (observe conf elapsed targetOccurence r) rs'
           end
  | _ => (s, rs)
  end.

(** Modelled from the spec: the same wait against the remote, each poll one
    call of [Refresh].  [fuel] bounds the number of polls. *)
Fixpoint waitLoop (conf : StateChangeConf) (fuel : nat) (s : waitState) : M waitState :=
  match s with
  | Waiting elapsed targetOccurence =>
      if Timeout conf <=? elapsed then ret TimedOut
      else match fuel with
           | O => lift OutOfFuel
           | S fuel' =>
               r <- Refresh conf ;;
               waitLoop conf fuel' (observe conf elapsed targetOccurence r)
           end
  | _ => ret s
  end.

(** The polls that fit before the timeout, and one to spare. *)
Definition pollBudget (conf : StateChangeConf) : nat :=
  Z.to_nat (Timeout conf / MinTimeout conf) + 1.

(** Modelled from the spec: [conf.WaitForState()], with the Go result pair. *)
Definition WaitForState (conf : StateChangeConf)
  : M (option policy.PolicyDefinition * option error) :=
  s <- waitLoop conf (pollBudget conf) (Waiting 0 0) ;;
  match s with
  | Reached res => ret (res, None)
  | TimedOut => ret (None, Some (TimeoutError (Timeout conf) (Target conf)))
  | Failed err => ret (None, Some err)
  | Waiting _ _ => lift OutOfFuel
  end.

(** *** Create/Update *)

Definition withPolicyRule (p : policy.DefinitionProperties) (v : value)
  : policy.DefinitionProperties :=
  {| policy.PolicyType := policy.PolicyType p; policy.Mode := policy.Mode p;
     policy.DisplayName := policy.DisplayName p; policy.Description := policy.Description p;
     policy.PolicyRule := v; policy.Metadata := policy.Metadata p;
     policy.Parameters := policy.Parameters p |}.

Definition withMetadata (p : policy.DefinitionProperties) (v : value)
  : policy.DefinitionProperties :=
  {| policy.PolicyType := policy.PolicyType p; policy.Mode := policy.Mode p;
     policy.DisplayName := policy.DisplayName p; policy.Description := policy.Description p;
     policy.PolicyRule := policy.PolicyRule p; policy.Metadata := v;
     policy.Parameters := policy.Parameters p |}.

Definition withParameters (p : policy.DefinitionProperties) (v : value)
  : policy.DefinitionProperties :=
  {| policy.PolicyType := policy.PolicyType p; policy.Mode := policy.Mode p;
     policy.DisplayName := policy.DisplayName p; policy.Description := policy.Description p;
     policy.PolicyRule := policy.PolicyRule p; policy.Metadata := policy.Metadata p;
     policy.Parameters := v |}.

Definition errParsePolicyRule : string := "unable to parse policy_rule: %s".
Definition errParseMetadata : string := "unable to parse metadata: %s".
Definition errParseParameters : string := "unable to parse parameters: %s".
Definition errCreating : string :=
  "Error Creating/Updating Management Group Policy %q: %+v".
Definition errWaiting : string :=
  "Error waiting for Management Group Policy Definition %q to become available: %s".
Definition errRetrieving : string :=
  "Error retrieving Management Group Policy Definition %q: %+v".
Definition errParsingId : string :=
  "Error parsing Management Group Policy Definition name from ID %s: %s".
Definition errReading : string :=
  "Error making read request on Management Group Policy Definition %+v".
Definition errFlattenPolicyRule : string := "unable to flatten JSON for `policy_rule`: %s".
Definition errFlattenMetadata : string := "unable to flatten JSON for `metadata`: %s".
Definition errFlattenParameters : string := "unable to flatten JSON for `parameters`: %s".
Definition errDeleting : string := "Error deleting Policy Definition %q: %+v".

(** The [resource.StateChangeConf] that Create/Update builds. *)
Definition stateConf (client : policy.DefinitionsClient World)
    (name managementGroupID : string) : StateChangeConf :=
  {| Pending := ["404"];
     Target := ["200"];
     Refresh := managementGroupPolicyDefinitionRefreshFunc client name managementGroupID;
     Timeout := 5 * time.Minute;
     MinTimeout := 10 * time.Second;
     ContinuousTargetOccurence := 10 |}.

(** [resourceArmManagementGroupPolicyDefinitionRead]; [d] is the resource
    data of the state. *)
Definition resourceArmManagementGroupPolicyDefinitionRead (meta : ArmClient World)
  : M (option error) :=
  let client := policyDefinitionsClient meta in
  dIdV <- dId ;;
  parsed <- lift (parseManagementGroupPolicyDefinitionNameFromID dIdV) ;;
  let '(idPtr, err) := parsed in
  match err with
  | Some e => ret (Some (Errorf errParsingId [AString dIdV; AError e]))
  | None =>
  match idPtr with
  | None => lift (Panic "invalid memory address or nil pointer dereference")
  | Some id =>
  r <- getAtManagementGroup client (Name id) (ManagementGroupID id) ;;
  let '(resp, err) := r in
  match err with
  | Some e =>
      if utils.ResponseWasNotFound (policy.Response resp) then
        dSetId EmptyString ;;
        ret None
      else ret (Some (Errorf errReading [AError e]))
  | None =>
  dSetPtr "name" (policy.Name resp) ;;
  dSet "management_group_id" (ManagementGroupID id) ;;
  match policy.Properties resp with
  | None => ret None
  | Some props =>
      dSet "policy_type" (policy.PolicyType props) ;;
      dSet "mode" (policy.Mode props) ;;
      dSetPtr "display_name" (policy.DisplayName props) ;;
      dSetPtr "description" (policy.Description props) ;;
      andThen
        (if notNil (policy.PolicyRule props) then
           policyRuleVal <- lift (assertMap (policy.PolicyRule props)) ;;
           f <- flattenJsonToString policyRuleVal ;;
           let '(policyRuleStr, err) := f in
           match err with
           | Some e => ret (Some (Errorf errFlattenPolicyRule [AError e]))
           | None => dSet "policy_rule" policyRuleStr ;; ret None
           end
         else ret None)
     (andThen
        (if notNil (policy.Metadata props) then
           metadataVal <- lift (assertMap (policy.Metadata props)) ;;
           f <- flattenJsonToString metadataVal ;;
           let '(metadataStr, err) := f in
           match err with
           | Some e => ret (Some (Errorf errFlattenMetadata [AError e]))
           | None => dSet "metadata" metadataStr ;; ret None
           end
         else ret None)
     (andThen
        (if notNil (policy.Parameters props) then
           paramsVal <- lift (assertMap (policy.Parameters props)) ;;
           f <- flattenJsonToString paramsVal ;;
           let '(parametersStr, err) := f in
           match err with
           | Some e => ret (Some (Errorf errFlattenParameters [AError e]))
           | None => dSet "parameters" parametersStr ;; ret None
           end
         else ret None)
        (ret None)))
  end
  end
  end
  end.

(** [resourceArmManagementGroupPolicyDefinitionCreateUpdate]. *)
Definition resourceArmManagementGroupPolicyDefinitionCreateUpdate (meta : ArmClient World)
  : M (option error) :=
  let client := policyDefinitionsClient meta in
  name <- dGet "name" ;;
  policyType <- dGet "policy_type" ;;
  mode <- dGet "mode" ;;
  displayName <- dGet "display_name" ;;
  description <- dGet "description" ;;
  managementGroupID <- dGet "management_group_id" ;;
  let properties :=
    {| policy.PolicyType := policyType;
       policy.Mode := mode;
       policy.DisplayName := utils.String displayName;
       policy.Description := utils.String description;
       policy.PolicyRule := VNil;
       policy.Metadata := VNil;
       policy.Parameters := VNil |} in
  policyRuleString <- dGet "policy_rule" ;;
  p1 <- (if negb (String.eqb policyRuleString EmptyString) then
           x <- expandJsonFromString policyRuleString ;;
           let '(policyRule, err) := x in
           match err with
           | Some e => ret (inr (Errorf errParsePolicyRule [AError e]))
           | None => ret (inl (withPolicyRule properties (VMapPtr policyRule)))
           end
         else ret (inl properties)) ;;
  match p1 with
  | inr e => ret (Some e)
  | inl properties =>
  metaDataString <- dGet "metadata" ;;
  p2 <- (if negb (String.eqb metaDataString EmptyString) then
           x <- expandJsonFromString metaDataString ;;
           let '(metaData, err) := x in
           match err with
           | Some e => ret (inr (Errorf errParseMetadata [AError e]))
           | None => ret (inl (withMetadata properties (VMapPtr metaData)))
           end
         else ret (inl properties)) ;;
  match p2 with
  | inr e => ret (Some e)
  | inl properties =>
  parametersString <- dGet "parameters" ;;
  p3 <- (if negb (String.eqb parametersString EmptyString) then
           x <- expandJsonFromString parametersString ;;
           let '(parameters, err) := x in
           match err with
           | Some e => ret (inr (Errorf errParseParameters [AError e]))
           | None => ret (inl (withParameters properties (VMapPtr parameters)))
           end
         else ret (inl properties)) ;;
  match p3 with
  | inr e => ret (Some e)
  | inl properties =>
  let definition :=
    {| policy.Response := {| autorest.httpResponse := None |};
       policy.Properties := Some properties;
       policy.ID := None;
       policy.Name := utils.String name |} in
  u <- createOrUpdateAtManagementGroup client name definition managementGroupID ;;
  match snd u with
  | Some e => ret (Some (Errorf errCreating [AString name; AError e]))
  | None =>
  w <- WaitForState (stateConf client name managementGroupID) ;;
  match snd w with
  | Some e => ret (Some (Errorf errWaiting [AString name; AError e]))
  | None =>
  g <- getAtManagementGroup client name managementGroupID ;;
  let '(resp, err) := g in
  match err with
  | Some e => ret (Some (Errorf errRetrieving [AString name; AError e]))
  | None =>
  match policy.ID resp with
  | None => lift (Panic "invalid memory address or nil pointer dereference")
  | Some respID =>
  dSetId respID ;;
  resourceArmManagementGroupPolicyDefinitionRead meta
  end
  end
  end
  end
  end
  end
  end.

(** [resourceArmManagementGroupPolicyDefinitionDelete]. *)
Definition resourceArmManagementGroupPolicyDefinitionDelete (meta : ArmClient World)
  : M (option error) :=
  let client := policyDefinitionsClient meta in
  dIdV <- dId ;;
  parsed <- lift (parseManagementGroupPolicyDefinitionNameFromID dIdV) ;;
  let '(idPtr, err) := parsed in
  match err with
  | Some e => ret (Some (Errorf errParsingId [AString dIdV; AError e]))
  | None =>
  match idPtr with
  | None => lift (Panic "invalid memory address or nil pointer dereference")
  | Some id =>
  r <- deleteAtManagementGroup client (Name id) (ManagementGroupID id) ;;
  let '(resp, err) := r in
  match err with
  | Some e =>
      if utils.ResponseWasNotFound resp then ret None
      else ret (Some (Errorf errDeleting [AString (Name id); AError e]))
  | None => ret None
  end
  end
  end.

(** *** Notions used in the statements *)

(** The state once the calls [cs] have been recorded. *)
Definition recorded (st : state) (cs : list call) : state :=
  {| data := data st; remote := remote st; calls := (calls st ++ cs)%list |}.

(** A call that reads the remote, or serializes what was read. *)
Definition readOnly (c : call) : Prop :=
  match c with
  | GetCall _ _ | FlattenJsonToStringCall _ => True
  | _ => False
  end.

(** A call of the decoder, on a string that is not empty. *)
Definition isDecoderCall (c : call) : Prop :=
  exists s, s <> EmptyString /\ c = ExpandJsonFromStringCall s.

(** [appends P c]: whatever [c] does, it leaves the calls already recorded in
    place and adds calls that satisfy [P]. *)
Definition appends {A : Type} (P : call -> Prop) (c : M A) : Prop :=
  forall st r st', c st = (r, st') ->
    exists new, calls st' = (calls st ++ new)%list /\ Forall P new.

(** An optional JSON field is offending when it is not empty and the decoder
    rejects it. *)
Definition offending (s : string) : Prop :=
  s <> EmptyString /\ snd (ExpandJsonFromString s) <> None.

(** The value a JSON field of the resource data has in the request. *)
Definition requestValue (s : string) : value :=
  if String.eqb s EmptyString then VNil
  else VMapPtr (fst (ExpandJsonFromString s)).

(** The decoder calls made for a JSON field of the resource data. *)
Definition decoderCalls (s : string) : list call :=
  if String.eqb s EmptyString then [] else [ExpandJsonFromStringCall s].

(** One JSON field of Create/Update, as a function: from the calls made and
    the properties built so far (or the error returned) to the same, once the
    field [s] has been looked at. *)
Definition expandField (s format : string)
    (store : policy.DefinitionProperties -> value -> policy.DefinitionProperties)
    (acc : list call * (error + policy.DefinitionProperties))
  : list call * (error + policy.DefinitionProperties) :=
  match acc with
  | (cs, inl e) => (cs, inl e)
  | (cs, inr p) =>
      if String.eqb s EmptyString then (cs, inr p)
      else match ExpandJsonFromString s with
           | (_, Some e) =>
               ((cs ++ [ExpandJsonFromStringCall s])%list, inl (Errorf format [AError e]))
           | (doc, None) =>
               ((cs ++ [ExpandJsonFromStringCall s])%list, inr (store p (VMapPtr doc)))
           end
  end.

(** The first part of Create/Update, up to the properties of the request. *)
Definition request (d : schema.ResourceData)
  : list call * (error + policy.DefinitionProperties) :=
  expandField (schema.Get d "parameters") errParseParameters withParameters
    (expandField (schema.Get d "metadata") errParseMetadata withMetadata
       (expandField (schema.Get d "policy_rule") errParsePolicyRule withPolicyRule
          ([], inr {| policy.PolicyType := schema.Get d "policy_type";
                      policy.Mode := schema.Get d "mode";
                      policy.DisplayName := utils.String (schema.Get d "display_name");
                      policy.Description := utils.String (schema.Get d "description");
                      policy.PolicyRule := VNil;
                      policy.Metadata := VNil;
                      policy.Parameters := VNil |}))).

(** The definition Create/Update sends. *)
Definition requestDefinition (d : schema.ResourceData)
    (properties : policy.DefinitionProperties) : policy.PolicyDefinition :=
  {| policy.Response := {| autorest.httpResponse := None |};
     policy.Properties := Some properties;
     policy.ID := None;
     policy.Name := utils.String (schema.Get d "name") |}.

(** The part of Create/Update that follows a successful write: the wait, the
    read of the id, and Read. *)
Definition afterWrite (meta : ArmClient World) (name managementGroupID : string)
  : M (option error) :=
  let client := policyDefinitionsClient meta in
  w <- WaitForState (stateConf client name managementGroupID) ;;
  match snd w with
  | Some e => ret (Some (Errorf errWaiting [AString name; AError e]))
  | None =>
  g <- getAtManagementGroup client name managementGroupID ;;
  let '(resp, err) := g in
  match err with
  | Some e => ret (Some (Errorf errRetrieving [AString name; AError e]))
  | None =>
  match policy.ID resp with
  | None => lift (Panic "invalid memory address or nil pointer dereference")
  | Some respID =>
  dSetId respID ;;
  resourceArmManagementGroupPolicyDefinitionRead meta
  end
  end
  end.

(** [polled refresh st rs st']: from [st], successive calls of [refresh]
    return the outcomes [rs], in order, and leave the state [st']. *)
Inductive polled (refresh : M refreshResult) : state -> list refreshResult -> state -> Prop :=
| polled_nil (st : state) : polled refresh st [] st
| polled_cons (st st1 st2 : state) (r : refreshResult) (rs : list refreshResult) :
    refresh st = (Ret r, st1) ->
    polled refresh st1 rs st2 ->
    polled refresh st (r :: rs) st2.

(** The wait has ended. *)
Definition final (s : waitState) : Prop :=
  match s with
  | Waiting _ _ => False
  | _ => True
  end.



(** The first [n] polls from [st], when each of them returns: the outcomes
    and the state they leave. *)
Fixpoint polls (refresh : M refreshResult) (n : nat) (st : state)
  : option (list refreshResult * state) :=
  match n with
  | O => Some ([], st)
  | S n' =>
      match refresh st with
      | (Ret r, st1) =>
          match polls refresh n' st1 with
          | Some (rs, st2) => Some (r :: rs, st2)
          | None => None
          end
      | _ => None
      end
  end.

End Model.

(** ** The text of an error *)

Module fmt.

(** An operand of a format, once errors have been turned into their text. *)
Inductive operand : Type :=
| OpString (s : string)
| OpInt (n : Z)
| OpError (text : option string).

(** [fmt.Sprintf] for the verbs [%d] of an int, [%s] of a string or an error
    and [%+v] of an error, which print the decimal numeral, the string and the
    error's text.  The answer is [None] where the format uses a verb whose
    printing is not modelled ([%q]), and where an operand is missing, left
    over, or not of these kinds. *)
Fixpoint Sprintf (format : string) (a : list operand) : option string :=
  match format with
  | EmptyString => match a with [] => Some EmptyString | _ => None end
  | String c rest =>
      if Ascii.eqb c "%" then
        match rest, a with
        | String "d" rest', OpInt n :: a' =>
            option_map (String.append (strconv.Itoa n)) (Sprintf rest' a')
        | String "s" rest', OpString s :: a' =>
            option_map (String.append s) (Sprintf rest' a')
        | String "s" rest', OpError (Some s) :: a' =>
            option_map (String.append s) (Sprintf rest' a')
        | String "+" (String "v" rest'), OpError (Some s) :: a' =>
            option_map (String.append s) (Sprintf rest' a')
        | _, _ => None
        end
      else option_map (String c) (Sprintf rest a)
  end.

End fmt.

(** [e.Error()]: the text of an error made by [fmt.Errorf] is its format
    printed with its arguments; a library's error has its message; the text of
    the waiter's errors is not modelled. *)
Fixpoint Error (e : error) : option string :=
  match e with
  | Errorf format args => fmt.Sprintf format (map operandOf args)
  | LibraryError message => Some message
  | TimeoutError _ _ => None
  | UnexpectedStateError _ _ => None
  end
with operandOf (a : arg) : fmt.operand :=
  match a with
  | AString s => fmt.OpString s
  | AInt n => fmt.OpInt n
  | AError e => fmt.OpError (Error e)
  end.

(** [strings.Contains]. *)
Fixpoint Contains (s substr : string) : bool :=
  if String.prefix substr s then true
  else match s with
       | EmptyString => false
       | String _ rest => Contains rest substr
       end.

(** [strings.Count(s, sep)] for a separator of one byte. *)
Fixpoint Count (s : string) (sep : ascii) : nat :=
  match s with
  | EmptyString => O
  | String c rest => if Ascii.eqb c sep then S (Count rest sep) else Count rest sep
  end.

(** A message reports a count when the count's decimal numeral stands in it. *)
Definition reportsCount (message : string) (n : Z) : bool :=
  Contains message (strconv.Itoa n).

(** The reading of the segment-count error under which the counts are those of
    [strings.Split]: the parse of [id] fails with an error whose text reports
    9, the number of segments required, and the number of segments [id] has. *)
Definition reportsSplitCounts (id : string) : Prop :=
  exists e message,
    parseManagementGroupPolicyDefinitionNameFromID id = Ret (None, Some e)
    /\ Error e = Some message
    /\ reportsCount message 9 = true
    /\ reportsCount message (len (strings.Split id "/"%char)) = true.

(** ** A sample remote

    A remote whose state is the number of reads it has answered: the [n]-th
    read is answered by [script n], a write succeeds, a delete is answered by
    [deleted].  The sample decoder knows the empty document only. *)

Definition response (status : Z) : autorest.Response :=
  {| autorest.httpResponse := Some {| http.StatusCode := status |} |}.

Definition sampleProperties : policy.DefinitionProperties :=
  {| policy.PolicyType := "Custom";
     policy.Mode := "All";
     policy.DisplayName := Some "acctestpol";
     policy.Description := None;
     policy.PolicyRule := VMap ∅;
     policy.Metadata := VNil;
     policy.Parameters := VMap ∅ |}.

Definition answer (status : Z) (props : option policy.DefinitionProperties)
  : policy.PolicyDefinition :=
  {| policy.Response := response status;
     policy.Properties := props;
     policy.ID := Some literalId;
     policy.Name := Some "pol1" |}.

Definition absent : policy.PolicyDefinition :=
  {| policy.Response := response 404;
     policy.Properties := None;
     policy.ID := None;
     policy.Name := None |}.

Definition errNotFound : error :=
  LibraryError "policy.DefinitionsClient#GetAtManagementGroup: Failure responding to request: StatusCode=404".

(** The three answers of a read: found, not found as the client reports it
    (an error along with the status), and a status 404 without an error. *)
Definition found : policy.PolicyDefinition * option error :=
  (answer 200 (Some sampleProperties), None).
Definition notFound : policy.PolicyDefinition * option error :=
  (absent, Some errNotFound).
Definition pending404 : policy.PolicyDefinition * option error :=
  (absent, None).

Definition scriptedClient (script : nat -> policy.PolicyDefinition * option error)
    (deleted : autorest.Response * option error) : policy.DefinitionsClient nat :=
  {| policy.CreateOrUpdateAtManagementGroup := fun _ definition _ w => ((definition, None), w);
     policy.GetAtManagementGroup := fun _ _ w => (script w, S w);
     policy.DeleteAtManagementGroup := fun _ _ w => (deleted, w) |}.

Definition sampleMeta (script : nat -> policy.PolicyDefinition * option error)
    (deleted : autorest.Response * option error) : ArmClient nat :=
  {| policyDefinitionsClient := scriptedClient script deleted |}.

Definition sampleExpand (jsonString : string) : gmap string value * option error :=
  if String.eqb jsonString "{}" then (∅, None)
  else (∅, Some (LibraryError "invalid character"))%string.

Definition sampleFlatten (input : gmap string value) : string * option error :=
  if Nat.eqb (size input) 0 then ("{}", None)
  else (EmptyString, Some (LibraryError "json: unsupported value")).

Definition sampleData (policyRule metadata parameters : string) : schema.ResourceData :=
  {| schema.id := EmptyString;
     schema.attributes :=
       <["name" := "pol1"]> (<["policy_type" := "Custom"]> (<["mode" := "All"]>
       (<["display_name" := "acctestpol"]> (<["management_group_id" := "mg1"]>
       (<["policy_rule" := policyRule]> (<["metadata" := metadata]>
       (<["parameters" := parameters]> ∅))))))) |}.

Definition start (d : schema.ResourceData) : @state nat :=
  {| data := d; remote := O; calls := [] |}.

(** A value on which the type assertions of Read cannot fail: nil, which
    Read skips, or a map. *)
Definition objectOrNil (v : value) : bool :=
  match v with
  | VNil | VMap _ => true
  | _ => false
  end.

(** The helper that serializes returns no error on [v], when [v] is a map. *)
Definition flattens (FlattenJsonToString : gmap string value -> string * option error)
    (v : value) : Prop :=
  forall m, v = VMap m -> snd (FlattenJsonToString m) = None.

(** The stored id of the sample, and what it parses to. *)
Definition sampleId : managementGroupPolicyResourceID :=
  {| ManagementGroupID := "/providers/Microsoft.Management/managementGroups/mg1";
     Name := "pol1" |}.

Definition stored (d : schema.ResourceData) : schema.ResourceData :=
  schema.SetId d literalId.

(** The answer of a delete of a definition that is not there. *)
Definition gone : autorest.Response * option error := (response 404, Some errNotFound).

Definition unparsable : string := "not json".

(** A definition whose policy rule is a JSON array. *)
Definition arrayRule : policy.DefinitionProperties :=
  {| policy.PolicyType := "Custom";
     policy.Mode := "All";
     policy.DisplayName := Some "acctestpol";
     policy.Description := None;
     policy.PolicyRule := VSlice [VString "audit"];
     policy.Metadata := VNil;
     policy.Parameters := VMap ∅ |}.

(** A remote that answers three reads, then reports not found. *)
Definition flaky (n : nat) : policy.PolicyDefinition * option error :=
  if Nat.ltb n 3 then found else notFound.

(** A remote on which the definition becomes visible at the fourth read. *)
Definition settling (n : nat) : policy.PolicyDefinition * option error :=
  if Nat.ltb n 3 then pending404 else found.

(** The properties and the write of the sample request. *)
Definition sampleRequest : policy.DefinitionProperties :=
  {| policy.PolicyType := "Custom";
     policy.Mode := "All";
     policy.DisplayName := Some "acctestpol";
     policy.Description := Some EmptyString;
     policy.PolicyRule := VMapPtr ∅;
     policy.Metadata := VNil;
     policy.Parameters := VNil |}.

Definition sampleWrite : call :=
  CreateOrUpdateCall "pol1"
    (requestDefinition (sampleData "{}" EmptyString EmptyString) sampleRequest) "mg1".

(** The outcomes of a poll that the remote answers with [found] and with
    [pending404]. *)
Definition foundOutcome : refreshResult :=
  (Some (answer 200 (Some sampleProperties)), "200", None).


(** The answer of a read that produced no HTTP response, and a remote on
    which the definition read after the wait has no id. *)
Definition lost : policy.PolicyDefinition * option error :=
  ({| policy.Response := {| autorest.httpResponse := None |};
      policy.Properties := None;
      policy.ID := None;
      policy.Name := None |},
   Some (LibraryError "policy.DefinitionsClient#GetAtManagementGroup: Failure sending request")).

Definition nameless (n : nat) : policy.PolicyDefinition * option error :=
  if Nat.ltb n 10 then found
  else ({| policy.Response := response 200;
           policy.Properties := Some sampleProperties;
           policy.ID := None;
           policy.Name := Some "pol1" |}, None).

(** A remote that answers three reads and then answers with status 404 and
    no error. *)
Definition relapsing (n : nat) : policy.PolicyDefinition * option error :=
  if Nat.ltb n 3 then found else pending404.

(** The reading of the wait under which the answer that the remote gives in
    the middle of a streak sets the count of consecutive successes to zero:
    the wait of Create/Update for [name] and [managementGroupID] against the
    remote of [meta], having made [n] polls from [st], is in progress with a
    count of zero. *)
Definition resetsStreak {World : Type} (meta : ArmClient World)
    (name managementGroupID : string) (st : state) (n : nat) : Prop :=
  exists rs st' t,
    polls (managementGroupPolicyDefinitionRefreshFunc (policyDefinitionsClient meta)
             name managementGroupID) n st
    = Some (rs, st')
    /\ waitRun (stateConf (policyDefinitionsClient meta) name managementGroupID)
         (Waiting 0 0) rs
       = (Waiting t 0, []).

(** ** The identifier format *)

(** The identifier of the definition [name] of the management group [mg], in
    the format that the comment at the head of the parser gives. *)
Definition canonicalId (mg name : string) : string :=
  "/providers/Microsoft.Management/managementGroups/" ++ mg
  ++ "/providers/Microsoft.Authorization/policyDefinitions/" ++ name.

(** ** The resource and its schema *)

(** [p.f] and [*p] on a pointer. *)
Definition deref {A : Type} (p : option A) : outcome A :=
  match p with
  | Some a => Ret a
  | None => Panic "invalid memory address or nil pointer dereference"
  end.

(** The [schema.ValueType] of an attribute. *)
Inductive ValueType : Type :=
| TypeInvalid | TypeBool | TypeInt | TypeFloat | TypeString | TypeList | TypeMap | TypeSet.

(** The constants of the SDK's [policy] package that the schema names, of the
    string types [policy.Type] and [policy.Mode].  The source files do not
    give their values: a constant stands for its string. *)
Inductive policyConstant : Type :=
| TypeBuiltIn | TypeCustom | TypeNotSpecified
| All | Indexed | NotSpecified.

(** The validation functions the schema names: [validation.StringInSlice]
    with its two arguments, and [validation.ValidateJsonString]. *)
Inductive SchemaValidateFunc : Type :=
| StringInSlice (valid : list policyConstant) (ignoreCase : bool)
| ValidateJsonString.

(** The one function the schema names to suppress a difference:
    [structure.SuppressJsonDiff]. *)
Inductive SchemaDiffSuppressFunc : Type :=
| SuppressJsonDiff.

(** [schema.Schema], with the fields the resource sets ([Type] is a keyword
    here, [ValueTypeOf] stands for it); a bool that the source leaves out is
    false, a function it leaves out nil. *)
Record Schema : Type := {
  ValueTypeOf : ValueType;
  Required : bool;
  Optional : bool;
  ForceNew : bool;
  ValidateFunc : option SchemaValidateFunc;
  DiffSuppressFunc : option SchemaDiffSuppressFunc
}.

(** The one importer the resource names: [schema.ImportStatePassthrough]. *)
Inductive StateFunc : Type :=
| ImportStatePassthrough.

(** [schema.ResourceImporter]. *)
Record ResourceImporter : Type := { State : StateFunc }.

Section ResourceDefinition.

Context {World : Type}.
Variable ExpandJsonFromString : string -> gmap string value * option error.
Variable FlattenJsonToString : gmap string value -> string * option error.

(** [schema.Resource]: the four operations, each on the resource data of the
    state and the provider's client, the importer and the schema ([SchemaOf],
    since [Schema] names the type of its entries). *)
Record Resource : Type := {
  Create : ArmClient World -> M (World := World) (option error);
  Update : ArmClient World -> M (World := World) (option error);
  Read : ArmClient World -> M (World := World) (option error);
  Delete : ArmClient World -> M (World := World) (option error);
  Importer : option ResourceImporter;
  SchemaOf : gmap string Schema
}.

(** [resourceArmManagementGroupPolicyDefinition]. *)
Definition resourceArmManagementGroupPolicyDefinition : Resource :=
  {| Create := resourceArmManagementGroupPolicyDefinitionCreateUpdate
                 ExpandJsonFromString FlattenJsonToString;
     Update := resourceArmManagementGroupPolicyDefinitionCreateUpdate
                 ExpandJsonFromString FlattenJsonToString;
     Read := resourceArmManagementGroupPolicyDefinitionRead FlattenJsonToString;
     Delete := resourceArmManagementGroupPolicyDefinitionDelete;
     Importer := Some {| State := ImportStatePassthrough |};
     SchemaOf :=
       <["name" :=
           {| ValueTypeOf := TypeString; Required := true; Optional := false;
              ForceNew := true; ValidateFunc := None; DiffSuppressFunc := None |}]>
       (<["policy_type" :=
           {| ValueTypeOf := TypeString; Required := true; Optional := false;
              ForceNew := true;
              ValidateFunc :=
                Some (StringInSlice [TypeBuiltIn; TypeCustom; TypeNotSpecified] true);
              DiffSuppressFunc := None |}]>
       (<["mode" :=
           {| ValueTypeOf := TypeString; Required := true; Optional := false;
              ForceNew := true;
              ValidateFunc :=
                Some (StringInSlice [All; Indexed; NotSpecified] true);
              DiffSuppressFunc := None |}]>
       (<["display_name" :=
           {| ValueTypeOf := TypeString; Required := true; Optional := false;
              ForceNew := false; ValidateFunc := None; DiffSuppressFunc := None |}]>
       (<["description" :=
           {| ValueTypeOf := TypeString; Required := false; Optional := true;
              ForceNew := false; ValidateFunc := None; DiffSuppressFunc := None |}]>
       (<["policy_rule" :=
           {| ValueTypeOf := TypeString; Required := false; Optional := true;
              ForceNew := false; ValidateFunc := Some ValidateJsonString;
              DiffSuppressFunc := Some SuppressJsonDiff |}]>
       (<["metadata" :=
           {| ValueTypeOf := TypeString; Required := false; Optional := true;
              ForceNew := false; ValidateFunc := Some ValidateJsonString;
              DiffSuppressFunc := Some SuppressJsonDiff |}]>
       (<["parameters" :=
           {| ValueTypeOf := TypeString; Required := false; Optional := true;
              ForceNew := false; ValidateFunc := Some ValidateJsonString;
              DiffSuppressFunc := Some SuppressJsonDiff |}]>
       (<["management_group_id" :=
           {| ValueTypeOf := TypeString; Required := true; Optional := false;
              ForceNew := true; ValidateFunc := None; DiffSuppressFunc := None |}]>
        ∅)))))))) |}.

End ResourceDefinition.

(** ** The checks of the acceptance test *)

Module terraform.

(** [terraform.InstanceState], [terraform.ResourceState] and
    [terraform.ModuleState], with the fields the checks read; [terraform.State]
    with what [RootModule()] returns.  The resources of a module are a map to
    pointers, the primary instance of a resource and the root module are
    pointers.  [Type] is a keyword here: [ResourceType] stands for the field
    [Type] of a resource. *)
Record InstanceState : Type := {
  ID : string;
  Attributes : gmap string string
}.

Record ResourceState : Type := {
  ResourceType : string;
  Primary : option InstanceState
}.

Record ModuleState : Type := {
  Resources : gmap string (option ResourceState)
}.

Record State : Type := {
  RootModule : option ModuleState
}.

End terraform.

Definition errNotInState : string := "not found: %s".
Definition errBadGet : string := "Bad: Get on policyDefinitionsClient: %s".
Definition errDoesNotExist : string := "management group policy does not exist: %s".
Definition errStillExists : string := "management group policy still exists:%s".

Section AcceptanceChecks.

Context {World : Type}.

Notation "x <- c ;; k" := (bind (World := World) c (fun x => k))
  (at level 100, c at next level, right associativity).

(** [testCheckAzureRMManagementGroupPolicyDefinitionExists(name)], the check
    it returns; [meta] is what [testAccProvider.Meta()] returns. *)
Definition testCheckAzureRMManagementGroupPolicyDefinitionExists (meta : ArmClient World)
    (name : string) (s : terraform.State) : M (World := World) (option error) :=
  root <- lift (deref (terraform.RootModule s)) ;;
  match terraform.Resources root !! name with
  | None => ret (Some (Errorf errNotInState [AString name]))
  | Some rsPtr =>
  rs <- lift (deref rsPtr) ;;
  primary <- lift (deref (terraform.Primary rs)) ;;
  let name := default EmptyString (terraform.Attributes primary !! "name") in
  let managementGroupID :=
    default EmptyString (terraform.Attributes primary !! "management_group_id") in
  let client := policyDefinitionsClient meta in
  r <- getAtManagementGroup client name managementGroupID ;;
  let '(resp, err) := r in
  match err with
  | Some e => ret (Some (Errorf errBadGet [AError e]))
  | None =>
  code <- lift (statusCodeOf (policy.Response resp)) ;;
  if code =? http.StatusNotFound
  then ret (Some (Errorf errDoesNotExist [AString name]))
  else ret None
  end
  end.

(** The loop of [testCheckAzureRMManagementGroupPolicyDefinitionDestroy] over
    the resources still to visit. *)
Fixpoint destroyRange (client : policy.DefinitionsClient World)
    (visit : list (option terraform.ResourceState)) : M (World := World) (option error) :=
  match visit with
  | [] => ret None
  | rsPtr :: rest =>
      rs <- lift (deref rsPtr) ;;
      if negb (String.eqb (terraform.ResourceType rs)
                 "azurerm_management_group_policy_definition")
      then destroyRange client rest
      else
        primary <- lift (deref (terraform.Primary rs)) ;;
        let name := default EmptyString (terraform.Attributes primary !! "name") in
        let managementGroupID :=
          default EmptyString (terraform.Attributes primary !! "management_group_id") in
        r <- getAtManagementGroup client name managementGroupID ;;
        let '(resp, err) := r in
        match err with
        | Some _ => ret None
        | None =>
            code <- lift (statusCodeOf (policy.Response resp)) ;;
            if negb (code =? http.StatusNotFound)
            then
              respName <- lift (deref (policy.Name resp)) ;;
              ret (Some (Errorf errStillExists [AString respName]))
            else destroyRange client rest
        end
  end.

(** [testCheckAzureRMManagementGroupPolicyDefinitionDestroy].  [visit] is the
    order in which the range statement visits the resources of the root
    module, which Go leaves open. *)
Definition testCheckAzureRMManagementGroupPolicyDefinitionDestroy (meta : ArmClient World)
    (s : terraform.State) (visit : list (option terraform.ResourceState))
  : M (World := World) (option error) :=
  let client := policyDefinitionsClient meta in
  root <- lift (deref (terraform.RootModule s)) ;;
  destroyRange client visit.

(** [visit] is an order in which a range statement can visit the resources
    of [root]: the values of the map, each once. *)
Definition rangeOrder (root : terraform.ModuleState)
    (visit : list (option terraform.ResourceState)) : Prop :=
  Permutation visit (map snd (map_to_list (terraform.Resources root))).

(** A resource of the state that is not a policy definition of a management
    group. *)
Definition otherResource (rsPtr : option terraform.ResourceState) : Prop :=
  exists rs, rsPtr = Some rs
    /\ terraform.ResourceType rs <> "azurerm_management_group_policy_definition".

End AcceptanceChecks.

(** ** Notions used in the statements about the resource data *)

Section DataNotions.

Context {World : Type}.
Variable FlattenJsonToString : gmap string value -> string * option error.

Notation "x <- c ;; k" := (bind (World := World) c (fun x => k))
  (at level 100, c at next level, right associativity).
Notation "c ;; k" := (bind (World := World) c (fun _ => k))
  (at level 100, right associativity).

(** What Read does for one JSON field of the definition it has read: the
    value [v], the attribute [key] and the format of the error. *)
Definition storeJson (key format : string) (v : value) : M (World := World) (option error) :=
  if notNil v then
    mapVal <- lift (assertMap v) ;;
    f <- flattenJsonToString FlattenJsonToString mapVal ;;
    let '(str, err) := f in
    match err with
    | Some e => ret (Some (Errorf format [AError e]))
    | None => dSet key str ;; ret None
    end
  else ret None.

(** The part of Read that follows the four plain properties: the three JSON
    fields, in source order. *)
Definition storeJsonFields (props : policy.DefinitionProperties)
  : M (World := World) (option error) :=
  andThen (storeJson "policy_rule" errFlattenPolicyRule (policy.PolicyRule props))
    (andThen (storeJson "metadata" errFlattenMetadata (policy.Metadata props))
       (andThen (storeJson "parameters" errFlattenParameters (policy.Parameters props))
          (ret None))).

(** The resource data once Read has stored the name and the scope id. *)
Definition withIdentity (d : schema.ResourceData) (id : managementGroupPolicyResourceID)
    (resp : policy.PolicyDefinition) : schema.ResourceData :=
  schema.SetAttr (schema.SetPtr d "name" (policy.Name resp))
    "management_group_id" (ManagementGroupID id).

(** The resource data once Read has stored the four plain properties too. *)
Definition withPlainProperties (d : schema.ResourceData) (props : policy.DefinitionProperties)
  : schema.ResourceData :=
  schema.SetPtr
    (schema.SetPtr
       (schema.SetAttr (schema.SetAttr d "policy_type" (policy.PolicyType props))
          "mode" (policy.Mode props))
       "display_name" (policy.DisplayName props))
    "description" (policy.Description props).

(** [preserves R c]: whatever [c] does, the resource data it leaves is
    related by [R] to the resource data it found. *)
Definition preserves {A : Type} (R : schema.ResourceData -> schema.ResourceData -> Prop)
    (c : M (World := World) A) : Prop :=
  forall st r st', c st = (r, st') -> R (data st) (data st').

(** The attributes that are not among [keys] are what they were. *)
Definition sameOutside (keys : list string) (d d' : schema.ResourceData) : Prop :=
  forall key, ~ In key keys -> schema.attributes d' !! key = schema.attributes d !! key.

(** The stored id is what it was. *)
Definition sameId (d d' : schema.ResourceData) : Prop := schema.Id d' = schema.Id d.

(** The attributes that the operations set. *)
Definition attributesSet : list string :=
  ["name"; "management_group_id"; "policy_type"; "mode"; "display_name"; "description";
   "policy_rule"; "metadata"; "parameters"].

(** What Read leaves in the attribute [key] for the value [v] of a JSON
    field of the definition, from the resource data [d] to [d']: the
    attribute is untouched when the value is nil, and holds the text that the
    serializer returned, without an error, when it is a map. *)
Definition storedJson (d d' : schema.ResourceData) (key : string) (v : value) : Prop :=
  match v with
  | VNil => schema.attributes d' !! key = schema.attributes d !! key
  | VMap m =>
      exists str, FlattenJsonToString m = (str, None)
        /\ schema.attributes d' !! key = Some str
  | _ => False
  end.

(** Two states that agree on the stored id and on the remote, whatever the
    attributes and the calls recorded. *)
Definition sameIdAndRemote (st1 st2 : state (World := World)) : Prop :=
  schema.Id (data st1) = schema.Id (data st2) /\ remote st1 = remote st2.

(** [usesOnlyId c]: what [c] returns, and the stored id and the remote it
    leaves, depend on the state it finds through the stored id and the remote
    only. *)
Definition usesOnlyId {A : Type} (c : M (World := World) A) : Prop :=
  forall st1 st2, sameIdAndRemote st1 st2 ->
    fst (c st1) = fst (c st2) /\ sameIdAndRemote (snd (c st1)) (snd (c st2)).

(** The calls of a run that write to the remote, and those that delete. *)
Definition isWrite (c : call) : bool :=
  match c with CreateOrUpdateCall _ _ _ => true | _ => false end.

Definition isDelete (c : call) : bool :=
  match c with DeleteCall _ _ => true | _ => false end.

End DataNotions.

(** ** More of the sample remote, and a sample state of the test *)

(** A remote that refuses every write. *)
Definition errForbidden : error :=
  LibraryError "policy.DefinitionsClient#CreateOrUpdateAtManagementGroup: Failure responding to request: StatusCode=403".

Definition refusing : ArmClient nat :=
  {| policyDefinitionsClient :=
       {| policy.CreateOrUpdateAtManagementGroup :=
            fun _ definition _ w => ((definition, Some errForbidden), w);
          policy.GetAtManagementGroup := fun _ _ w => (notFound, S w);
          policy.DeleteAtManagementGroup := fun _ _ w => (gone, w) |} |}.

(** A remote on which the definition is gone at the eleventh read, and one
    that answers a read or a delete with a server error. *)
Definition vanishing (n : nat) : policy.PolicyDefinition * option error :=
  if Nat.ltb n 10 then found else notFound.

(** A remote on which the definition is gone at the twelfth read: after the
    wait and the read that follows it. *)
Definition fleeting (n : nat) : policy.PolicyDefinition * option error :=
  if Nat.ltb n 11 then found else notFound.

Definition errServer : error :=
  LibraryError "policy.DefinitionsClient: Failure responding to request: StatusCode=500".

Definition broken : policy.PolicyDefinition * option error :=
  ({| policy.Response := response 500;
      policy.Properties := None;
      policy.ID := None;
      policy.Name := None |}, Some errServer).

Definition brokenDelete : autorest.Response * option error := (response 500, Some errServer).

(** A remote whose definition has an id of another shape. *)
Definition misplaced (n : nat) : policy.PolicyDefinition * option error :=
  ({| policy.Response := response 200;
      policy.Properties := Some sampleProperties;
      policy.ID := Some "/providers/Microsoft.Authorization/policyDefinitions/pol1";
      policy.Name := Some "pol1" |}, None).

(** The state of the acceptance test after its step: the management group
    and the policy definition. *)
Definition sampleGroup : terraform.ResourceState :=
  {| terraform.ResourceType := "azurerm_management_group";
     terraform.Primary :=
       Some {| terraform.ID := "/providers/Microsoft.Management/managementGroups/mg1";
               terraform.Attributes := <["display_name" := "acctestmg"]> ∅ |} |}.

Definition sampleInstance : terraform.InstanceState :=
  {| terraform.ID := literalId;
     terraform.Attributes :=
       <["name" := "pol1"]>
       (<["management_group_id" := "/providers/Microsoft.Management/managementGroups/mg1"]> ∅) |}.

Definition samplePolicy : terraform.ResourceState :=
  {| terraform.ResourceType := "azurerm_management_group_policy_definition";
     terraform.Primary := Some sampleInstance |}.

Definition sampleRoot : terraform.ModuleState :=
  {| terraform.Resources :=
       <["azurerm_management_group.test" := Some sampleGroup]>
       (<["azurerm_management_group_policy_definition.test" := Some samplePolicy]> ∅) |}.

Definition sampleState : terraform.State :=
  {| terraform.RootModule := Some sampleRoot |}.

(** * Properties *)

(** ** Splitting and the identifier parser *)

Lemma splitFrom_length (sep : ascii) (s cur : string) :
  length (strings.splitFrom sep cur s) = S (Count s sep).
Proof.
  revert cur. induction s as [|c rest IH]; intros cur; simpl.
  - reflexivity.
  - destruct (Ascii.eqb c sep); simpl; rewrite IH; reflexivity.
Qed.

Lemma Split_len (s : string) (sep : ascii) :
  len (strings.Split s sep) = Z.of_nat (Count s sep) + 1.
Proof.
  unfold len, strings.Split. rewrite splitFrom_length. lia.
Qed.

Lemma Split_len_pos (s : string) (sep : ascii) : 0 < len (strings.Split s sep).
Proof. rewrite Split_len. lia. Qed.

(** The parser on an input whose number of segments is not 9. *)
Lemma parse_segment_error (id : string) :
  len (strings.Split id "/"%char) <> 9 ->
  parseManagementGroupPolicyDefinitionNameFromID id
  = Ret (None, Some (Errorf errIdSegments
                       [AInt (len (strings.Split id "/"%char) - 1); AString id])).
Proof.
  intros Hne. unfold parseManagementGroupPolicyDefinitionNameFromID.
  pose proof (Split_len_pos id "/"%char) as Hpos.
  destruct (Z.eqb_spec (len (strings.Split id "/"%char)) 0) as [H0|_]; [lia|].
  destruct (Z.eqb_spec (len (strings.Split id "/"%char)) 9) as [H9|_]; [contradiction|].
  reflexivity.
Qed.

(** The parser on an input of 9 segments. *)
Lemma parse_nine (id : string) :
  len (strings.Split id "/"%char) = 9 ->
  parseManagementGroupPolicyDefinitionNameFromID id
  = Ret (Some {| ManagementGroupID := strings.Join (firstn 5 (strings.Split id "/"%char)) "/";
                 Name := List.last (strings.Split id "/"%char) EmptyString |}, None).
Proof.
  intros H9. unfold parseManagementGroupPolicyDefinitionNameFromID.
  rewrite H9. simpl (9 =? 0). simpl (negb (9 =? 9)). cbv iota.
  unfold len in H9.
  destruct (strings.Split id "/"%char)
    as [|c0 [|c1 [|c2 [|c3 [|c4 [|c5 [|c6 [|c7 [|c8 [|c9 rest]]]]]]]]]];
    simpl in H9; try lia.
  reflexivity.
Qed.

Lemma segment_error_text (n : Z) (id : string) :
  Error (Errorf errIdSegments [AInt n; AString id])
  = Some ("Azure Management Group Policy Definition Id should have 8 segments, got "
          ++ strconv.Itoa n ++ ": '" ++ id ++ "'")%string.
Proof. reflexivity. Qed.

(** C3 (as stated, refuted).  The input [a/b] splits into 2 segments, not 9,
    and the error of its parse does not report the counts of the split: its
    text, "... should have 8 segments, got 1: 'a/b'", holds neither the 9
    segments required nor the 2 segments found. *)
Lemma split_counts_not_reported :
  len (strings.Split "a/b" "/"%char) = 2
  /\ len (strings.Split "a/b" "/"%char) <> 9
  /\ ~ reportsSplitCounts "a/b".
Proof.
  split; [reflexivity|]. split; [vm_compute; discriminate|].
  intros (e & message & Hparse & Htext & Hexpected & _).
  vm_compute in Hparse. injection Hparse as <-.
  vm_compute in Htext. injection Htext as <-.
  vm_compute in Hexpected. discriminate.
Qed.

(** C3 (amended).  For every input that does not split on '/' into exactly 9
    segments, identifier parsing fails with the segment-count error, and the
    text of that error states 8 as the expected count and, as the actual
    count, the number of '/' separators of the input, which is one less than
    its number of segments. *)
Theorem parse_rejects_other_segment_counts (id : string) :
  len (strings.Split id "/"%char) <> 9 ->
  exists e,
    parseManagementGroupPolicyDefinitionNameFromID id = Ret (None, Some e)
    /\ e = Errorf errIdSegments [AInt (Z.of_nat (Count id "/"%char)); AString id]
    /\ Error e
       = Some ("Azure Management Group Policy Definition Id should have 8 segments, got "
               ++ strconv.Itoa (Z.of_nat (Count id "/"%char)) ++ ": '" ++ id ++ "'")%string
    /\ Z.of_nat (Count id "/"%char) = len (strings.Split id "/"%char) - 1.
Proof.
  intros Hne.
  assert (Hcount : Z.of_nat (Count id "/"%char) = len (strings.Split id "/"%char) - 1)
    by (rewrite Split_len; lia).
  eexists. split; [apply parse_segment_error; exact Hne|].
  rewrite <- Hcount. split; [reflexivity|]. split; [apply segment_error_text|reflexivity].
Qed.

(** C3 (amended) on the input [a/b]. *)
Lemma parse_rejects_other_segment_counts_witness :
  len (strings.Split "a/b" "/"%char) <> 9
  /\ exists e,
       parseManagementGroupPolicyDefinitionNameFromID "a/b" = Ret (None, Some e)
       /\ e = Errorf errIdSegments [AInt (Z.of_nat (Count "a/b" "/"%char)); AString "a/b"]
       /\ Error e
          = Some ("Azure Management Group Policy Definition Id should have 8 segments, got "
                  ++ strconv.Itoa (Z.of_nat (Count "a/b" "/"%char)) ++ ": '" ++ "a/b" ++ "'")%string
       /\ Z.of_nat (Count "a/b" "/"%char) = len (strings.Split "a/b" "/"%char) - 1.
Proof.
  assert (H : len (strings.Split "a/b" "/"%char) <> 9) by (vm_compute; discriminate).
  split; [exact H|]. exact (parse_rejects_other_segment_counts "a/b" H).
Defined.

(** C4.  For every input that splits on '/' into exactly 9 segments, parsing
    succeeds; the scope id it returns is the first 5 segments joined with '/'
    and the name is the last segment.  The literal identifier of the spec
    parses to the scope id "/providers/Microsoft.Management/managementGroups/mg1"
    and the name "pol1". *)
Theorem parse_nine_segments :
  (forall id : string,
     len (strings.Split id "/"%char) = 9 ->
     parseManagementGroupPolicyDefinitionNameFromID id
     = Ret (Some {| ManagementGroupID :=
                      strings.Join (firstn 5 (strings.Split id "/"%char)) "/";
                    Name := List.last (strings.Split id "/"%char) EmptyString |}, None))
  /\ parseManagementGroupPolicyDefinitionNameFromID
       "/providers/Microsoft.Management/managementGroups/mg1/providers/Microsoft.Authorization/policyDefinitions/pol1"
     = Ret (Some {| ManagementGroupID := "/providers/Microsoft.Management/managementGroups/mg1";
                    Name := "pol1" |}, None).
Proof.
  split; [exact parse_nine|]. vm_compute. reflexivity.
Qed.

(** C4 on the literal identifier. *)
Lemma parse_nine_segments_witness :
  len (strings.Split literalId "/"%char) = 9
  /\ parseManagementGroupPolicyDefinitionNameFromID literalId
     = Ret (Some {| ManagementGroupID :=
                      strings.Join (firstn 5 (strings.Split literalId "/"%char)) "/";
                    Name := List.last (strings.Split literalId "/"%char) EmptyString |}, None).
Proof.
  assert (H : len (strings.Split literalId "/"%char) = 9) by reflexivity.
  split; [exact H|]. exact (proj1 parse_nine_segments literalId H).
Defined.

(** C9.  Splitting any string on '/' yields at least one segment, so the
    parser never returns its "empty or not formatted correctly" error: it
    either succeeds or returns the segment-count error, on the empty string
    too, and it never panics. *)
Theorem empty_id_branch_unreachable :
  (forall id : string, 1 <= len (strings.Split id "/"%char))
  /\ (forall id : string,
        parseManagementGroupPolicyDefinitionNameFromID id
        <> Ret (None, Some (Errorf errIdEmpty [AString id])))
  /\ (forall id : string,
        (exists v, parseManagementGroupPolicyDefinitionNameFromID id = Ret (Some v, None))
        \/ parseManagementGroupPolicyDefinitionNameFromID id
           = Ret (None, Some (Errorf errIdSegments
                                [AInt (len (strings.Split id "/"%char) - 1); AString id])))
  /\ parseManagementGroupPolicyDefinitionNameFromID EmptyString
     = Ret (None, Some (Errorf errIdSegments [AInt 0; AString EmptyString])).
Proof.
  assert (Hcases : forall id : string,
            (exists v, parseManagementGroupPolicyDefinitionNameFromID id = Ret (Some v, None))
            \/ parseManagementGroupPolicyDefinitionNameFromID id
               = Ret (None, Some (Errorf errIdSegments
                                    [AInt (len (strings.Split id "/"%char) - 1); AString id]))).
  { intros id. destruct (Z.eq_dec (len (strings.Split id "/"%char)) 9) as [H9|Hne].
    - left. eexists. apply parse_nine. exact H9.
    - right. apply parse_segment_error. exact Hne. }
  split; [intros id; pose proof (Split_len_pos id "/"%char); lia|].
  split; [|split; [exact Hcases|reflexivity]].
  intros id Hempty. destruct (Hcases id) as [[v Hv]|Hseg].
  - rewrite Hv in Hempty. discriminate.
  - rewrite Hseg in Hempty. discriminate.
Qed.

(** ** The wait as a state machine *)

Section WaitMachine.

Context {World : Type}.
Variable conf : @StateChangeConf World.

Lemma waitRun_final (s : waitState) (rs : list refreshResult) :
  final s -> waitRun conf s rs = (s, rs).
Proof. destruct s, rs; simpl; intros H; try reflexivity; destruct H. Qed.

Lemma observe_error (t n : Z) (res : option policy.PolicyDefinition) (state : string) (e : error) :
  observe conf t n (res, state, Some e) = Failed e.
Proof. reflexivity. Qed.


(** The wait against the remote is the wait over the outcomes the remote
    gives: when the polls return [rs] and the wait over [rs] ends, having read
    them all, the loop ends in the same state. *)
Lemma waitLoop_polled (rs : list refreshResult) :
  forall (fuel : nat) (s s' : waitState) (st st' : state),
    polled (Refresh conf) st rs st' ->
    waitRun conf s rs = (s', []) ->
    final s' ->
    (length rs <= fuel)%nat ->
    waitLoop conf fuel s st = (Ret s', st').
Proof.
  induction rs as [|r rs IH]; intros fuel s s' st st' Hpolled Hrun Hfinal Hfuel;
    inversion Hpolled as [|? st1 ? ? ? Hrefresh Hrest]; subst.
  - destruct s as [t n| | |]; simpl in Hrun.
    + destruct fuel; simpl; destruct (Timeout conf <=? t);
        injection Hrun as <-; try reflexivity; destruct Hfinal.
    + injection Hrun as <-. destruct fuel; reflexivity.
    + injection Hrun as <-. destruct fuel; reflexivity.
    + injection Hrun as <-. destruct fuel; reflexivity.
  - destruct s as [t n| | |]; simpl in Hrun; try discriminate.
    destruct fuel as [|fuel]; [simpl in Hfuel; lia|]. simpl.
    destruct (Timeout conf <=? t); [discriminate|].
    unfold bind. rewrite Hrefresh.
    apply IH; [exact Hrest|exact Hrun|exact Hfinal|simpl in Hfuel; lia].
Qed.





End WaitMachine.

Section WaitBounds.

Context {World : Type}.
Variable conf : @StateChangeConf World.

(** A wait that is left in progress has not reached its timeout. *)
Lemma waitRun_waiting (rs : list refreshResult) :
  forall (s : waitState) (t n : Z) (post : list refreshResult),
    waitRun conf s rs = (Waiting t n, post) ->
    (Timeout conf <=? t) = false /\ post = [].
Proof.
  induction rs as [|r rs IH]; intros s t n post Hrun; destruct s as [t0 n0| | |];
    simpl in Hrun; try discriminate.
  - destruct (Timeout conf <=? t0) eqn:Hexp; [discriminate|].
    injection Hrun as <- <- <-. auto.
  - destruct (Timeout conf <=? t0); [discriminate|]. eapply IH. exact Hrun.
Qed.

(** Reading more outcomes continues the wait where it was left. *)
Lemma waitRun_app (rs rs' : list refreshResult) :
  forall (s s1 : waitState),
    waitRun conf s rs = (s1, []) ->
    waitRun conf s (rs ++ rs')%list = waitRun conf s1 rs'.
Proof.
  induction rs as [|r rs IH]; intros s s1 Hrun; destruct s as [t n| | |];
    simpl in Hrun; try discriminate.
  - simpl app. destruct (Timeout conf <=? t) eqn:Hexp; injection Hrun as <-.
    + destruct rs'; simpl; rewrite Hexp; reflexivity.
    + reflexivity.
  - injection Hrun as <-. reflexivity.
  - injection Hrun as <-. reflexivity.
  - injection Hrun as <-. reflexivity.
  - simpl. destruct (Timeout conf <=? t); [discriminate|]. apply IH. exact Hrun.
Qed.

(** The outcomes a wait reads are read before the timeout, one every
    [MinTimeout]. *)
Lemma waitRun_consumed (rs : list refreshResult) :
  forall (t n : Z) (s' : waitState) (post : list refreshResult),
    waitRun conf (Waiting t n) rs = (s', post) ->
    exists k : nat,
      length rs = (k + length post)%nat
      /\ (forall j : nat, (j < k)%nat -> t + Z.of_nat j * MinTimeout conf < Timeout conf)
      /\ (s' = TimedOut -> Timeout conf <= t + Z.of_nat k * MinTimeout conf).
Proof.
  induction rs as [|r rs IH]; intros t n s' post Hrun; simpl in Hrun.
  - exists O. destruct (Z.leb_spec (Timeout conf) t); injection Hrun as <- <-.
    + split; [reflexivity|]. split; [intros j Hj; lia|]. intros _. lia.
    + split; [reflexivity|]. split; [intros j Hj; lia|]. discriminate.
  - destruct (Z.leb_spec (Timeout conf) t) as [Hexp|Hexp].
    + injection Hrun as <- <-. exists O.
      split; [reflexivity|]. split; [intros j Hj; lia|]. intros _. lia.
    + assert (Hfinal : forall s, final s -> s <> TimedOut ->
                waitRun conf s rs = (s', post) ->
                exists k : nat,
                  length (r :: rs) = (k + length post)%nat
                  /\ (forall j : nat, (j < k)%nat ->
                        t + Z.of_nat j * MinTimeout conf < Timeout conf)
                  /\ (s' = TimedOut -> Timeout conf <= t + Z.of_nat k * MinTimeout conf)).
      { intros s Hs Hne Hrun'. rewrite waitRun_final in Hrun' by exact Hs.
        injection Hrun' as <- <-. exists 1%nat. split; [reflexivity|].
        split; [intros j Hj; assert (j = O) by lia; subst; lia|].
        intros Heq. contradiction. }
      assert (Hstep : forall n', waitRun conf (Waiting (t + MinTimeout conf) n') rs
                                 = (s', post) ->
                exists k : nat,
                  length (r :: rs) = (k + length post)%nat
                  /\ (forall j : nat, (j < k)%nat ->
                        t + Z.of_nat j * MinTimeout conf < Timeout conf)
                  /\ (s' = TimedOut -> Timeout conf <= t + Z.of_nat k * MinTimeout conf)).
      { intros n' Hrun'. apply IH in Hrun'. destruct Hrun' as (k & Hlen & Hlt & Hge).
        exists (S k). split; [simpl; lia|]. split.
        - intros [|j] Hj; [lia|]. specialize (Hlt j ltac:(lia)). lia.
        - intros Hs. specialize (Hge Hs). lia. }
      destruct r as [[x state] [e|]]; simpl in Hrun.
      * eapply (Hfinal (Failed e)); [exact I|discriminate|exact Hrun].
      * destruct (inStates state (Target conf)).
        -- destruct (n + 1 =? ContinuousTargetOccurence conf).
           ++ eapply (Hfinal (Reached x)); [exact I|discriminate|exact Hrun].
           ++ eapply Hstep. exact Hrun.
        -- destruct (inStates state (Pending conf)).
           ++ eapply Hstep. exact Hrun.
           ++ eapply (Hfinal (Failed _)); [exact I|discriminate|exact Hrun].
Qed.

End WaitBounds.

(** ** Running the operations *)

Ltac run_unfold :=
  unfold andThen, dGet, dId, dSet, dSetPtr, dSetId, expandJsonFromString,
    flattenJsonToString, createOrUpdateAtManagementGroup, getAtManagementGroup,
    deleteAtManagementGroup, record, onRemote, onData, bind, ret, lift in *.

Section Effects.

Context {World : Type}.

Lemma appends_ret {A : Type} (P : call -> Prop) (a : A) : appends (World := World) P (ret a).
Proof.
  intros st r st' H. injection H as <- <-. exists []. rewrite app_nil_r. auto.
Qed.

Lemma appends_lift {A : Type} (P : call -> Prop) (o : outcome A) : appends (World := World) P (lift o).
Proof.
  intros st r st' H. injection H as <- <-. exists []. rewrite app_nil_r. auto.
Qed.

Lemma appends_bind {A B : Type} (P : call -> Prop) (c : M A) (k : A -> M B) :
  appends (World := World) P c -> (forall a, appends (World := World) P (k a)) -> appends (World := World) P (bind c k).
Proof.
  intros Hc Hk st r st' H. unfold bind in H.
  destruct (c st) as [[a| |] st1] eqn:Hrun.
  - destruct (Hc _ _ _ Hrun) as (new1 & Hcalls1 & Hall1).
    destruct (Hk a _ _ _ H) as (new2 & Hcalls2 & Hall2).
    exists (new1 ++ new2)%list. rewrite Hcalls2, Hcalls1, app_assoc.
    split; [reflexivity|]. apply Forall_app. auto.
  - injection H as <- <-. eapply Hc. exact Hrun.
  - injection H as <- <-. eapply Hc. exact Hrun.
Qed.

Lemma appends_record (P : call -> Prop) (c : call) : P c -> appends (World := World) P (record c).
Proof.
  intros Hc st r st' H. injection H as <- <-. exists [c]. simpl. auto.
Qed.

Lemma appends_onRemote {A : Type} (P : call -> Prop) (f : World -> A * World) :
  appends (World := World) P (onRemote f).
Proof.
  intros st r st' H. unfold onRemote in H. destruct (f (remote st)) as [a w].
  injection H as <- <-. exists []. simpl. rewrite app_nil_r. auto.
Qed.

Lemma appends_onData (P : call -> Prop) (f : schema.ResourceData -> schema.ResourceData) :
  appends (World := World) P (onData f).
Proof.
  intros st r st' H. injection H as <- <-. exists []. simpl. rewrite app_nil_r. auto.
Qed.

Lemma appends_read {A : Type} (P : call -> Prop) (f : state -> A) :
  appends (World := World) P (fun st => (Ret (f st), st)).
Proof.
  intros st r st' H. injection H as <- <-. exists []. rewrite app_nil_r. auto.
Qed.

Lemma appends_andThen (P : call -> Prop) (c k : M (option error)) :
  appends (World := World) P c -> appends (World := World) P k -> appends (World := World) P (andThen c k).
Proof.
  intros Hc Hk. unfold andThen. apply appends_bind; [exact Hc|].
  intros [e|]; [apply appends_ret|exact Hk].
Qed.

End Effects.

Ltac appends_step :=
  lazymatch goal with
  | |- appends _ (bind _ _) => apply appends_bind; [|intros ?]
  | |- appends _ (andThen _ _) => apply appends_andThen
  | |- appends _ (ret _) => apply appends_ret
  | |- appends _ (lift _) => apply appends_lift
  | |- appends _ (record _) => apply appends_record; exact I
  | |- appends _ (onRemote _) => apply appends_onRemote
  | |- appends _ (onData _) => apply appends_onData
  | |- appends _ dId => apply (appends_read _ (fun st => schema.Id (data st)))
  | |- appends _ (dGet ?k) => apply (appends_read _ (fun st => schema.Get (data st) k))
  | |- appends _ (dSet _ _) => apply appends_onData
  | |- appends _ (dSetPtr _ _) => apply appends_onData
  | |- appends _ (dSetId _) => apply appends_onData
  | |- appends _ (getAtManagementGroup _ _ _) => unfold getAtManagementGroup
  | |- appends _ (flattenJsonToString _ _) => unfold flattenJsonToString
  | |- appends _ (match ?x with _ => _ end) => destruct x
  end.

Section Operations.

Context {World : Type}.
Variable ExpandJsonFromString : string -> gmap string value * option error.
Variable FlattenJsonToString : gmap string value -> string * option error.
Variable meta : ArmClient World.

Lemma createUpdate_unfold (st : state) :
  resourceArmManagementGroupPolicyDefinitionCreateUpdate
    ExpandJsonFromString FlattenJsonToString meta st
  = match request ExpandJsonFromString (data st) with
    | (cs, inl e) => (Ret (Some e), recorded st cs)
    | (cs, inr p) =>
        let name := schema.Get (data st) "name" in
        let managementGroupID := schema.Get (data st) "management_group_id" in
        let definition := requestDefinition (data st) p in
        let written :=
          (calls st ++ cs ++ [CreateOrUpdateCall name definition managementGroupID])%list in
        match policy.CreateOrUpdateAtManagementGroup (policyDefinitionsClient meta)
                name definition managementGroupID (remote st) with
        | ((_, Some e), w) =>
            (Ret (Some (Errorf errCreating [AString name; AError e])),
             {| data := data st; remote := w; calls := written |})
        | ((_, None), w) =>
            afterWrite FlattenJsonToString meta name managementGroupID
              {| data := data st; remote := w; calls := written |}
        end
    end.
Proof.
  destruct st as [d w cs0].
  unfold resourceArmManagementGroupPolicyDefinitionCreateUpdate, request, expandField,
    afterWrite, recorded, requestDefinition.
  run_unfold. cbn [data remote calls fst snd].
  destruct (String.eqb (schema.Get d "policy_rule") EmptyString); cbn [negb];
    [|destruct (ExpandJsonFromString (schema.Get d "policy_rule")) as [doc1 [e1|]]];
    cbn [data remote calls fst snd app]; rewrite ?app_nil_r; try reflexivity.
  all: destruct (String.eqb (schema.Get d "metadata") EmptyString); cbn [negb];
    [|destruct (ExpandJsonFromString (schema.Get d "metadata")) as [doc2 [e2|]]];
    cbn [data remote calls fst snd app]; rewrite ?app_nil_r; try reflexivity.
  all: destruct (String.eqb (schema.Get d "parameters") EmptyString); cbn [negb];
    [|destruct (ExpandJsonFromString (schema.Get d "parameters")) as [doc3 [e3|]]];
    cbn [data remote calls fst snd app]; rewrite ?app_nil_r, <- ?app_assoc; try reflexivity.
  all: cbn [app];
    destruct (policy.CreateOrUpdateAtManagementGroup _ _ _ _ _) as [[u [e|]] w1];
    cbn [data remote calls fst snd app]; rewrite <- ?app_assoc; try reflexivity.
Qed.

Lemma refresh_appends (name managementGroupID : string) :
  appends readOnly
    (managementGroupPolicyDefinitionRefreshFunc (policyDefinitionsClient meta)
       name managementGroupID).
Proof.
  unfold managementGroupPolicyDefinitionRefreshFunc. repeat appends_step.
Qed.

Lemma waitLoop_appends (conf : StateChangeConf) (fuel : nat) :
  appends readOnly (Refresh conf) ->
  forall s, appends (World := World) readOnly (waitLoop conf fuel s).
Proof.
  intros Hrefresh. induction fuel as [|fuel IH]; intros s; destruct s as [t n| | |]; simpl;
    try apply appends_ret.
  - destruct (Timeout conf <=? t); [apply appends_ret|apply appends_lift].
  - destruct (Timeout conf <=? t); [apply appends_ret|].
    apply appends_bind; [exact Hrefresh|]. intros r. apply IH.
Qed.

Lemma WaitForState_appends (conf : StateChangeConf) :
  appends readOnly (Refresh conf) ->
  appends (World := World) readOnly (WaitForState conf).
Proof.
  intros Hrefresh. unfold WaitForState.
  apply appends_bind; [apply waitLoop_appends; exact Hrefresh|].
  intros s. destruct s; try apply appends_ret. apply appends_lift.
Qed.

Lemma read_appends :
  appends readOnly (resourceArmManagementGroupPolicyDefinitionRead FlattenJsonToString meta).
Proof.
  unfold resourceArmManagementGroupPolicyDefinitionRead. repeat appends_step.
Qed.

Lemma afterWrite_appends (name managementGroupID : string) :
  appends readOnly (afterWrite FlattenJsonToString meta name managementGroupID).
Proof.
  unfold afterWrite.
  apply appends_bind; [apply WaitForState_appends; apply refresh_appends|].
  intros w. repeat appends_step. apply read_appends.
Qed.

End Operations.

Section Decoding.

Context {World : Type}.
Variable ExpandJsonFromString : string -> gmap string value * option error.
Variable FlattenJsonToString : gmap string value -> string * option error.
Variable meta : ArmClient World.

Lemma decoderCalls_are_decoder_calls (s : string) :
  Forall isDecoderCall (decoderCalls s).
Proof.
  unfold decoderCalls. destruct (String.eqb_spec s EmptyString); constructor; [|constructor].
  exists s. auto.
Qed.

(** The first part of Create/Update, by cases: either it stops at the first
    offending field, in the order policy_rule, metadata, parameters, or no
    field is offending and the properties hold the decoded documents. *)
Lemma request_cases (d : schema.ResourceData) :
  let pr := schema.Get d "policy_rule" in
  let md := schema.Get d "metadata" in
  let pa := schema.Get d "parameters" in
  (exists e, pr <> EmptyString /\ snd (ExpandJsonFromString pr) = Some e
     /\ request ExpandJsonFromString d
        = (decoderCalls pr, inl (Errorf errParsePolicyRule [AError e])))
  \/ (exists e, ~ offending ExpandJsonFromString pr
        /\ md <> EmptyString /\ snd (ExpandJsonFromString md) = Some e
        /\ request ExpandJsonFromString d
           = ((decoderCalls pr ++ decoderCalls md)%list,
              inl (Errorf errParseMetadata [AError e])))
  \/ (exists e, ~ offending ExpandJsonFromString pr /\ ~ offending ExpandJsonFromString md
        /\ pa <> EmptyString /\ snd (ExpandJsonFromString pa) = Some e
        /\ request ExpandJsonFromString d
           = ((decoderCalls pr ++ decoderCalls md ++ decoderCalls pa)%list,
              inl (Errorf errParseParameters [AError e])))
  \/ (~ offending ExpandJsonFromString pr /\ ~ offending ExpandJsonFromString md
      /\ ~ offending ExpandJsonFromString pa
      /\ request ExpandJsonFromString d
         = ((decoderCalls pr ++ decoderCalls md ++ decoderCalls pa)%list,
            inr {| policy.PolicyType := schema.Get d "policy_type";
                   policy.Mode := schema.Get d "mode";
                   policy.DisplayName := Some (schema.Get d "display_name");
                   policy.Description := Some (schema.Get d "description");
                   policy.PolicyRule := requestValue ExpandJsonFromString pr;
                   policy.Metadata := requestValue ExpandJsonFromString md;
                   policy.Parameters := requestValue ExpandJsonFromString pa |})).
Proof.
  intros pr md pa. unfold request, expandField, decoderCalls, requestValue, offending.
  fold pr md pa.
  destruct (String.eqb_spec pr EmptyString) as [Hpr|Hpr];
    [|destruct (ExpandJsonFromString pr) as [doc1 [e1|]] eqn:H1; simpl].
  2: { left. exists e1. auto. }
  all: destruct (String.eqb_spec md EmptyString) as [Hmd|Hmd];
    [|destruct (ExpandJsonFromString md) as [doc2 [e2|]] eqn:H2; simpl].
  all: try (right; left; exists e2; repeat split; auto; intros [? ?]; congruence).
  all: destruct (String.eqb_spec pa EmptyString) as [Hpa|Hpa];
    [|destruct (ExpandJsonFromString pa) as [doc3 [e3|]] eqn:H3; simpl].
  all: try (right; right; left; exists e3; repeat split; auto; intros [? ?]; congruence).
  all: right; right; right; repeat split; auto; intros [? ?]; congruence.
Qed.


Lemma in_decoder_calls (cs : list call) :
  Forall isDecoderCall cs ->
  ~ In (ExpandJsonFromStringCall EmptyString) cs
  /\ (forall name definition managementGroupID,
        ~ In (CreateOrUpdateCall name definition managementGroupID) cs).
Proof.
  intros Hall. rewrite List.Forall_forall in Hall. split.
  - intros Hin. destruct (Hall _ Hin) as (s & Hs & Heq). congruence.
  - intros name definition managementGroupID Hin.
    destruct (Hall _ Hin) as (s & _ & Heq). discriminate.
Qed.

Lemma in_read_only (cs : list call) :
  Forall readOnly cs ->
  ~ In (ExpandJsonFromStringCall EmptyString) cs
  /\ (forall name definition managementGroupID,
        ~ In (CreateOrUpdateCall name definition managementGroupID) cs).
Proof.
  intros Hall. rewrite List.Forall_forall in Hall. split.
  - intros Hin. exact (Hall _ Hin).
  - intros name definition managementGroupID Hin. exact (Hall _ Hin).
Qed.

(** C6.  If one of the three optional JSON fields is not empty and does not
    decode, Create/Update returns the error "unable to parse <field>: ..." of
    an offending field (the first one, in the order policy_rule, metadata,
    parameters), wrapping the decoder's error.  It leaves the resource data
    and the remote as they were, and the only calls it has made are calls of
    the decoder: the write is never attempted. *)
Theorem malformed_json_fails_before_write (st : state) :
  let d := data st in
  offending ExpandJsonFromString (schema.Get d "policy_rule")
  \/ offending ExpandJsonFromString (schema.Get d "metadata")
  \/ offending ExpandJsonFromString (schema.Get d "parameters") ->
  exists field e cs,
    In field ["policy_rule"; "metadata"; "parameters"]
    /\ schema.Get d field <> EmptyString
    /\ snd (ExpandJsonFromString (schema.Get d field)) = Some e
    /\ resourceArmManagementGroupPolicyDefinitionCreateUpdate
         ExpandJsonFromString FlattenJsonToString meta st
       = (Ret (Some (Errorf ("unable to parse " ++ field ++ ": %s") [AError e])),
          recorded st cs)
    /\ Forall (fun c => exists s, c = ExpandJsonFromStringCall s) cs
    /\ (forall name definition managementGroupID,
          ~ In (CreateOrUpdateCall name definition managementGroupID) cs).
Proof.
  intros d Hoff. rewrite createUpdate_unfold. fold d.
  assert (Hweak : forall cs, Forall isDecoderCall cs ->
            Forall (fun c => exists s, c = ExpandJsonFromStringCall s) cs).
  { intros cs. apply List.Forall_impl. intros c (s & _ & ->). eauto. }
  destruct (request_cases d)
    as [(e & Hne & Herr & ->)|[(e & _ & Hne & Herr & ->)|[(e & _ & _ & Hne & Herr & ->)
        |(H1 & H2 & H3 & _)]]].
  - exists "policy_rule", e, (decoderCalls (schema.Get d "policy_rule")).
    pose proof (decoderCalls_are_decoder_calls (schema.Get d "policy_rule")) as Hcalls.
    repeat split; simpl; auto. apply (in_decoder_calls _ Hcalls).
  - exists "metadata", e,
      (decoderCalls (schema.Get d "policy_rule") ++ decoderCalls (schema.Get d "metadata"))%list.
    assert (Hcalls : Forall isDecoderCall
              (decoderCalls (schema.Get d "policy_rule")
               ++ decoderCalls (schema.Get d "metadata"))%list)
      by (apply Forall_app; split; apply decoderCalls_are_decoder_calls).
    repeat split; simpl; auto. apply (in_decoder_calls _ Hcalls).
  - exists "parameters", e,
      (decoderCalls (schema.Get d "policy_rule") ++ decoderCalls (schema.Get d "metadata")
       ++ decoderCalls (schema.Get d "parameters"))%list.
    assert (Hcalls : Forall isDecoderCall
              (decoderCalls (schema.Get d "policy_rule")
               ++ decoderCalls (schema.Get d "metadata")
               ++ decoderCalls (schema.Get d "parameters"))%list)
      by (repeat (apply Forall_app; split); apply decoderCalls_are_decoder_calls).
    repeat split; simpl; auto. apply (in_decoder_calls _ Hcalls).
  - tauto.
Qed.

End Decoding.

Section Requests.

Context {World : Type}.
Variable ExpandJsonFromString : string -> gmap string value * option error.
Variable FlattenJsonToString : gmap string value -> string * option error.
Variable meta : ArmClient World.

Lemma requestValue_empty (s : string) :
  s = EmptyString -> requestValue ExpandJsonFromString s = VNil.
Proof. intros ->. reflexivity. Qed.

Lemma requestValue_decoded (s : string) :
  s <> EmptyString ->
  requestValue ExpandJsonFromString s = VMapPtr (fst (ExpandJsonFromString s)).
Proof.
  intros Hne. unfold requestValue. destruct (String.eqb_spec s EmptyString); congruence.
Qed.

(** C7.  Whatever the resource data, the calls Create/Update makes never
    include a call of the decoder on the empty string: no parse is attempted
    for an optional JSON field that is empty.  In every write it sends, the
    field of the request that corresponds to an empty JSON field is nil, and
    the field that corresponds to a non-empty one holds the pointer to its
    decoded document.  When no field is offending the write is sent: the calls
    are the decoder's, one per non-empty field in source order, then the
    write, then only reads of the remote and serializations. *)
Theorem empty_json_field_is_unset (st : state) :
  let d := data st in
  let pr := schema.Get d "policy_rule" in
  let md := schema.Get d "metadata" in
  let pa := schema.Get d "parameters" in
  exists new,
    calls (snd (resourceArmManagementGroupPolicyDefinitionCreateUpdate
                  ExpandJsonFromString FlattenJsonToString meta st))
    = (calls st ++ new)%list
    /\ ~ In (ExpandJsonFromStringCall EmptyString) new
    /\ (forall name definition managementGroupID,
          In (CreateOrUpdateCall name definition managementGroupID) new ->
          exists props,
            policy.Properties definition = Some props
            /\ (pr = EmptyString -> policy.PolicyRule props = VNil)
            /\ (md = EmptyString -> policy.Metadata props = VNil)
            /\ (pa = EmptyString -> policy.Parameters props = VNil)
            /\ (pr <> EmptyString ->
                policy.PolicyRule props = VMapPtr (fst (ExpandJsonFromString pr)))
            /\ (md <> EmptyString ->
                policy.Metadata props = VMapPtr (fst (ExpandJsonFromString md)))
            /\ (pa <> EmptyString ->
                policy.Parameters props = VMapPtr (fst (ExpandJsonFromString pa))))
    /\ (~ offending ExpandJsonFromString pr ->
        ~ offending ExpandJsonFromString md ->
        ~ offending ExpandJsonFromString pa ->
        exists definition rest,
          new = (decoderCalls pr ++ decoderCalls md ++ decoderCalls pa
                 ++ CreateOrUpdateCall (schema.Get d "name") definition
                      (schema.Get d "management_group_id") :: rest)%list
          /\ Forall readOnly rest).
Proof.
  intros d pr md pa. rewrite createUpdate_unfold. fold d.
  pose proof (decoderCalls_are_decoder_calls pr) as Hpr.
  pose proof (decoderCalls_are_decoder_calls md) as Hmd.
  pose proof (decoderCalls_are_decoder_calls pa) as Hpa.
  destruct (request_cases ExpandJsonFromString d)
    as [(e & Hne & Herr & ->)|[(e & Hok1 & Hne & Herr & ->)|[(e & Hok1 & Hok2 & Hne & Herr & ->)
        |(H1 & H2 & H3 & ->)]]].
  - exists (decoderCalls pr). split; [reflexivity|].
    destruct (in_decoder_calls _ Hpr) as [Hempty Hwrite].
    split; [exact Hempty|]. split; [intros ? ? ? Hin; destruct (Hwrite _ _ _ Hin)|].
    intros Hoff. exfalso. apply Hoff. split; [exact Hne|unfold pr, md, pa; rewrite Herr; discriminate].
  - exists (decoderCalls pr ++ decoderCalls md)%list. split; [reflexivity|].
    assert (Hcalls : Forall isDecoderCall (decoderCalls pr ++ decoderCalls md)%list)
      by (apply Forall_app; split; assumption).
    destruct (in_decoder_calls _ Hcalls) as [Hempty Hwrite].
    split; [exact Hempty|]. split; [intros ? ? ? Hin; destruct (Hwrite _ _ _ Hin)|].
    intros _ Hoff. exfalso. apply Hoff. split; [exact Hne|unfold pr, md, pa; rewrite Herr; discriminate].
  - exists (decoderCalls pr ++ decoderCalls md ++ decoderCalls pa)%list. split; [reflexivity|].
    assert (Hcalls : Forall isDecoderCall
                       (decoderCalls pr ++ decoderCalls md ++ decoderCalls pa)%list)
      by (repeat (apply Forall_app; split); assumption).
    destruct (in_decoder_calls _ Hcalls) as [Hempty Hwrite].
    split; [exact Hempty|]. split; [intros ? ? ? Hin; destruct (Hwrite _ _ _ Hin)|].
    intros _ _ Hoff. exfalso. apply Hoff. split; [exact Hne|unfold pr, md, pa; rewrite Herr; discriminate].
  - set (props := {| policy.PolicyType := schema.Get d "policy_type";
                     policy.Mode := schema.Get d "mode";
                     policy.DisplayName := Some (schema.Get d "display_name");
                     policy.Description := Some (schema.Get d "description");
                     policy.PolicyRule := requestValue ExpandJsonFromString pr;
                     policy.Metadata := requestValue ExpandJsonFromString md;
                     policy.Parameters := requestValue ExpandJsonFromString pa |}).
    set (write := CreateOrUpdateCall (schema.Get d "name") (requestDefinition d props)
                    (schema.Get d "management_group_id")).
    set (cs := (decoderCalls pr ++ decoderCalls md ++ decoderCalls pa)%list).
    assert (Hcalls : Forall isDecoderCall cs)
      by (repeat (apply Forall_app; split); assumption).
    destruct (in_decoder_calls _ Hcalls) as [Hempty Hwrite].
    assert (Hshape : exists rest,
              calls (snd (let name := schema.Get d "name" in
                          let managementGroupID := schema.Get d "management_group_id" in
                          let definition := requestDefinition d props in
                          let written := (calls st ++ cs ++ [write])%list in
                          match policy.CreateOrUpdateAtManagementGroup
                                  (policyDefinitionsClient meta)
                                  name definition managementGroupID (remote st) with
                          | ((_, Some e), w) =>
                              (Ret (Some (Errorf errCreating [AString name; AError e])),
                               {| data := d; remote := w; calls := written |})
                          | ((_, None), w) =>
                              afterWrite FlattenJsonToString meta name managementGroupID
                                {| data := d; remote := w; calls := written |}
                          end))
              = (calls st ++ cs ++ write :: rest)%list
              /\ Forall readOnly rest).
    { cbv zeta.
      destruct (policy.CreateOrUpdateAtManagementGroup _ _ _ _ _) as [[u [e|]] w1].
      - exists []. split; [reflexivity|constructor].
      - destruct (afterWrite FlattenJsonToString meta (schema.Get d "name")
                    (schema.Get d "management_group_id")
                    {| data := d; remote := w1; calls := (calls st ++ cs ++ [write])%list |})
          as [r st'] eqn:Hafter.
        destruct (afterWrite_appends FlattenJsonToString meta _ _ _ _ _ Hafter)
          as (rest & Hrest & Hall).
        exists rest. split; [|exact Hall]. simpl in *. rewrite Hrest.
        rewrite <- !app_assoc. reflexivity. }
    destruct Hshape as (rest & Hshape & Hall).
    exists (cs ++ write :: rest)%list. split; [exact Hshape|].
    destruct (in_read_only _ Hall) as [Hempty' Hwrite'].
    split; [|split].
    + intros Hin. apply in_app_or in Hin. destruct Hin as [Hin|[Hin|Hin]];
        [exact (Hempty Hin)|discriminate|exact (Hempty' Hin)].
    + intros name definition managementGroupID Hin.
      apply in_app_or in Hin. destruct Hin as [Hin|[Hin|Hin]];
        [destruct (Hwrite _ _ _ Hin)| |destruct (Hwrite' _ _ _ Hin)].
      injection Hin as _ <- _. exists props. split; [reflexivity|]. simpl.
      repeat split; try apply requestValue_empty; apply requestValue_decoded.
    + intros _ _ _. exists (requestDefinition d props), rest.
      split; [|exact Hall]. unfold cs. rewrite <- !app_assoc. reflexivity.
Qed.

End Requests.

Section Reading.

Context {World : Type}.
Variable FlattenJsonToString : gmap string value -> string * option error.
Variable meta : ArmClient World.

Ltac flatten_clash :=
  match goal with
  | H : forall m, VMap ?m1 = VMap m -> snd (?f m) = None, HF : ?f ?m1 = _ |- _ =>
      specialize (H m1 eq_refl); rewrite HF in H; discriminate
  end.

Ltac read_cases :=
  split; [|split]; intros;
  first [discriminate | reflexivity | (eexists; reflexivity) | flatten_clash].

(** C10.  Read asserts, without a check, that each of the policy rule, the
    metadata and the parameters of the definition it has read is a map, when
    it is not nil.  When the stored id parses, the read succeeds and the
    definition has properties: if each of the three values is nil or a map,
    Read returns (no panic); if one of them is neither (an array, a string, a
    number, a bool), Read panics with the interface-conversion panic instead
    of returning an error, provided the serializer returned no error on the
    maps before it (such an error is returned first); a policy rule that is
    neither nil nor a map panics in every case. *)
Theorem read_type_assertions (st : state) (id : managementGroupPolicyResourceID)
    (resp : policy.PolicyDefinition) (w' : World) (props : policy.DefinitionProperties) :
  parseManagementGroupPolicyDefinitionNameFromID (schema.Id (data st)) = Ret (Some id, None) ->
  policy.GetAtManagementGroup (policyDefinitionsClient meta)
    (Name id) (ManagementGroupID id) (remote st) = ((resp, None), w') ->
  policy.Properties resp = Some props ->
  let run := resourceArmManagementGroupPolicyDefinitionRead FlattenJsonToString meta st in
  let safe := objectOrNil (policy.PolicyRule props) && objectOrNil (policy.Metadata props)
              && objectOrNil (policy.Parameters props) in
  (safe = true -> exists r, fst run = Ret r)
  /\ (flattens FlattenJsonToString (policy.PolicyRule props) ->
      flattens FlattenJsonToString (policy.Metadata props) ->
      safe = false -> fst run = Panic errAssert)
  /\ (objectOrNil (policy.PolicyRule props) = false -> fst run = Panic errAssert).
Proof.
  intros Hparse Hget Hprops run safe. subst run safe.
  unfold resourceArmManagementGroupPolicyDefinitionRead, flattens. run_unfold.
  rewrite Hparse. cbn. rewrite Hget. cbn. rewrite Hprops. cbn.
  destruct (policy.PolicyRule props) as [| | | | |m1|] eqn:HPR; cbn;
    try (destruct (FlattenJsonToString m1) as [s1 [e1|]] eqn:HF1; cbn).
  all: try solve [read_cases].
  all: destruct (policy.Metadata props) as [| | | | |m2|] eqn:HMD; cbn;
    try (destruct (FlattenJsonToString m2) as [s2 [e2|]] eqn:HF2; cbn).
  all: try solve [read_cases].
  all: destruct (policy.Parameters props) as [| | | | |m3|] eqn:HPA; cbn;
    try (destruct (FlattenJsonToString m3) as [s3 [e3|]] eqn:HF3; cbn).
  all: read_cases.
Qed.

End Reading.

Section Lifecycle.

Context {World : Type}.
Variable ExpandJsonFromString : string -> gmap string value * option error.
Variable FlattenJsonToString : gmap string value -> string * option error.
Variable meta : ArmClient World.

(** C5.  When the stored id parses and the remote answers the read with an
    error whose response is not found, Read returns no error and sets the
    stored id to the empty string; when it answers the delete so, Delete
    returns no error, and leaves the resource data as it was. *)
Theorem not_found_is_not_an_error (st : state) (id : managementGroupPolicyResourceID) :
  parseManagementGroupPolicyDefinitionNameFromID (schema.Id (data st)) = Ret (Some id, None) ->
  (forall (resp : policy.PolicyDefinition) (e : error) (w' : World),
     policy.GetAtManagementGroup (policyDefinitionsClient meta)
       (Name id) (ManagementGroupID id) (remote st) = ((resp, Some e), w') ->
     utils.ResponseWasNotFound (policy.Response resp) = true ->
     resourceArmManagementGroupPolicyDefinitionRead FlattenJsonToString meta st
     = (Ret None,
        {| data := schema.SetId (data st) EmptyString;
           remote := w';
           calls := (calls st ++ [GetCall (Name id) (ManagementGroupID id)])%list |}))
  /\ (forall (resp : autorest.Response) (e : error) (w' : World),
        policy.DeleteAtManagementGroup (policyDefinitionsClient meta)
          (Name id) (ManagementGroupID id) (remote st) = ((resp, Some e), w') ->
        utils.ResponseWasNotFound resp = true ->
        resourceArmManagementGroupPolicyDefinitionDelete meta st
        = (Ret None,
           {| data := data st;
              remote := w';
              calls := (calls st ++ [DeleteCall (Name id) (ManagementGroupID id)])%list |})).
Proof.
  intros Hparse. split.
  - intros resp e w' Hget Hnf.
    unfold resourceArmManagementGroupPolicyDefinitionRead. run_unfold.
    rewrite Hparse. cbn. rewrite Hget. cbn. rewrite Hnf. reflexivity.
  - intros resp e w' Hdel Hnf.
    unfold resourceArmManagementGroupPolicyDefinitionDelete. run_unfold.
    rewrite Hparse. cbn. rewrite Hdel. cbn. rewrite Hnf. reflexivity.
Qed.

(** The refresh function on a read that the remote answers with an error
    whose response is not found: the state is "404", and the error is not
    nil. *)
Lemma refresh_not_found (name managementGroupID : string) (st : state)
    (res : policy.PolicyDefinition) (e : error) (w' : World) :
  policy.GetAtManagementGroup (policyDefinitionsClient meta)
    name managementGroupID (remote st) = ((res, Some e), w') ->
  utils.ResponseWasNotFound (policy.Response res) = true ->
  managementGroupPolicyDefinitionRefreshFunc (policyDefinitionsClient meta)
    name managementGroupID st
  = (Ret (None, "404", Some (Errorf errRefresh [AString name; AError e])),
     {| data := data st; remote := w';
        calls := (calls st ++ [GetCall name managementGroupID])%list |}).
Proof.
  intros Hget Hnf. unfold managementGroupPolicyDefinitionRefreshFunc. run_unfold.
  cbn. rewrite Hget. cbn.
  unfold utils.ResponseWasNotFound in Hnf. unfold statusCodeOf.
  destruct (autorest.httpResponse (policy.Response res)) as [h|]; [|discriminate].
  apply Z.eqb_eq in Hnf. rewrite Hnf. reflexivity.
Qed.

(** The refresh function on a read that the remote answers without an error:
    the state is the status code. *)
Lemma refresh_answered (name managementGroupID : string) (st : state)
    (res : policy.PolicyDefinition) (status : Z) (w' : World) :
  policy.GetAtManagementGroup (policyDefinitionsClient meta)
    name managementGroupID (remote st) = ((res, None), w') ->
  autorest.httpResponse (policy.Response res) = Some {| http.StatusCode := status |} ->
  managementGroupPolicyDefinitionRefreshFunc (policyDefinitionsClient meta)
    name managementGroupID st
  = (Ret (Some res, strconv.Itoa status, None),
     {| data := data st; remote := w';
        calls := (calls st ++ [GetCall name managementGroupID])%list |}).
Proof.
  intros Hget Hstatus. unfold managementGroupPolicyDefinitionRefreshFunc. run_unfold.
  cbn. rewrite Hget. cbn. unfold statusCodeOf. rewrite Hstatus. reflexivity.
Qed.

Lemma afterWrite_wait_failed (name managementGroupID : string) (st st' : state)
    (res : option policy.PolicyDefinition) (e : error) :
  WaitForState (stateConf (policyDefinitionsClient meta) name managementGroupID) st
  = (Ret (res, Some e), st') ->
  afterWrite FlattenJsonToString meta name managementGroupID st
  = (Ret (Some (Errorf errWaiting [AString name; AError e])), st').
Proof.
  intros Hwait. unfold afterWrite, bind. rewrite Hwait. reflexivity.
Qed.


End Lifecycle.

Section WaitAgainstRemote.

Context {World : Type}.
Variable conf : @StateChangeConf World.

Lemma polled_app (rs rs' : list refreshResult) (st st1 st2 : state) :
  polled (Refresh conf) st rs st1 ->
  polled (Refresh conf) st1 rs' st2 ->
  polled (Refresh conf) st (rs ++ rs')%list st2.
Proof.
  intros H1 H2. induction H1 as [st|st sta stb r rs Hr Hrest IH]; simpl.
  - exact H2.
  - econstructor; [exact Hr|]. apply IH. exact H2.
Qed.

(** [WaitForState] against the remote: when the polls return [rs] and the
    wait over [rs] ends, having read them all, [WaitForState] answers as that
    final state says. *)
Lemma WaitForState_polled (rs : list refreshResult) (s' : waitState) (st st' : state) :
  0 < MinTimeout conf ->
  polled (Refresh conf) st rs st' ->
  waitRun conf (Waiting 0 0) rs = (s', []) ->
  final s' ->
  WaitForState conf st
  = (match s' with
     | Reached res => Ret (res, None)
     | TimedOut => Ret (None, Some (TimeoutError (Timeout conf) (Target conf)))
     | Failed err => Ret (None, Some err)
     | Waiting _ _ => OutOfFuel
     end, st').
Proof.
  intros Hmin Hpolled Hrun Hfinal. unfold WaitForState, bind.
  assert (Hfuel : (length rs <= pollBudget conf)%nat).
  { destruct (waitRun_consumed conf rs 0 0 s' [] Hrun) as (k & Hlen & Hlt & _).
    simpl in Hlen. rewrite Nat.add_0_r in Hlen. subst k. unfold pollBudget.
    destruct (length rs) as [|k]; [lia|].
    specialize (Hlt k ltac:(lia)).
    assert (Z.of_nat k <= Timeout conf / MinTimeout conf)
      by (apply Z.div_le_lower_bound; lia).
    lia. }
  rewrite (waitLoop_polled conf rs _ _ _ _ _ Hpolled Hrun Hfinal Hfuel).
  destruct s'; reflexivity.
Qed.

End WaitAgainstRemote.

Section PostWriteWait.

Context {World : Type}.
Variable ExpandJsonFromString : string -> gmap string value * option error.
Variable FlattenJsonToString : gmap string value -> string * option error.
Variable meta : ArmClient World.
Variables name managementGroupID : string.

Let conf : StateChangeConf :=
  stateConf (policyDefinitionsClient meta) name managementGroupID.





(** Create/Update from the write on: when the decoding went through and the
    write succeeded, what Create/Update returns is what [afterWrite] returns
    in the state the write left. *)
Lemma createUpdate_after_write (st : state) (cs : list call)
    (p : policy.DefinitionProperties) (u : policy.PolicyDefinition) (w1 : World) :
  name = schema.Get (data st) "name" ->
  managementGroupID = schema.Get (data st) "management_group_id" ->
  request ExpandJsonFromString (data st) = (cs, inr p) ->
  policy.CreateOrUpdateAtManagementGroup (policyDefinitionsClient meta)
    name (requestDefinition (data st) p) managementGroupID (remote st) = ((u, None), w1) ->
  resourceArmManagementGroupPolicyDefinitionCreateUpdate
    ExpandJsonFromString FlattenJsonToString meta st
  = afterWrite FlattenJsonToString meta name managementGroupID
      {| data := data st; remote := w1;
         calls := (calls st ++ cs
                   ++ [CreateOrUpdateCall name (requestDefinition (data st) p)
                         managementGroupID])%list |}.
Proof.
  intros -> -> Hreq Hwrite. rewrite createUpdate_unfold, Hreq. cbv zeta.
  rewrite Hwrite. reflexivity.
Qed.

End PostWriteWait.

Section WaitInverse.

Context {World : Type}.
Variable conf : @StateChangeConf World.



Lemma polls_polled (refresh : M refreshResult) (n : nat) :
  forall (st st' : @state World) (rs : list refreshResult),
    polls refresh n st = Some (rs, st') -> polled refresh st rs st'.
Proof.
  induction n as [|n IH]; intros st st' rs H; simpl in H.
  - injection H as <- <-. constructor.
  - destruct (refresh st) as [[r| |] st1] eqn:Hr; try discriminate.
    destruct (polls refresh n st1) as [[rs1 st2]|] eqn:Hn; try discriminate.
    injection H as <- <-. econstructor; [exact Hr|]. apply IH. exact Hn.
Qed.

End WaitInverse.

Section Consistency.

Context {World : Type}.
Variable ExpandJsonFromString : string -> gmap string value * option error.
Variable FlattenJsonToString : gmap string value -> string * option error.
Variable meta : ArmClient World.



(** A read that the remote answers with status 404 and no error is the
    pending state of the wait. *)
Lemma answered_404_is_pending (name managementGroupID : string) (st : state)
    (res : policy.PolicyDefinition) (w' : World) :
  policy.GetAtManagementGroup (policyDefinitionsClient meta)
    name managementGroupID (remote st) = ((res, None), w') ->
  autorest.httpResponse (policy.Response res) = Some {| http.StatusCode := 404 |} ->
  managementGroupPolicyDefinitionRefreshFunc (policyDefinitionsClient meta)
    name managementGroupID st
  = (Ret (Some res, "404"%string, None),
     {| data := data st; remote := w';
        calls := (calls st ++ [GetCall name managementGroupID])%list |})
  /\ forall t n : Z,
       observe (stateConf (policyDefinitionsClient meta) name managementGroupID)
         t n (Some res, "404"%string, None)
       = Waiting (t + 10 * time.Second) 0.
Proof.
  intros Hget Hstatus. split.
  - exact (refresh_answered meta name managementGroupID st res 404 w' Hget Hstatus).
  - intros t n. reflexivity.
Qed.


(** C1 (what the code does).  A read that the remote answers with an error
    whose response is not found, the form in which Read and Delete recognise
    not-found, makes the refresh function return the state "404" together
    with a non-nil error, and the wait ends on a poll that returns an error.
    So when the decoding and the write have succeeded and such an answer comes
    at any point of a wait still in progress, Create/Update fails with the
    error of the wait, which wraps the error of the refresh function: the
    poll does not continue. *)
Lemma not_found_poll_fails_create (st : state) (cs : list call)
    (p : policy.DefinitionProperties) (u res : policy.PolicyDefinition) (w1 w3 : World)
    (rs : list refreshResult) (st2 : state) (t n : Z) (e : error) :
  let name := schema.Get (data st) "name" in
  let managementGroupID := schema.Get (data st) "management_group_id" in
  let conf := stateConf (policyDefinitionsClient meta) name managementGroupID in
  request ExpandJsonFromString (data st) = (cs, inr p) ->
  policy.CreateOrUpdateAtManagementGroup (policyDefinitionsClient meta)
    name (requestDefinition (data st) p) managementGroupID (remote st) = ((u, None), w1) ->
  polled (Refresh conf)
    {| data := data st; remote := w1;
       calls := (calls st ++ cs
                 ++ [CreateOrUpdateCall name (requestDefinition (data st) p)
                       managementGroupID])%list |}
    rs st2 ->
  waitRun conf (Waiting 0 0) rs = (Waiting t n, []) ->
  policy.GetAtManagementGroup (policyDefinitionsClient meta)
    name managementGroupID (remote st2) = ((res, Some e), w3) ->
  utils.ResponseWasNotFound (policy.Response res) = true ->
  resourceArmManagementGroupPolicyDefinitionCreateUpdate
    ExpandJsonFromString FlattenJsonToString meta st
  = (Ret (Some (Errorf errWaiting
                  [AString name; AError (Errorf errRefresh [AString name; AError e])])),
     {| data := data st2; remote := w3;
        calls := (calls st2 ++ [GetCall name managementGroupID])%list |}).
Proof.
  intros name managementGroupID conf Hreq Hwrite Hpolled Hrun Hget Hnf.
  rewrite (createUpdate_after_write ExpandJsonFromString FlattenJsonToString meta
             name managementGroupID st cs p u w1 eq_refl eq_refl Hreq Hwrite).
  apply afterWrite_wait_failed with (res := None).
  pose proof (refresh_not_found meta name managementGroupID st2 res e w3 Hget Hnf) as Hr.
  assert (Hpolled' : polled (Refresh conf) _ (rs ++ [_])%list _)
    by (eapply polled_app; [exact Hpolled|econstructor; [exact Hr|constructor]]).
  destruct (waitRun_waiting conf _ _ _ _ _ Hrun) as [Hexp _].
  assert (Hrun' : waitRun conf (Waiting 0 0)
                    (rs ++ [(None, "404"%string,
                             Some (Errorf errRefresh [AString name; AError e]))])%list
                  = (Failed (Errorf errRefresh [AString name; AError e]), [])).
  { rewrite (waitRun_app conf rs _ _ _ Hrun). cbn [waitRun]. rewrite Hexp. reflexivity. }
  exact (WaitForState_polled conf _ _ _ _ eq_refl Hpolled' Hrun' I).
Qed.

End Consistency.

(** ** Dereferences without a nil check *)

Section NilDereferences.

Context {World : Type}.
Variable ExpandJsonFromString : string -> gmap string value * option error.
Variable FlattenJsonToString : gmap string value -> string * option error.
Variable meta : ArmClient World.

(** X1.  The refresh function reads the status code through the HTTP
    response of the answer, in both of its branches: it panics when the answer
    carries none, with an error or without. *)
Theorem refresh_panics_without_response (name managementGroupID : string) (st : state)
    (res : policy.PolicyDefinition) (err : option error) (w' : World) :
  policy.GetAtManagementGroup (policyDefinitionsClient meta)
    name managementGroupID (remote st) = ((res, err), w') ->
  autorest.httpResponse (policy.Response res) = None ->
  managementGroupPolicyDefinitionRefreshFunc (policyDefinitionsClient meta)
    name managementGroupID st
  = (Panic "invalid memory address or nil pointer dereference",
     {| data := data st; remote := w';
        calls := (calls st ++ [GetCall name managementGroupID])%list |}).
Proof.
  intros Hget Hnone. unfold managementGroupPolicyDefinitionRefreshFunc, statusCodeOf.
  run_unfold. cbn. rewrite Hget. cbn. rewrite Hnone. destruct err; reflexivity.
Qed.

(** X2.  Create/Update dereferences the id of the definition it reads after
    the wait: when the write and the wait have succeeded and that read answers
    without an error a definition whose id is nil, it panics. *)
Theorem create_panics_without_id (st st2 : state) (cs : list call)
    (p : policy.DefinitionProperties) (u resp : policy.PolicyDefinition) (w1 w3 : World)
    (res : option policy.PolicyDefinition) :
  let name := schema.Get (data st) "name" in
  let managementGroupID := schema.Get (data st) "management_group_id" in
  request ExpandJsonFromString (data st) = (cs, inr p) ->
  policy.CreateOrUpdateAtManagementGroup (policyDefinitionsClient meta)
    name (requestDefinition (data st) p) managementGroupID (remote st) = ((u, None), w1) ->
  WaitForState (stateConf (policyDefinitionsClient meta) name managementGroupID)
    {| data := data st; remote := w1;
       calls := (calls st ++ cs
                 ++ [CreateOrUpdateCall name (requestDefinition (data st) p)
                       managementGroupID])%list |}
  = (Ret (res, None), st2) ->
  policy.GetAtManagementGroup (policyDefinitionsClient meta)
    name managementGroupID (remote st2) = ((resp, None), w3) ->
  policy.ID resp = None ->
  resourceArmManagementGroupPolicyDefinitionCreateUpdate
    ExpandJsonFromString FlattenJsonToString meta st
  = (Panic "invalid memory address or nil pointer dereference",
     {| data := data st2; remote := w3;
        calls := (calls st2 ++ [GetCall name managementGroupID])%list |}).
Proof.
  intros name managementGroupID Hreq Hwrite Hwait Hget Hid.
  rewrite (createUpdate_after_write ExpandJsonFromString FlattenJsonToString meta
             name managementGroupID st cs p u w1 eq_refl eq_refl Hreq Hwrite).
  unfold afterWrite. unfold bind at 1. rewrite Hwait. cbn [snd].
  run_unfold. cbn. rewrite Hget. cbn. rewrite Hid. reflexivity.
Qed.

End NilDereferences.

(** ** The segments of an identifier *)

Section Segments.

#[local] Arguments String.append !_ _ / : simpl nomatch.

Lemma Count_app (a b : string) (sep : ascii) :
  Count (a ++ b) sep = (Count a sep + Count b sep)%nat.
Proof.
  induction a as [|c a IH]; simpl; [reflexivity|].
  destruct (Ascii.eqb c sep); simpl; rewrite IH; reflexivity.
Qed.

Lemma append_nil_r (s : string) : (s ++ EmptyString)%string = s.
Proof. induction s as [|c s IH]; simpl; [reflexivity|]. rewrite IH. reflexivity. Qed.

Lemma append_assoc (a b c : string) : ((a ++ b) ++ c)%string = (a ++ (b ++ c))%string.
Proof. induction a as [|x a IH]; simpl; [reflexivity|]. rewrite IH. reflexivity. Qed.

(** Splitting at an occurrence of the separator splits the two sides. *)
Lemma splitFrom_app (sep : ascii) (s1 s2 : string) :
  forall cur,
    strings.splitFrom sep cur (s1 ++ String sep s2)
    = (strings.splitFrom sep cur s1 ++ strings.splitFrom sep EmptyString s2)%list.
Proof.
  induction s1 as [|c s1 IH]; intros cur; simpl.
  - rewrite Ascii.eqb_refl. reflexivity.
  - destruct (Ascii.eqb c sep); simpl; rewrite IH; reflexivity.
Qed.

(** A string without the separator is one segment. *)
Lemma splitFrom_none (sep : ascii) (s : string) :
  forall cur, Count s sep = O -> strings.splitFrom sep cur s = [(cur ++ s)%string].
Proof.
  induction s as [|c s IH]; intros cur Hc; simpl in *.
  - rewrite append_nil_r. reflexivity.
  - destruct (Ascii.eqb c sep); [discriminate|].
    rewrite IH by exact Hc. rewrite append_assoc. reflexivity.
Qed.

(** The segments of a split do not hold the separator. *)
Lemma splitFrom_segments (sep : ascii) (s : string) :
  forall cur, Count cur sep = O ->
    Forall (fun x => Count x sep = O) (strings.splitFrom sep cur s).
Proof.
  induction s as [|c s IH]; intros cur Hcur; simpl.
  - constructor; [exact Hcur|constructor].
  - destruct (Ascii.eqb c sep) eqn:Hc.
    + constructor; [exact Hcur|]. apply IH. reflexivity.
    + apply IH. rewrite Count_app. simpl. rewrite Hc. lia.
Qed.

Lemma splitFrom_not_nil (sep : ascii) (s cur : string) : strings.splitFrom sep cur s <> [].
Proof.
  intros H. pose proof (splitFrom_length sep s cur) as Hlen. rewrite H in Hlen. discriminate.
Qed.

(** Joining the segments of a split with the separator gives the string back. *)
Lemma Join_splitFrom (sep : ascii) (s : string) :
  forall cur,
    strings.Join (strings.splitFrom sep cur s) (String sep EmptyString) = (cur ++ s)%string.
Proof.
  induction s as [|c s IH]; intros cur; simpl.
  - rewrite append_nil_r. reflexivity.
  - destruct (Ascii.eqb_spec c sep) as [->|Hne].
    + pose proof (splitFrom_not_nil sep s EmptyString) as Hnil.
      specialize (IH EmptyString).
      destruct (strings.splitFrom sep EmptyString s) as [|x l]; [contradiction|].
      simpl in *. rewrite IH. reflexivity.
    + rewrite IH, append_assoc. reflexivity.
Qed.

Lemma Join_Split (s : string) (sep : ascii) :
  strings.Join (strings.Split s sep) (String sep EmptyString) = s.
Proof. unfold strings.Split. apply Join_splitFrom. Qed.

(** X3.  The parser accepts the format of identifier that it documents: for
    every name of a management group and every name of a definition that hold
    no '/', the identifier
    /providers/Microsoft.Management/managementGroups/{mg-name}/providers/Microsoft.Authorization/policyDefinitions/{name}
    parses, to the scope id
    /providers/Microsoft.Management/managementGroups/{mg-name} and the name
    {name}. *)
Theorem parse_canonical_id (mg name : string) :
  Count mg "/"%char = O ->
  Count name "/"%char = O ->
  parseManagementGroupPolicyDefinitionNameFromID (canonicalId mg name)
  = Ret (Some {| ManagementGroupID :=
                   "/providers/Microsoft.Management/managementGroups/" ++ mg;
                 Name := name |}, None).
Proof.
  intros Hmg Hname.
  assert (Hsplit : strings.Split (canonicalId mg name) "/"%char
                   = [EmptyString; "providers"; "Microsoft.Management"; "managementGroups";
                      mg; "providers"; "Microsoft.Authorization"; "policyDefinitions";
                      name]%string).
  { unfold strings.Split, canonicalId. simpl.
    rewrite splitFrom_app, (splitFrom_none _ mg) by exact Hmg. simpl.
    rewrite (splitFrom_none _ name) by exact Hname. reflexivity. }
  rewrite parse_nine by (rewrite Hsplit; reflexivity).
  rewrite Hsplit. simpl. reflexivity.
Qed.

(** A successful parse, by the segments of the identifier. *)
Lemma parse_segments (id : string) (v : managementGroupPolicyResourceID) :
  parseManagementGroupPolicyDefinitionNameFromID id = Ret (Some v, None) ->
  exists c0 c1 c2 c3 c4 c5 c6 c7 c8 : string,
    strings.Split id "/"%char = [c0; c1; c2; c3; c4; c5; c6; c7; c8]
    /\ v = {| ManagementGroupID := strings.Join [c0; c1; c2; c3; c4] "/"; Name := c8 |}.
Proof.
  intros Hparse.
  destruct (Z.eq_dec (len (strings.Split id "/"%char)) 9) as [H9|Hne];
    [|rewrite parse_segment_error in Hparse by exact Hne; discriminate].
  rewrite parse_nine in Hparse by exact H9. unfold len in H9.
  destruct (strings.Split id "/"%char)
    as [|c0 [|c1 [|c2 [|c3 [|c4 [|c5 [|c6 [|c7 [|c8 [|c9 rest]]]]]]]]]];
    simpl in H9; try lia.
  injection Hparse as <-. exists c0, c1, c2, c3, c4, c5, c6, c7, c8. auto.
Qed.

(** The scope id of a successful parse has four '/'. *)
Lemma parse_scope_slashes (id : string) (v : managementGroupPolicyResourceID) :
  parseManagementGroupPolicyDefinitionNameFromID id = Ret (Some v, None) ->
  Count (ManagementGroupID v) "/"%char = 4%nat.
Proof.
  intros Hparse.
  destruct (parse_segments id v Hparse) as (c0 & c1 & c2 & c3 & c4 & c5 & c6 & c7 & c8 & Hsplit & ->).
  pose proof (splitFrom_segments "/"%char id EmptyString eq_refl) as Hseg.
  fold (strings.Split id "/"%char) in Hseg. rewrite Hsplit in Hseg.
  repeat match goal with
         | H : Forall _ (_ :: _) |- _ => inversion H; subst; clear H
         end.
  cbn [ManagementGroupID strings.Join]. repeat (rewrite Count_app; simpl). lia.
Qed.

(** X4.  What the parser returns fixes the shape of the identifier: whenever
    the parse succeeds, the name holds no '/', the scope id holds exactly four,
    and the identifier is the scope id, three segments without '/' and the
    name, joined by '/'.  So the scope id is a prefix of the identifier and
    the name is its last segment. *)
Theorem parse_result_shape (id : string) (v : managementGroupPolicyResourceID) :
  parseManagementGroupPolicyDefinitionNameFromID id = Ret (Some v, None) ->
  Count (Name v) "/"%char = O
  /\ Count (ManagementGroupID v) "/"%char = 4%nat
  /\ exists a b c : string,
       Count a "/"%char = O /\ Count b "/"%char = O /\ Count c "/"%char = O
       /\ id = (ManagementGroupID v ++ "/" ++ a ++ "/" ++ b ++ "/" ++ c ++ "/" ++ Name v)%string.
Proof.
  intros Hparse.
  destruct (parse_segments id v Hparse) as (c0 & c1 & c2 & c3 & c4 & c5 & c6 & c7 & c8 & Hsplit & ->).
  pose proof (Join_Split id "/"%char) as Hjoin.
  pose proof (splitFrom_segments "/"%char id EmptyString eq_refl) as Hseg.
  fold (strings.Split id "/"%char) in Hseg. rewrite Hsplit in Hseg, Hjoin.
  cbn [strings.Join] in Hjoin. cbn [Name ManagementGroupID strings.Join].
  repeat match goal with
         | H : Forall _ (_ :: _) |- _ => inversion H; subst; clear H
         end.
  split; [assumption|]. split.
  - repeat (rewrite Count_app; simpl). lia.
  - exists c5, c6, c7. repeat (split; [assumption|]).
    repeat (rewrite append_assoc; simpl). reflexivity.
Qed.

End Segments.


(** ** What the operations change in the resource data *)

Section Frames.

Context {World : Type}.
Variable R : schema.ResourceData -> schema.ResourceData -> Prop.
Hypothesis R_refl : forall d, R d d.
Hypothesis R_trans : forall d1 d2 d3, R d1 d2 -> R d2 d3 -> R d1 d3.

Lemma preserves_ret {A : Type} (a : A) : preserves (World := World) R (ret a).
Proof. intros st r st' H. injection H as <- <-. apply R_refl. Qed.

Lemma preserves_lift {A : Type} (o : outcome A) : preserves (World := World) R (lift o).
Proof. intros st r st' H. injection H as <- <-. apply R_refl. Qed.

Lemma preserves_bind {A B : Type} (c : M A) (k : A -> M B) :
  preserves (World := World) R c ->
  (forall a, preserves (World := World) R (k a)) ->
  preserves (World := World) R (bind c k).
Proof.
  intros Hc Hk st r st' H. unfold bind in H.
  destruct (c st) as [[a| |] st1] eqn:Hrun.
  - exact (R_trans _ _ _ (Hc _ _ _ Hrun) (Hk a _ _ _ H)).
  - injection H as <- <-. exact (Hc _ _ _ Hrun).
  - injection H as <- <-. exact (Hc _ _ _ Hrun).
Qed.

Lemma preserves_record (c : call) : preserves (World := World) R (record c).
Proof. intros st r st' H. injection H as <- <-. apply R_refl. Qed.

Lemma preserves_onRemote {A : Type} (f : World -> A * World) :
  preserves (World := World) R (onRemote f).
Proof.
  intros st r st' H. unfold onRemote in H. destruct (f (remote st)) as [a w].
  injection H as <- <-. apply R_refl.
Qed.

Lemma preserves_onData (f : schema.ResourceData -> schema.ResourceData) :
  (forall d, R d (f d)) -> preserves (World := World) R (onData f).
Proof. intros Hf st r st' H. injection H as <- <-. apply Hf. Qed.

Lemma preserves_read {A : Type} (f : state -> A) :
  preserves (World := World) R (fun st => (Ret (f st), st)).
Proof. intros st r st' H. injection H as <- <-. apply R_refl. Qed.

Lemma preserves_andThen (c k : M (option error)) :
  preserves (World := World) R c -> preserves (World := World) R k ->
  preserves (World := World) R (andThen c k).
Proof.
  intros Hc Hk. unfold andThen. apply preserves_bind; [exact Hc|].
  intros [e|]; [apply preserves_ret|exact Hk].
Qed.

End Frames.

Lemma sameOutside_refl (keys : list string) (d : schema.ResourceData) : sameOutside keys d d.
Proof. intros key _. reflexivity. Qed.

Lemma sameOutside_trans (keys : list string) (d1 d2 d3 : schema.ResourceData) :
  sameOutside keys d1 d2 -> sameOutside keys d2 d3 -> sameOutside keys d1 d3.
Proof. intros H12 H23 key Hkey. rewrite (H23 key Hkey). exact (H12 key Hkey). Qed.

Lemma sameOutside_SetAttr (keys : list string) (d : schema.ResourceData) (key v : string) :
  In key keys -> sameOutside keys d (schema.SetAttr d key v).
Proof.
  intros Hin key' Hkey'. simpl. apply lookup_insert_ne. intros ->. contradiction.
Qed.

Lemma sameOutside_SetId (keys : list string) (d : schema.ResourceData) (v : string) :
  sameOutside keys d (schema.SetId d v).
Proof. intros key _. reflexivity. Qed.

Lemma sameId_trans (d1 d2 d3 : schema.ResourceData) :
  sameId d1 d2 -> sameId d2 d3 -> sameId d1 d3.
Proof. unfold sameId. congruence. Qed.

(** One step through an operation, for a relation on the resource data that
    [refl] and [trans] prove reflexive and transitive and that [upd] proves
    of a change of the resource data. *)
Ltac preserves_step refl trans upd :=
  lazymatch goal with
  | |- preserves _ (bind _ _) => apply (preserves_bind _ trans); [|intros ?]
  | |- preserves _ (andThen _ _) => apply (preserves_andThen _ refl trans)
  | |- preserves _ (ret _) => apply (preserves_ret _ refl)
  | |- preserves _ (lift _) => apply (preserves_lift _ refl)
  | |- preserves _ (record _) => apply (preserves_record _ refl)
  | |- preserves _ (onRemote _) => apply (preserves_onRemote _ refl)
  | |- preserves _ (onData _) => apply preserves_onData; intros ?; upd
  | |- preserves _ dId => apply (preserves_read _ refl (fun st => schema.Id (data st)))
  | |- preserves _ (dGet ?k) =>
      apply (preserves_read _ refl (fun st => schema.Get (data st) k))
  | |- preserves _ (dSet _ _) => unfold dSet
  | |- preserves _ (dSetPtr _ _) => unfold dSetPtr
  | |- preserves _ (dSetId _) => unfold dSetId
  | |- preserves _ (getAtManagementGroup _ _ _) => unfold getAtManagementGroup
  | |- preserves _ (deleteAtManagementGroup _ _ _) => unfold deleteAtManagementGroup
  | |- preserves _ (flattenJsonToString _ _) => unfold flattenJsonToString
  | |- preserves _ (storeJson _ _ _ _) => unfold storeJson
  | |- preserves _ (match ?x with _ => _ end) => destruct x
  | |- preserves _ (if ?x then _ else _) => destruct x
  end.

Ltac outside_set :=
  first [ apply sameOutside_SetId
        | apply sameOutside_SetAttr; simpl; tauto
        | unfold schema.SetPtr; apply sameOutside_SetAttr; simpl; tauto ].

Ltac outside_steps keys :=
  repeat preserves_step (sameOutside_refl keys) (sameOutside_trans keys) outside_set.

Ltac same_steps :=
  repeat preserves_step (@eq_refl schema.ResourceData) (@eq_trans schema.ResourceData) fail.

Ltac id_steps :=
  repeat preserves_step (fun d => @eq_refl _ (schema.Id d)) sameId_trans
    ltac:(unfold sameId; reflexivity).

Ltac lookup_attr :=
  cbn [schema.attributes schema.SetAttr schema.SetPtr schema.SetId schema.Get
       withIdentity withPlainProperties];
  repeat first [ rewrite lookup_insert_eq
               | rewrite lookup_insert_ne by discriminate ].

Section ResourceData.

Context {World : Type}.
Variable ExpandJsonFromString : string -> gmap string value * option error.
Variable FlattenJsonToString : gmap string value -> string * option error.
Variable meta : ArmClient World.


(** The wait leaves the resource data as it is. *)
Lemma refresh_keeps_data (name managementGroupID : string) :
  preserves eq
    (managementGroupPolicyDefinitionRefreshFunc (policyDefinitionsClient meta)
       name managementGroupID).
Proof.
  unfold managementGroupPolicyDefinitionRefreshFunc. same_steps.
Qed.

Lemma waitLoop_keeps_data (conf : StateChangeConf) (fuel : nat) :
  preserves eq (Refresh conf) ->
  forall s, preserves (World := World) eq (waitLoop conf fuel s).
Proof.
  intros Hrefresh. induction fuel as [|fuel IH]; intros s; destruct s as [t n| | |]; simpl;
    try (apply preserves_ret; reflexivity).
  - destruct (Timeout conf <=? t); [apply preserves_ret|apply preserves_lift]; reflexivity.
  - destruct (Timeout conf <=? t); [apply preserves_ret; reflexivity|].
    apply (preserves_bind _ (@eq_trans _)); [exact Hrefresh|]. intros r. apply IH.
Qed.

Lemma WaitForState_keeps_data (conf : StateChangeConf) :
  preserves eq (Refresh conf) ->
  preserves (World := World) eq (WaitForState conf).
Proof.
  intros Hrefresh. unfold WaitForState.
  apply (preserves_bind _ (@eq_trans _)); [apply waitLoop_keeps_data; exact Hrefresh|].
  intros s. destruct s; same_steps.
Qed.

Lemma delete_keeps_data :
  preserves eq (resourceArmManagementGroupPolicyDefinitionDelete meta).
Proof.
  unfold resourceArmManagementGroupPolicyDefinitionDelete. same_steps.
Qed.

Lemma storeJson_outside (keys : list string) (key format : string) (v : value) :
  In key keys ->
  preserves (World := World) (sameOutside keys) (storeJson FlattenJsonToString key format v).
Proof.
  intros Hin. unfold storeJson.
  repeat preserves_step (sameOutside_refl keys) (sameOutside_trans keys)
    ltac:(apply sameOutside_SetAttr; exact Hin).
Qed.

Lemma storeJson_id (key format : string) (v : value) :
  preserves (World := World) sameId (storeJson FlattenJsonToString key format v).
Proof. id_steps. Qed.

Lemma storeJsonFields_outside (props : policy.DefinitionProperties) :
  preserves (World := World) (sameOutside ["policy_rule"; "metadata"; "parameters"])
    (storeJsonFields FlattenJsonToString props).
Proof.
  unfold storeJsonFields.
  repeat first [ apply storeJson_outside; simpl; tauto
               | preserves_step (sameOutside_refl ["policy_rule"; "metadata"; "parameters"])
                   (sameOutside_trans ["policy_rule"; "metadata"; "parameters"]) fail ].
Qed.

Lemma storeJsonFields_id (props : policy.DefinitionProperties) :
  preserves (World := World) sameId (storeJsonFields FlattenJsonToString props).
Proof.
  unfold storeJsonFields.
  repeat first [ apply storeJson_id
               | preserves_step (fun d => @eq_refl _ (schema.Id d)) sameId_trans fail ].
Qed.

Lemma read_outside :
  preserves (sameOutside attributesSet)
    (resourceArmManagementGroupPolicyDefinitionRead FlattenJsonToString meta).
Proof.
  unfold resourceArmManagementGroupPolicyDefinitionRead, attributesSet.
  outside_steps ["name"; "management_group_id"; "policy_type"; "mode"; "display_name";
                 "description"; "policy_rule"; "metadata"; "parameters"]%string.
Qed.

Lemma afterWrite_outside (name managementGroupID : string) :
  preserves (sameOutside attributesSet)
    (afterWrite FlattenJsonToString meta name managementGroupID).
Proof.
  unfold afterWrite.
  apply (preserves_bind _ (sameOutside_trans attributesSet)).
  - intros st r st' H. rewrite <- (WaitForState_keeps_data
                    (stateConf (policyDefinitionsClient meta) name managementGroupID)
                    (refresh_keeps_data name managementGroupID) _ _ _ H).
    apply sameOutside_refl.
  - intros w. outside_steps attributesSet. apply read_outside.
Qed.

Lemma createUpdate_outside :
  preserves (sameOutside attributesSet)
    (resourceArmManagementGroupPolicyDefinitionCreateUpdate
       ExpandJsonFromString FlattenJsonToString meta).
Proof.
  intros st r st' H. rewrite createUpdate_unfold in H.
  destruct (request ExpandJsonFromString (data st)) as [cs [e|p]].
  - injection H as <- <-. apply sameOutside_refl.
  - cbv zeta in H.
    destruct (policy.CreateOrUpdateAtManagementGroup _ _ _ _ _) as [[u [e|]] w1].
    + injection H as <- <-. apply sameOutside_refl.
    + exact (afterWrite_outside _ _ _ _ _ H).
Qed.

(** Read, once the stored id has parsed and the remote has answered the read
    without an error. *)
Lemma read_after_get (st : state) (id : managementGroupPolicyResourceID)
    (resp : policy.PolicyDefinition) (w' : World) :
  parseManagementGroupPolicyDefinitionNameFromID (schema.Id (data st)) = Ret (Some id, None) ->
  policy.GetAtManagementGroup (policyDefinitionsClient meta)
    (Name id) (ManagementGroupID id) (remote st) = ((resp, None), w') ->
  resourceArmManagementGroupPolicyDefinitionRead FlattenJsonToString meta st
  = match policy.Properties resp with
    | None =>
        (Ret None,
         {| data := withIdentity (data st) id resp; remote := w';
            calls := (calls st ++ [GetCall (Name id) (ManagementGroupID id)])%list |})
    | Some props =>
        storeJsonFields FlattenJsonToString props
          {| data := withPlainProperties (withIdentity (data st) id resp) props;
             remote := w';
             calls := (calls st ++ [GetCall (Name id) (ManagementGroupID id)])%list |}
    end.
Proof.
  intros Hparse Hget.
  unfold resourceArmManagementGroupPolicyDefinitionRead, storeJsonFields, storeJson.
  unfold bind at 1. unfold dId. unfold bind at 1. unfold lift at 1. rewrite Hparse.
  unfold bind at 1. unfold getAtManagementGroup at 1. unfold bind at 1.
  unfold record at 1, onRemote at 1. cbn [remote data calls]. rewrite Hget.
  destruct (policy.Properties resp) as [props|]; reflexivity.
Qed.


Lemma undeclared_not_set (key : string) :
  SchemaOf (resourceArmManagementGroupPolicyDefinition (World := World)
              ExpandJsonFromString FlattenJsonToString) !! key = None ->
  ~ In key attributesSet.
Proof.
  intros H Hin. cbn [SchemaOf resourceArmManagementGroupPolicyDefinition] in H.
  repeat (apply lookup_insert_None in H as [H ?]).
  unfold attributesSet in Hin. simpl in Hin. intuition congruence.
Qed.

Lemma declared_required (key : string) (f : Schema) :
  SchemaOf (resourceArmManagementGroupPolicyDefinition (World := World)
              ExpandJsonFromString FlattenJsonToString) !! key = Some f ->
  Required f = true ->
  In key ["name"; "policy_type"; "mode"; "display_name"; "management_group_id"].
Proof.
  intros H Hreq. cbn [SchemaOf resourceArmManagementGroupPolicyDefinition] in H.
  repeat (apply lookup_insert_Some in H as [[<- <-]|[_ H]];
          [first [discriminate Hreq | simpl; tauto]|]).
  rewrite lookup_empty in H. discriminate.
Qed.

(** X5.  The operations of the resource change no attribute that its schema
    does not declare: whatever Create, Update, Read or Delete does, on every
    state and for every outcome (an error and a panic too), an attribute
    whose name is not a key of the schema is afterwards what it was. *)
Theorem operations_change_declared_attributes (st : state) (key : string)
    (op : ArmClient World -> M (option error)) :
  let r := resourceArmManagementGroupPolicyDefinition
             ExpandJsonFromString FlattenJsonToString in
  In op [Create r; Update r; Read r; Delete r] ->
  SchemaOf r !! key = None ->
  schema.attributes (data (snd (op meta st))) !! key = schema.attributes (data st) !! key.
Proof.
  intros r Hop Hkey. apply undeclared_not_set in Hkey.
  destruct (op meta st) as [out st'] eqn:Hrun. cbn [snd].
  simpl in Hop. destruct Hop as [<-|[<-|[<-|[<-|[]]]]].
  - exact (createUpdate_outside _ _ _ Hrun key Hkey).
  - exact (createUpdate_outside _ _ _ Hrun key Hkey).
  - exact (read_outside _ _ _ Hrun key Hkey).
  - rewrite <- (delete_keeps_data _ _ _ Hrun). reflexivity.
Qed.

(** X6.  Once the stored id has parsed and the remote has answered the read
    without an error, Read stores every attribute that the schema requires,
    when the definition has properties: name, policy_type, mode, display_name
    and management_group_id are set whatever Read does next, also when it then
    returns an error or panics.  When the definition has no properties, Read
    returns no error and leaves policy_type, mode and display_name as they
    were. *)
Theorem read_sets_required_attributes (st : state) (id : managementGroupPolicyResourceID)
    (resp : policy.PolicyDefinition) (w' : World) :
  parseManagementGroupPolicyDefinitionNameFromID (schema.Id (data st)) = Ret (Some id, None) ->
  policy.GetAtManagementGroup (policyDefinitionsClient meta)
    (Name id) (ManagementGroupID id) (remote st) = ((resp, None), w') ->
  let r := resourceArmManagementGroupPolicyDefinition
             ExpandJsonFromString FlattenJsonToString in
  let run := Read r meta st in
  (forall props, policy.Properties resp = Some props ->
     forall key f, SchemaOf r !! key = Some f -> Required f = true ->
       schema.attributes (data (snd run)) !! key <> None)
  /\ (policy.Properties resp = None ->
      fst run = Ret None
      /\ forall key, In key ["policy_type"; "mode"; "display_name"] ->
           schema.attributes (data (snd run)) !! key = schema.attributes (data st) !! key).
Proof.
  intros Hparse Hget r run. subst run r.
  cbn [Read resourceArmManagementGroupPolicyDefinition].
  rewrite (read_after_get st id resp w' Hparse Hget). split.
  - intros props -> key f Hkey Hreq.
    pose proof (declared_required key f Hkey Hreq) as Hin.
    destruct (storeJsonFields _ _ _) as [out st'] eqn:Hrun. cbn [snd].
    pose proof (storeJsonFields_outside props _ _ _ Hrun) as Hframe.
    cbn [data] in Hframe.
    simpl in Hin. destruct Hin as [<-|[<-|[<-|[<-|[<-|[]]]]]];
      (rewrite Hframe by (simpl; intuition discriminate)); lookup_attr; discriminate.
  - intros ->. split; [reflexivity|]. intros key Hin. cbn [snd data].
    simpl in Hin. destruct Hin as [<-|[<-|[<-|[]]]]; lookup_attr; reflexivity.
Qed.

(** X7.  Once the stored id has parsed and the remote has answered the read
    without an error, Read has stored the name of the definition and, as
    management_group_id, the scope id that the stored id parses to, whatever
    it does next: also when it then returns an error or panics.  The stored
    id stays as it was.  The management_group_id that Read stores is a path
    of five segments (it has four '/'), never the bare name of a group. *)
Theorem read_stores_identity (st : state) (id : managementGroupPolicyResourceID)
    (resp : policy.PolicyDefinition) (w' : World) :
  parseManagementGroupPolicyDefinitionNameFromID (schema.Id (data st)) = Ret (Some id, None) ->
  policy.GetAtManagementGroup (policyDefinitionsClient meta)
    (Name id) (ManagementGroupID id) (remote st) = ((resp, None), w') ->
  let d' := data (snd (resourceArmManagementGroupPolicyDefinitionRead
                         FlattenJsonToString meta st)) in
  schema.Id d' = schema.Id (data st)
  /\ schema.Get d' "name" = default EmptyString (policy.Name resp)
  /\ schema.Get d' "management_group_id" = ManagementGroupID id
  /\ Count (schema.Get d' "management_group_id") "/"%char = 4%nat.
Proof.
  intros Hparse Hget d'. subst d'.
  rewrite (read_after_get st id resp w' Hparse Hget).
  pose proof (parse_scope_slashes _ _ Hparse) as Hscope.
  assert (Hgoal : forall d1,
            schema.Id d1 = schema.Id (data st) ->
            schema.attributes d1 !! "name" = Some (default EmptyString (policy.Name resp)) ->
            schema.attributes d1 !! "management_group_id" = Some (ManagementGroupID id) ->
            schema.Id d1 = schema.Id (data st)
            /\ schema.Get d1 "name" = default EmptyString (policy.Name resp)
            /\ schema.Get d1 "management_group_id" = ManagementGroupID id
            /\ Count (schema.Get d1 "management_group_id") "/"%char = 4%nat).
  { intros d1 Hid Hname Hmg. unfold schema.Get. rewrite Hname, Hmg. cbn [default].
    auto. }
  destruct (policy.Properties resp) as [props|].
  - destruct (storeJsonFields _ _ _) as [out st'] eqn:Hrun. cbn [snd].
    pose proof (storeJsonFields_outside props _ _ _ Hrun) as Hframe. cbn [data] in Hframe.
    apply Hgoal.
    + rewrite (storeJsonFields_id props _ _ _ Hrun). reflexivity.
    + rewrite Hframe by (simpl; intuition discriminate). lookup_attr. reflexivity.
    + rewrite Hframe by (simpl; intuition discriminate). lookup_attr. reflexivity.
  - cbn [snd data]. apply Hgoal; [reflexivity| |]; lookup_attr; reflexivity.
Qed.

Lemma andThen_ok (c k : M (World := World) (option error)) (st st' : state) :
  andThen c k st = (Ret None, st') ->
  exists st1, c st = (Ret None, st1) /\ k st1 = (Ret None, st').
Proof.
  unfold andThen, bind, ret. intros H.
  destruct (c st) as [[[e|]| |] st1]; try discriminate. exists st1. auto.
Qed.

(** One JSON field of Read, when it returns no error. *)
Lemma storeJson_ok (key format : string) (v : value) (st st' : @state World) :
  storeJson FlattenJsonToString key format v st = (Ret None, st') ->
  storedJson FlattenJsonToString (data st) (data st') key v.
Proof.
  unfold storeJson, storedJson. run_unfold.
  destruct v as [| | | | |m|]; cbn; try discriminate.
  - intros H. injection H as <-. reflexivity.
  - destruct (FlattenJsonToString m) as [str [e|]]; cbn; [discriminate|].
    intros H. injection H as <-. exists str. split; [reflexivity|].
    cbn. apply lookup_insert_eq.
Qed.

Lemma storedJson_frame (d0 d1 d2 d3 : schema.ResourceData) (key : string) (v : value) :
  schema.attributes d1 !! key = schema.attributes d0 !! key ->
  storedJson FlattenJsonToString d1 d2 key v ->
  schema.attributes d3 !! key = schema.attributes d2 !! key ->
  storedJson FlattenJsonToString d0 d3 key v.
Proof.
  unfold storedJson. intros H01 H12 H23. destruct v as [| | | | |m|]; try contradiction.
  - congruence.
  - destruct H12 as (str & Hflat & Hstr). exists str. split; [exact Hflat|congruence].
Qed.

(** X8.  What a Read that returns no error has stored, once the stored id has
    parsed and the remote has answered the read without an error with a
    definition that has properties: policy_type, mode, display_name and
    description hold the properties of the definition (the zero value for a
    nil pointer); each of policy_rule, metadata and parameters holds the text
    that the serializer returned for the value of the definition when that
    value is a map, and is left as it was, not cleared, when the value is
    nil. *)
Theorem read_json_attributes (st st' : state) (id : managementGroupPolicyResourceID)
    (resp : policy.PolicyDefinition) (w' : World) (props : policy.DefinitionProperties) :
  parseManagementGroupPolicyDefinitionNameFromID (schema.Id (data st)) = Ret (Some id, None) ->
  policy.GetAtManagementGroup (policyDefinitionsClient meta)
    (Name id) (ManagementGroupID id) (remote st) = ((resp, None), w') ->
  policy.Properties resp = Some props ->
  resourceArmManagementGroupPolicyDefinitionRead FlattenJsonToString meta st
  = (Ret None, st') ->
  let d := data st in
  let d' := data st' in
  schema.Get d' "policy_type" = policy.PolicyType props
  /\ schema.Get d' "mode" = policy.Mode props
  /\ schema.Get d' "display_name" = default EmptyString (policy.DisplayName props)
  /\ schema.Get d' "description" = default EmptyString (policy.Description props)
  /\ storedJson FlattenJsonToString d d' "policy_rule" (policy.PolicyRule props)
  /\ storedJson FlattenJsonToString d d' "metadata" (policy.Metadata props)
  /\ storedJson FlattenJsonToString d d' "parameters" (policy.Parameters props).
Proof.
  intros Hparse Hget Hprops Hrun d d'. subst d d'.
  rewrite (read_after_get st id resp w' Hparse Hget), Hprops in Hrun.
  pose proof (storeJsonFields_outside props _ _ _ Hrun) as Hframe. cbn [data] in Hframe.
  unfold storeJsonFields in Hrun.
  apply andThen_ok in Hrun as (st1 & Hrule & Hrun).
  apply andThen_ok in Hrun as (st2 & Hmeta & Hrun).
  apply andThen_ok in Hrun as (st3 & Hparams & Hrun).
  injection Hrun as ->.
  pose proof (storeJson_outside ["policy_rule"] _ _ _ (or_introl eq_refl) _ _ _ Hrule) as F1.
  pose proof (storeJson_outside ["metadata"] _ _ _ (or_introl eq_refl) _ _ _ Hmeta) as F2.
  pose proof (storeJson_outside ["parameters"] _ _ _ (or_introl eq_refl) _ _ _ Hparams) as F3.
  apply storeJson_ok in Hrule, Hmeta, Hparams. cbn [data] in *.
  repeat split.
  1-4: unfold schema.Get; rewrite Hframe by (simpl; intuition discriminate);
       lookup_attr; reflexivity.
  - eapply storedJson_frame; [|exact Hrule|].
    + lookup_attr. reflexivity.
    + rewrite F3, F2 by (simpl; intuition discriminate). reflexivity.
  - eapply storedJson_frame; [|exact Hmeta|].
    + rewrite F1 by (simpl; intuition discriminate). lookup_attr. reflexivity.
    + rewrite F3 by (simpl; intuition discriminate). reflexivity.
  - eapply storedJson_frame; [|exact Hparams|].
    + rewrite F2, F1 by (simpl; intuition discriminate). lookup_attr. reflexivity.
    + reflexivity.
Qed.

(** X9.  When the stored id does not split into 9 segments (the empty id that
    Read leaves after a not-found answer is such an id), Read and Delete
    return the error of the parse, wrapped with the stored id, and do nothing
    else: no call is made, and the resource data and the remote are as they
    were. *)
Theorem malformed_id_stops_read_and_delete (st : state) :
  let stored := schema.Id (data st) in
  let e := Errorf errParsingId
             [AString stored;
              AError (Errorf errIdSegments
                        [AInt (len (strings.Split stored "/"%char) - 1); AString stored])] in
  len (strings.Split stored "/"%char) <> 9 ->
  resourceArmManagementGroupPolicyDefinitionRead FlattenJsonToString meta st
  = (Ret (Some e), st)
  /\ resourceArmManagementGroupPolicyDefinitionDelete meta st = (Ret (Some e), st).
Proof.
  intros stored e Hne. subst stored e.
  unfold resourceArmManagementGroupPolicyDefinitionRead,
    resourceArmManagementGroupPolicyDefinitionDelete.
  unfold bind, dId, lift. rewrite (parse_segment_error _ Hne). split; reflexivity.
Qed.

(** X10.  An error of the remote that is not a not-found answer is returned:
    when the stored id parses and the remote answers with an error whose
    response is not a not-found response, Read returns "Error making read
    request ..." and Delete returns "Error deleting Policy Definition ..."
    with the parsed name, each wrapping the error of the remote; the resource
    data, the stored id with it, is as it was, and the one call made is the
    read, or the delete. *)
Theorem other_errors_are_returned (st : state) (id : managementGroupPolicyResourceID) :
  parseManagementGroupPolicyDefinitionNameFromID (schema.Id (data st)) = Ret (Some id, None) ->
  (forall (resp : policy.PolicyDefinition) (e : error) (w' : World),
     policy.GetAtManagementGroup (policyDefinitionsClient meta)
       (Name id) (ManagementGroupID id) (remote st) = ((resp, Some e), w') ->
     utils.ResponseWasNotFound (policy.Response resp) = false ->
     resourceArmManagementGroupPolicyDefinitionRead FlattenJsonToString meta st
     = (Ret (Some (Errorf errReading [AError e])),
        {| data := data st;
           remote := w';
           calls := (calls st ++ [GetCall (Name id) (ManagementGroupID id)])%list |}))
  /\ (forall (resp : autorest.Response) (e : error) (w' : World),
        policy.DeleteAtManagementGroup (policyDefinitionsClient meta)
          (Name id) (ManagementGroupID id) (remote st) = ((resp, Some e), w') ->
        utils.ResponseWasNotFound resp = false ->
        resourceArmManagementGroupPolicyDefinitionDelete meta st
        = (Ret (Some (Errorf errDeleting [AString (Name id); AError e])),
           {| data := data st;
              remote := w';
              calls := (calls st ++ [DeleteCall (Name id) (ManagementGroupID id)])%list |})).
Proof.
  intros Hparse. split.
  - intros resp e w' Hget Hnf.
    unfold resourceArmManagementGroupPolicyDefinitionRead. run_unfold.
    rewrite Hparse. cbn. rewrite Hget. cbn. rewrite Hnf. reflexivity.
  - intros resp e w' Hdel Hnf.
    unfold resourceArmManagementGroupPolicyDefinitionDelete. run_unfold.
    rewrite Hparse. cbn. rewrite Hdel. cbn. rewrite Hnf. reflexivity.
Qed.

(** X11.  Delete always returns: it never panics.  It leaves the resource data
    as it was (it does not clear the stored id, also when the delete
    succeeded), and it calls the remote once at most: it makes no call when
    the stored id does not parse, and otherwise one delete, of the name and
    the scope id that the stored id parses to.  It returns no error exactly
    when the remote answered the delete without an error or with a
    not-found response. *)
Theorem delete_outcome (st : state) :
  exists (r : option error) (w : World) (cs : list call),
    resourceArmManagementGroupPolicyDefinitionDelete meta st
    = (Ret r, {| data := data st; remote := w; calls := (calls st ++ cs)%list |})
    /\ ((cs = [] /\ w = remote st /\ r <> None
         /\ len (strings.Split (schema.Id (data st)) "/"%char) <> 9)
        \/ (exists id resp err,
              parseManagementGroupPolicyDefinitionNameFromID (schema.Id (data st))
              = Ret (Some id, None)
              /\ cs = [DeleteCall (Name id) (ManagementGroupID id)]
              /\ policy.DeleteAtManagementGroup (policyDefinitionsClient meta)
                   (Name id) (ManagementGroupID id) (remote st) = ((resp, err), w)
              /\ (r = None <-> err = None \/ utils.ResponseWasNotFound resp = true))).
Proof.
  destruct (Z.eq_dec (len (strings.Split (schema.Id (data st)) "/"%char)) 9) as [H9|Hne].
  - pose proof (parse_nine _ H9) as Hparse.
    destruct (policy.DeleteAtManagementGroup (policyDefinitionsClient meta)
                (Name {| ManagementGroupID :=
                           strings.Join (firstn 5 (strings.Split (schema.Id (data st)) "/"%char)) "/";
                         Name := List.last (strings.Split (schema.Id (data st)) "/"%char)
                                   EmptyString |})
                (ManagementGroupID
                   {| ManagementGroupID :=
                        strings.Join (firstn 5 (strings.Split (schema.Id (data st)) "/"%char)) "/";
                      Name := List.last (strings.Split (schema.Id (data st)) "/"%char)
                                EmptyString |})
                (remote st)) as [[resp err] w] eqn:Hdel.
    unfold resourceArmManagementGroupPolicyDefinitionDelete. run_unfold.
    rewrite Hparse. cbn. cbn in Hdel. rewrite Hdel. cbn.
    destruct err as [e|]; [destruct (utils.ResponseWasNotFound resp) eqn:Hnf|].
    all: eexists _, w, _; split; [reflexivity|]; right;
      eexists _, resp, _; split; [reflexivity|]; split; [reflexivity|];
      split; [exact Hdel|].
    + split; auto.
    + split; [discriminate|]. intros [H|H]; congruence.
    + split; auto.
  - exists (Some (Errorf errParsingId
                    [AString (schema.Id (data st));
                     AError (Errorf errIdSegments
                               [AInt (len (strings.Split (schema.Id (data st)) "/"%char) - 1);
                                AString (schema.Id (data st))])])),
      (remote st), [].
    split.
    + unfold resourceArmManagementGroupPolicyDefinitionDelete, bind, dId, lift.
      rewrite (parse_segment_error _ Hne). rewrite app_nil_r. destruct st; reflexivity.
    + left. split; [reflexivity|]. split; [reflexivity|].
      split; [intros H; discriminate H|exact Hne].
Qed.

(** ** The calls and the errors of Create/Update *)

Lemma request_calls (d : schema.ResourceData) (cs : list call)
    (r : error + policy.DefinitionProperties) :
  request ExpandJsonFromString d = (cs, r) -> Forall isDecoderCall cs.
Proof.
  intros Hreq.
  pose proof (decoderCalls_are_decoder_calls (schema.Get d "policy_rule")) as Hpr.
  pose proof (decoderCalls_are_decoder_calls (schema.Get d "metadata")) as Hmd.
  pose proof (decoderCalls_are_decoder_calls (schema.Get d "parameters")) as Hpa.
  destruct (request_cases ExpandJsonFromString d)
    as [(e & _ & _ & H)|[(e & _ & _ & _ & H)|[(e & _ & _ & _ & _ & H)|(_ & _ & _ & H)]]];
    rewrite H in Hreq; injection Hreq as <- _;
    repeat (apply Forall_app; split); assumption.
Qed.

Lemma request_plain (d : schema.ResourceData) (cs : list call)
    (p : policy.DefinitionProperties) :
  request ExpandJsonFromString d = (cs, inr p) ->
  policy.PolicyType p = schema.Get d "policy_type"
  /\ policy.Mode p = schema.Get d "mode"
  /\ policy.DisplayName p = Some (schema.Get d "display_name")
  /\ policy.Description p = Some (schema.Get d "description").
Proof.
  intros Hreq.
  destruct (request_cases ExpandJsonFromString d)
    as [(e & _ & _ & H)|[(e & _ & _ & _ & H)|[(e & _ & _ & _ & _ & H)|(_ & _ & _ & H)]]];
    rewrite H in Hreq; try discriminate.
  injection Hreq as _ <-. auto.
Qed.

Lemma decoder_calls_filtered (cs : list call) :
  Forall isDecoderCall cs ->
  List.filter isWrite cs = [] /\ List.filter isDelete cs = [].
Proof.
  induction 1 as [|c cs (s & _ & ->) _ [IHw IHd]]; [auto|]. simpl. auto.
Qed.

Lemma read_only_filtered (cs : list call) :
  Forall readOnly cs ->
  List.filter isWrite cs = [] /\ List.filter isDelete cs = [].
Proof.
  induction 1 as [|c cs Hc _ [IHw IHd]]; [auto|].
  destruct c; try contradiction; simpl; auto.
Qed.

(** X12.  Whatever the resource data and the remote, a run of Create/Update
    writes to the remote once at most and never deletes.  The write it sends
    is for the attributes name and management_group_id; its definition has
    that name and no id, and its properties carry policy_type, mode,
    display_name and description as the attributes are: the description is a
    pointer to the attribute also when the attribute is empty, never nil. *)
Theorem create_writes_once (st : state) :
  let d := data st in
  exists new,
    calls (snd (resourceArmManagementGroupPolicyDefinitionCreateUpdate
                  ExpandJsonFromString FlattenJsonToString meta st))
    = (calls st ++ new)%list
    /\ (length (List.filter isWrite new) <= 1)%nat
    /\ List.filter isDelete new = []
    /\ forall name definition managementGroupID,
         In (CreateOrUpdateCall name definition managementGroupID) new ->
         name = schema.Get d "name"
         /\ managementGroupID = schema.Get d "management_group_id"
         /\ policy.Name definition = Some (schema.Get d "name")
         /\ policy.ID definition = None
         /\ exists props,
              policy.Properties definition = Some props
              /\ policy.PolicyType props = schema.Get d "policy_type"
              /\ policy.Mode props = schema.Get d "mode"
              /\ policy.DisplayName props = Some (schema.Get d "display_name")
              /\ policy.Description props = Some (schema.Get d "description").
Proof.
  intros d. rewrite createUpdate_unfold. fold d.
  destruct (request ExpandJsonFromString d) as [cs [e|p]] eqn:Hreq.
  - pose proof (request_calls _ _ _ Hreq) as Hcs.
    destruct (decoder_calls_filtered _ Hcs) as [Hw Hd].
    exists cs. split; [reflexivity|]. rewrite Hw, Hd. split; [simpl; lia|].
    split; [reflexivity|]. intros name definition mg Hin.
    destruct (proj2 (in_decoder_calls _ Hcs) _ _ _ Hin).
  - pose proof (request_calls _ _ _ Hreq) as Hcs.
    destruct (decoder_calls_filtered _ Hcs) as [Hw Hd].
    pose proof (request_plain _ _ _ Hreq) as Hplain.
    set (write := CreateOrUpdateCall (schema.Get d "name") (requestDefinition d p)
                    (schema.Get d "management_group_id")).
    assert (Hshape : exists rest,
              calls (snd (let name := schema.Get d "name" in
                          let managementGroupID := schema.Get d "management_group_id" in
                          let definition := requestDefinition d p in
                          let written := (calls st ++ cs ++ [write])%list in
                          match policy.CreateOrUpdateAtManagementGroup
                                  (policyDefinitionsClient meta)
                                  name definition managementGroupID (remote st) with
                          | ((_, Some e), w) =>
                              (Ret (Some (Errorf errCreating [AString name; AError e])),
                               {| data := d; remote := w; calls := written |})
                          | ((_, None), w) =>
                              afterWrite FlattenJsonToString meta name managementGroupID
                                {| data := d; remote := w; calls := written |}
                          end))
              = (calls st ++ cs ++ write :: rest)%list
              /\ Forall readOnly rest).
    { cbv zeta.
      destruct (policy.CreateOrUpdateAtManagementGroup _ _ _ _ _) as [[u [e|]] w1].
      - exists []. split; [reflexivity|constructor].
      - destruct (afterWrite FlattenJsonToString meta (schema.Get d "name")
                    (schema.Get d "management_group_id")
                    {| data := d; remote := w1; calls := (calls st ++ cs ++ [write])%list |})
          as [r st'] eqn:Hafter.
        destruct (afterWrite_appends FlattenJsonToString meta _ _ _ _ _ Hafter)
          as (rest & Hrest & Hall).
        exists rest. split; [|exact Hall]. simpl in *. rewrite Hrest.
        rewrite <- !app_assoc. reflexivity. }
    destruct Hshape as (rest & Hshape & Hall).
    destruct (read_only_filtered _ Hall) as [Hw' Hd'].
    exists (cs ++ write :: rest)%list. split; [exact Hshape|].
    rewrite !List.filter_app. cbn [List.filter isWrite isDelete write].
    rewrite Hw, Hd, Hw', Hd'. split; [simpl; lia|]. split; [reflexivity|].
    intros name definition mg Hin.
    apply in_app_or in Hin. destruct Hin as [Hin|[Hin|Hin]].
    + destruct (proj2 (in_decoder_calls _ Hcs) _ _ _ Hin).
    + injection Hin as <- <- <-. repeat (split; [reflexivity|]).
      exists p. split; [reflexivity|exact Hplain].
    + destruct (proj2 (in_read_only _ Hall) _ _ _ Hin).
Qed.

(** X13.  When the write fails, Create/Update stops there: it returns "Error
    Creating/Updating Management Group Policy ..." with the name and the
    error of the remote, does not wait and does not read, and leaves the
    resource data, the stored id with it, as it was. *)
Theorem write_error_stops_create (st : state) (cs : list call)
    (p : policy.DefinitionProperties) (u : policy.PolicyDefinition) (e : error) (w1 : World) :
  let name := schema.Get (data st) "name" in
  let managementGroupID := schema.Get (data st) "management_group_id" in
  request ExpandJsonFromString (data st) = (cs, inr p) ->
  policy.CreateOrUpdateAtManagementGroup (policyDefinitionsClient meta)
    name (requestDefinition (data st) p) managementGroupID (remote st) = ((u, Some e), w1) ->
  resourceArmManagementGroupPolicyDefinitionCreateUpdate
    ExpandJsonFromString FlattenJsonToString meta st
  = (Ret (Some (Errorf errCreating [AString name; AError e])),
     {| data := data st; remote := w1;
        calls := (calls st ++ cs
                  ++ [CreateOrUpdateCall name (requestDefinition (data st) p)
                        managementGroupID])%list |}).
Proof.
  intros name managementGroupID Hreq Hwrite. rewrite createUpdate_unfold, Hreq. cbv zeta.
  fold name managementGroupID. rewrite Hwrite. reflexivity.
Qed.

(** The wait leaves the resource data as it was. *)
Lemma wait_keeps_data (name managementGroupID : string) (st st2 : state)
    (r : outcome (option policy.PolicyDefinition * option error)) :
  WaitForState (stateConf (policyDefinitionsClient meta) name managementGroupID) st
  = (r, st2) ->
  data st2 = data st.
Proof.
  intros H. symmetry.
  exact (WaitForState_keeps_data
           (stateConf (policyDefinitionsClient meta) name managementGroupID)
           (refresh_keeps_data name managementGroupID) _ _ _ H).
Qed.

(** X14.  Create/Update ends in Read.  When the write and the wait have
    succeeded and the read that follows the wait answers without an error a
    definition with an id, Create/Update stores that id in the resource data,
    which is until then as it was, and what it does and returns from there is
    what Read does and returns.  So when the id of the remote does not split
    into 9 segments, Create/Update returns the error of the parse, after the
    write, and with that id stored. *)
Theorem create_ends_in_read (st st2 : state) (cs : list call)
    (p : policy.DefinitionProperties) (u resp : policy.PolicyDefinition) (w1 w3 : World)
    (res : option policy.PolicyDefinition) (respID : string) :
  let name := schema.Get (data st) "name" in
  let managementGroupID := schema.Get (data st) "management_group_id" in
  let st3 := {| data := schema.SetId (data st) respID; remote := w3;
                calls := (calls st2 ++ [GetCall name managementGroupID])%list |} in
  request ExpandJsonFromString (data st) = (cs, inr p) ->
  policy.CreateOrUpdateAtManagementGroup (policyDefinitionsClient meta)
    name (requestDefinition (data st) p) managementGroupID (remote st) = ((u, None), w1) ->
  WaitForState (stateConf (policyDefinitionsClient meta) name managementGroupID)
    {| data := data st; remote := w1;
       calls := (calls st ++ cs
                 ++ [CreateOrUpdateCall name (requestDefinition (data st) p)
                       managementGroupID])%list |}
  = (Ret (res, None), st2) ->
  policy.GetAtManagementGroup (policyDefinitionsClient meta)
    name managementGroupID (remote st2) = ((resp, None), w3) ->
  policy.ID resp = Some respID ->
  resourceArmManagementGroupPolicyDefinitionCreateUpdate
    ExpandJsonFromString FlattenJsonToString meta st
  = resourceArmManagementGroupPolicyDefinitionRead FlattenJsonToString meta st3
  /\ (len (strings.Split respID "/"%char) <> 9 ->
      resourceArmManagementGroupPolicyDefinitionCreateUpdate
        ExpandJsonFromString FlattenJsonToString meta st
      = (Ret (Some (Errorf errParsingId
                      [AString respID;
                       AError (Errorf errIdSegments
                                 [AInt (len (strings.Split respID "/"%char) - 1);
                                  AString respID])])),
         st3)).
Proof.
  intros name managementGroupID st3 Hreq Hwrite Hwait Hget Hid.
  assert (Hrun : resourceArmManagementGroupPolicyDefinitionCreateUpdate
                   ExpandJsonFromString FlattenJsonToString meta st
                 = resourceArmManagementGroupPolicyDefinitionRead
                     FlattenJsonToString meta st3).
  { rewrite (createUpdate_after_write ExpandJsonFromString FlattenJsonToString meta
               name managementGroupID st cs p u w1 eq_refl eq_refl Hreq Hwrite).
    pose proof (wait_keeps_data _ _ _ _ _ Hwait) as Hdata. cbn [data] in Hdata.
    unfold afterWrite. unfold bind at 1. rewrite Hwait. cbn [snd].
    unfold bind at 1. unfold getAtManagementGroup at 1. unfold bind at 1.
    unfold record at 1, onRemote at 1. cbn [remote data calls]. rewrite Hget, Hid.
    unfold bind at 1. unfold dSetId, onData. cbn [remote data calls]. rewrite Hdata.
    reflexivity. }
  split; [exact Hrun|]. intros Hne. rewrite Hrun.
  unfold resourceArmManagementGroupPolicyDefinitionRead, bind, dId, lift.
  cbn [data st3 schema.Id schema.SetId schema.id].
  rewrite (parse_segment_error _ Hne). reflexivity.
Qed.

(** X15.  The read that follows the wait has no not-found case: when the
    write and the wait have succeeded and that read is answered with an
    error, whatever its response (a not-found response too, which Read takes
    for the definition being gone), Create/Update returns "Error retrieving
    Management Group Policy Definition ..." with the name and the error, and
    leaves the resource data as it was: the stored id is not set. *)
Theorem read_error_after_wait (st st2 : state) (cs : list call)
    (p : policy.DefinitionProperties) (u resp : policy.PolicyDefinition) (w1 w3 : World)
    (res : option policy.PolicyDefinition) (e : error) :
  let name := schema.Get (data st) "name" in
  let managementGroupID := schema.Get (data st) "management_group_id" in
  request ExpandJsonFromString (data st) = (cs, inr p) ->
  policy.CreateOrUpdateAtManagementGroup (policyDefinitionsClient meta)
    name (requestDefinition (data st) p) managementGroupID (remote st) = ((u, None), w1) ->
  WaitForState (stateConf (policyDefinitionsClient meta) name managementGroupID)
    {| data := data st; remote := w1;
       calls := (calls st ++ cs
                 ++ [CreateOrUpdateCall name (requestDefinition (data st) p)
                       managementGroupID])%list |}
  = (Ret (res, None), st2) ->
  policy.GetAtManagementGroup (policyDefinitionsClient meta)
    name managementGroupID (remote st2) = ((resp, Some e), w3) ->
  resourceArmManagementGroupPolicyDefinitionCreateUpdate
    ExpandJsonFromString FlattenJsonToString meta st
  = (Ret (Some (Errorf errRetrieving [AString name; AError e])),
     {| data := data st; remote := w3;
        calls := (calls st2 ++ [GetCall name managementGroupID])%list |}).
Proof.
  intros name managementGroupID Hreq Hwrite Hwait Hget.
  rewrite (createUpdate_after_write ExpandJsonFromString FlattenJsonToString meta
             name managementGroupID st cs p u w1 eq_refl eq_refl Hreq Hwrite).
  pose proof (wait_keeps_data _ _ _ _ _ Hwait) as Hdata. cbn [data] in Hdata.
  unfold afterWrite. unfold bind at 1. rewrite Hwait. cbn [snd].
  run_unfold. cbn. rewrite Hget. cbn. rewrite Hdata. reflexivity.
Qed.

(** Read keeps the stored id when the remote answers the read without an
    error. *)
Lemma read_keeps_id (st : state) (id : managementGroupPolicyResourceID)
    (resp : policy.PolicyDefinition) (w' : World) :
  parseManagementGroupPolicyDefinitionNameFromID (schema.Id (data st)) = Ret (Some id, None) ->
  policy.GetAtManagementGroup (policyDefinitionsClient meta)
    (Name id) (ManagementGroupID id) (remote st) = ((resp, None), w') ->
  schema.Id (data (snd (resourceArmManagementGroupPolicyDefinitionRead
                          FlattenJsonToString meta st)))
  = schema.Id (data st).
Proof.
  intros Hparse Hget. rewrite (read_after_get st id resp w' Hparse Hget).
  destruct (policy.Properties resp) as [props|]; [|reflexivity].
  destruct (storeJsonFields _ _ _) as [out st'] eqn:Hrun. cbn [snd].
  rewrite (storeJsonFields_id props _ _ _ Hrun). reflexivity.
Qed.

(** Read when the remote answers the read with an error. *)
Lemma read_on_error (st : state) (id : managementGroupPolicyResourceID)
    (resp : policy.PolicyDefinition) (e : error) (w' : World) :
  parseManagementGroupPolicyDefinitionNameFromID (schema.Id (data st)) = Ret (Some id, None) ->
  policy.GetAtManagementGroup (policyDefinitionsClient meta)
    (Name id) (ManagementGroupID id) (remote st) = ((resp, Some e), w') ->
  resourceArmManagementGroupPolicyDefinitionRead FlattenJsonToString meta st
  = if utils.ResponseWasNotFound (policy.Response resp)
    then (Ret None,
          {| data := schema.SetId (data st) EmptyString; remote := w';
             calls := (calls st ++ [GetCall (Name id) (ManagementGroupID id)])%list |})
    else (Ret (Some (Errorf errReading [AError e])),
          {| data := data st; remote := w';
             calls := (calls st ++ [GetCall (Name id) (ManagementGroupID id)])%list |}).
Proof.
  intros Hparse Hget.
  unfold resourceArmManagementGroupPolicyDefinitionRead. run_unfold.
  rewrite Hparse. cbn. rewrite Hget. cbn.
  destruct (utils.ResponseWasNotFound (policy.Response resp)); reflexivity.
Qed.

(** X16.  What it means that Create/Update returns no error: every field that
    is not empty decoded, the remote accepted the write, the wait ended
    without an error, the read that follows it was answered without an error
    with a definition whose id splits into 9 segments, and Read, run with
    that id stored, returned no error.  The stored id is then that id, or the
    empty string: Create/Update returns no error also when the final read of
    Read finds the definition gone and clears the id. *)
Theorem create_success_means (st st' : state) :
  resourceArmManagementGroupPolicyDefinitionCreateUpdate
    ExpandJsonFromString FlattenJsonToString meta st = (Ret None, st') ->
  let name := schema.Get (data st) "name" in
  let managementGroupID := schema.Get (data st) "management_group_id" in
  exists cs p u w1 res st2 resp w3 respID,
    request ExpandJsonFromString (data st) = (cs, inr p)
    /\ policy.CreateOrUpdateAtManagementGroup (policyDefinitionsClient meta)
         name (requestDefinition (data st) p) managementGroupID (remote st) = ((u, None), w1)
    /\ WaitForState (stateConf (policyDefinitionsClient meta) name managementGroupID)
         {| data := data st; remote := w1;
            calls := (calls st ++ cs
                      ++ [CreateOrUpdateCall name (requestDefinition (data st) p)
                            managementGroupID])%list |}
       = (Ret (res, None), st2)
    /\ policy.GetAtManagementGroup (policyDefinitionsClient meta)
         name managementGroupID (remote st2) = ((resp, None), w3)
    /\ policy.ID resp = Some respID
    /\ len (strings.Split respID "/"%char) = 9
    /\ resourceArmManagementGroupPolicyDefinitionRead FlattenJsonToString meta
         {| data := schema.SetId (data st) respID; remote := w3;
            calls := (calls st2 ++ [GetCall name managementGroupID])%list |}
       = (Ret None, st')
    /\ (schema.Id (data st') = respID \/ schema.Id (data st') = EmptyString).
Proof.
  intros Hrun name managementGroupID. rewrite createUpdate_unfold in Hrun.
  destruct (request ExpandJsonFromString (data st)) as [cs [e|p]] eqn:Hreq;
    [discriminate|].
  cbv zeta in Hrun. fold name managementGroupID in Hrun.
  destruct (policy.CreateOrUpdateAtManagementGroup _ _ _ _ _) as [[u [e|]] w1] eqn:Hwrite;
    [discriminate|].
  unfold afterWrite in Hrun. unfold bind at 1 in Hrun.
  destruct (WaitForState _ _) as [[[res [e|]]| |] st2] eqn:Hwait; cbn [snd] in Hrun;
    try discriminate.
  pose proof (wait_keeps_data _ _ _ _ _ Hwait) as Hdata. cbn [data] in Hdata.
  unfold bind at 1 in Hrun. unfold getAtManagementGroup at 1 in Hrun.
  unfold bind at 1 in Hrun. unfold record at 1, onRemote at 1 in Hrun.
  cbn [remote data calls] in Hrun.
  destruct (policy.GetAtManagementGroup _ _ _ _) as [[resp [e|]] w3] eqn:Hget;
    [discriminate|].
  destruct (policy.ID resp) as [respID|] eqn:Hid; [|discriminate].
  unfold bind at 1 in Hrun. unfold dSetId, onData in Hrun.
  cbn [remote data calls] in Hrun. rewrite Hdata in Hrun.
  exists cs, p, u, w1, res, st2, resp, w3, respID.
  repeat (split; [first [reflexivity | assumption]|]).
  set (st3 := {| data := schema.SetId (data st) respID; remote := w3;
                 calls := (calls st2 ++ [GetCall name managementGroupID])%list |}) in *.
  destruct (Z.eq_dec (len (strings.Split respID "/"%char)) 9) as [H9|Hne].
  - split; [exact H9|]. split; [exact Hrun|].
    pose proof (parse_nine _ H9) as Hparse.
    remember {| ManagementGroupID :=
                  strings.Join (firstn 5 (strings.Split respID "/"%char)) "/";
                Name := List.last (strings.Split respID "/"%char) EmptyString |} as id.
    destruct (policy.GetAtManagementGroup (policyDefinitionsClient meta)
                (Name id) (ManagementGroupID id) w3) as [[resp' [e|]] w4] eqn:Hget'.
    + right. rewrite (read_on_error st3 id resp' e w4 Hparse Hget') in Hrun.
      destruct (utils.ResponseWasNotFound (policy.Response resp')); [|discriminate].
      injection Hrun as <-. reflexivity.
    + left.
      pose proof (read_keeps_id st3 id resp' w4 Hparse Hget') as Hkeep.
      rewrite Hrun in Hkeep. exact Hkeep.
  - exfalso.
    unfold resourceArmManagementGroupPolicyDefinitionRead, bind, dId, lift in Hrun.
    cbn [data st3 schema.Id schema.SetId schema.id] in Hrun.
    rewrite (parse_segment_error _ Hne) in Hrun. discriminate.
Qed.

End ResourceData.

(** ** What Read and Delete depend on *)

Section Dependence.

Context {World : Type}.

Lemma usesOnlyId_ret {A : Type} (a : A) : usesOnlyId (World := World) (ret a).
Proof. intros st1 st2 H. split; [reflexivity|exact H]. Qed.

Lemma usesOnlyId_lift {A : Type} (o : outcome A) : usesOnlyId (World := World) (lift o).
Proof. intros st1 st2 H. split; [reflexivity|exact H]. Qed.

Lemma usesOnlyId_bind {A B : Type} (c : M A) (k : A -> M B) :
  usesOnlyId (World := World) c ->
  (forall a, usesOnlyId (World := World) (k a)) ->
  usesOnlyId (World := World) (bind c k).
Proof.
  intros Hc Hk st1 st2 H. destruct (Hc st1 st2 H) as [Hout Hsame]. unfold bind.
  destruct (c st1) as [o1 st1'], (c st2) as [o2 st2']. cbn [fst snd] in *. subst o2.
  destruct o1 as [a| |]; [apply Hk; exact Hsame| |];
    (split; [reflexivity|exact Hsame]).
Qed.

Lemma usesOnlyId_record (c : call) : usesOnlyId (World := World) (record c).
Proof. intros st1 st2 H. split; [reflexivity|exact H]. Qed.

Lemma usesOnlyId_onRemote {A : Type} (f : World -> A * World) :
  usesOnlyId (World := World) (onRemote f).
Proof.
  intros st1 st2 [Hid Hremote]. unfold onRemote. rewrite Hremote.
  destruct (f (remote st2)) as [a w]. split; [reflexivity|split; [exact Hid|reflexivity]].
Qed.

Lemma usesOnlyId_onData (f : schema.ResourceData -> schema.ResourceData) :
  (forall d1 d2, schema.Id d1 = schema.Id d2 -> schema.Id (f d1) = schema.Id (f d2)) ->
  usesOnlyId (World := World) (onData f).
Proof.
  intros Hf st1 st2 [Hid Hremote]. split; [reflexivity|].
  split; [apply Hf; exact Hid|exact Hremote].
Qed.

Lemma usesOnlyId_dId : usesOnlyId (World := World) dId.
Proof. intros st1 st2 H. unfold dId. cbn [fst snd]. rewrite (proj1 H). auto. Qed.

Lemma usesOnlyId_andThen (c k : M (option error)) :
  usesOnlyId (World := World) c -> usesOnlyId (World := World) k ->
  usesOnlyId (World := World) (andThen c k).
Proof.
  intros Hc Hk. unfold andThen. apply usesOnlyId_bind; [exact Hc|].
  intros [e|]; [apply usesOnlyId_ret|exact Hk].
Qed.

End Dependence.

Ltac usesOnlyId_step :=
  lazymatch goal with
  | |- usesOnlyId (bind _ _) => apply usesOnlyId_bind; [|intros ?]
  | |- usesOnlyId (andThen _ _) => apply usesOnlyId_andThen
  | |- usesOnlyId (ret _) => apply usesOnlyId_ret
  | |- usesOnlyId (lift _) => apply usesOnlyId_lift
  | |- usesOnlyId (record _) => apply usesOnlyId_record
  | |- usesOnlyId (onRemote _) => apply usesOnlyId_onRemote
  | |- usesOnlyId (onData _) => apply usesOnlyId_onData; intros ? ? ?; auto
  | |- usesOnlyId dId => apply usesOnlyId_dId
  | |- usesOnlyId (dSet _ _) => unfold dSet
  | |- usesOnlyId (dSetPtr _ _) => unfold dSetPtr
  | |- usesOnlyId (dSetId _) => unfold dSetId
  | |- usesOnlyId (getAtManagementGroup _ _ _) => unfold getAtManagementGroup
  | |- usesOnlyId (deleteAtManagementGroup _ _ _) => unfold deleteAtManagementGroup
  | |- usesOnlyId (flattenJsonToString _ _) => unfold flattenJsonToString
  | |- usesOnlyId (match ?x with _ => _ end) => destruct x
  | |- usesOnlyId (if ?x then _ else _) => destruct x
  end.

Section ReadDependence.

Context {World : Type}.
Variable FlattenJsonToString : gmap string value -> string * option error.
Variable meta : ArmClient World.

(** X17.  Read and Delete use nothing of the resource data but the stored id:
    on two states that agree on the stored id and on the remote, whatever
    their attributes, each of them returns the same (the same error, the
    same panic), leaves the remote in the same state, and leaves the same
    stored id. *)
Theorem read_and_delete_use_only_the_id (st1 st2 : state) :
  schema.Id (data st1) = schema.Id (data st2) ->
  remote st1 = remote st2 ->
  let read := resourceArmManagementGroupPolicyDefinitionRead FlattenJsonToString meta in
  let delete := resourceArmManagementGroupPolicyDefinitionDelete meta in
  fst (read st1) = fst (read st2)
  /\ remote (snd (read st1)) = remote (snd (read st2))
  /\ schema.Id (data (snd (read st1))) = schema.Id (data (snd (read st2)))
  /\ fst (delete st1) = fst (delete st2)
  /\ remote (snd (delete st1)) = remote (snd (delete st2)).
Proof.
  intros Hid Hremote read delete.
  assert (Hread : usesOnlyId read).
  { unfold read, resourceArmManagementGroupPolicyDefinitionRead.
    repeat usesOnlyId_step. }
  assert (Hdelete : usesOnlyId delete).
  { unfold delete, resourceArmManagementGroupPolicyDefinitionDelete.
    repeat usesOnlyId_step. }
  destruct (Hread st1 st2 (conj Hid Hremote)) as (Hr & Hrid & Hrw).
  destruct (Hdelete st1 st2 (conj Hid Hremote)) as (Hd & _ & Hdw).
  auto.
Qed.

End ReadDependence.

(** ** The checks of the acceptance test *)

Section Checks.

Context {World : Type}.
Variable meta : ArmClient World.

(** X18.  The check that the definition exists passes exactly when the state
    has the resource, the read of the remote for its attributes name and
    management_group_id returns no error, and the status of the answer is not
    404.  When the read returns an error the check fails with "Bad: Get on
    policyDefinitionsClient: ...", whatever the response: a not-found answer
    that the client reports with an error is reported so, not as "does not
    exist". *)
Theorem exists_check_passes_iff (st : state) (s : terraform.State)
    (root : terraform.ModuleState) (name : string) :
  terraform.RootModule s = Some root ->
  let run := testCheckAzureRMManagementGroupPolicyDefinitionExists meta name s st in
  (fst run = Ret None <->
   exists rs primary resp w' h,
     terraform.Resources root !! name = Some (Some rs)
     /\ terraform.Primary rs = Some primary
     /\ policy.GetAtManagementGroup (policyDefinitionsClient meta)
          (default EmptyString (terraform.Attributes primary !! "name"))
          (default EmptyString (terraform.Attributes primary !! "management_group_id"))
          (remote st) = ((resp, None), w')
     /\ autorest.httpResponse (policy.Response resp) = Some h
     /\ http.StatusCode h <> http.StatusNotFound)
  /\ (forall rs primary resp e w',
        terraform.Resources root !! name = Some (Some rs) ->
        terraform.Primary rs = Some primary ->
        policy.GetAtManagementGroup (policyDefinitionsClient meta)
          (default EmptyString (terraform.Attributes primary !! "name"))
          (default EmptyString (terraform.Attributes primary !! "management_group_id"))
          (remote st) = ((resp, Some e), w') ->
        fst run = Ret (Some (Errorf errBadGet [AError e]))).
Proof.
  intros Hroot run. subst run.
  unfold testCheckAzureRMManagementGroupPolicyDefinitionExists, statusCodeOf, deref.
  run_unfold. rewrite Hroot. cbn.
  destruct (terraform.Resources root !! name) as [[rs|]|] eqn:Hrs; cbn.
  2,3: split; [split; [discriminate|intros (? & ? & ? & ? & ? & ? & _); discriminate]
              |intros; discriminate].
  destruct (terraform.Primary rs) as [primary|] eqn:Hprimary; cbn.
  2: split; [split; [discriminate|intros (? & ? & ? & ? & ? & H1 & H2 & _); congruence]
            |intros; congruence].
  destruct (policy.GetAtManagementGroup _ _ _ _) as [[resp [e|]] w'] eqn:Hget; cbn.
  - split; [split; [discriminate|]|].
    + intros (rs' & primary' & resp' & w'' & h & H1 & H2 & H3 & _).
      injection H1 as <-. rewrite Hprimary in H2. injection H2 as <-.
      rewrite Hget in H3. discriminate.
    + intros rs' primary' resp' e' w'' H1 H2 H3.
      injection H1 as <-. rewrite Hprimary in H2. injection H2 as <-.
      rewrite Hget in H3. injection H3 as _ <- _. reflexivity.
  - split.
    2: { intros rs' primary' resp' e' w'' H1 H2 H3.
         injection H1 as <-. rewrite Hprimary in H2. injection H2 as <-.
         rewrite Hget in H3. discriminate. }
    destruct (autorest.httpResponse (policy.Response resp)) as [h|] eqn:Hh; cbn.
    + destruct (Z.eqb_spec (http.StatusCode h) http.StatusNotFound) as [H404|H404]; cbn.
      * split; [discriminate|].
        intros (rs' & primary' & resp' & w'' & h' & H1 & H2 & H3 & H4 & H5).
        injection H1 as <-. rewrite Hprimary in H2. injection H2 as <-.
        rewrite Hget in H3. injection H3 as <- _. rewrite Hh in H4. injection H4 as <-.
        contradiction.
      * split; [intros _|reflexivity]. exists rs, primary, resp, w', h. auto.
    + split; [discriminate|].
      intros (rs' & primary' & resp' & w'' & h' & H1 & H2 & H3 & H4 & _).
      injection H1 as <-. rewrite Hprimary in H2. injection H2 as <-.
      rewrite Hget in H3. injection H3 as <- _. rewrite Hh in H4. discriminate.
Qed.

Lemma destroyRange_others (pre rest : list (option terraform.ResourceState)) (st : state) :
  Forall otherResource pre ->
  destroyRange (policyDefinitionsClient meta) (pre ++ rest)%list st
  = destroyRange (policyDefinitionsClient meta) rest st.
Proof.
  induction 1 as [|rsPtr pre (rs & -> & Hother) _ IH]; [reflexivity|].
  cbn. unfold bind at 1. cbn.
  destruct (String.eqb_spec (terraform.ResourceType rs)
              "azurerm_management_group_policy_definition") as [Heq|_];
    [contradiction|]. exact IH.
Qed.

(** X19.  The check that the definitions are destroyed is decided by the first
    policy definition of a management group that the range visits, unless
    the remote answers its read with status 404 and no error.  The resources
    of other types visited before it cause no call.  When the read of that
    definition returns an error the check passes at once, and the resources
    still to visit are not read (a definition among them that still exists
    goes unnoticed); when the read returns no error and a status other than
    404 the check fails with "management group policy still exists:" and the
    name the remote returned; when the read returns no error and status 404
    the check goes on with the resources still to visit. *)
Theorem destroy_check_first_definition (st : state) (s : terraform.State)
    (root : terraform.ModuleState) (pre post : list (option terraform.ResourceState))
    (rs : terraform.ResourceState) (primary : terraform.InstanceState) :
  terraform.RootModule s = Some root ->
  rangeOrder root (pre ++ Some rs :: post)%list ->
  Forall otherResource pre ->
  terraform.ResourceType rs = "azurerm_management_group_policy_definition" ->
  terraform.Primary rs = Some primary ->
  let name := default EmptyString (terraform.Attributes primary !! "name") in
  let managementGroupID :=
    default EmptyString (terraform.Attributes primary !! "management_group_id") in
  let run := testCheckAzureRMManagementGroupPolicyDefinitionDestroy meta s
               (pre ++ Some rs :: post)%list st in
  let read w' := {| data := data st; remote := w';
                    calls := (calls st ++ [GetCall name managementGroupID])%list |} in
  (forall resp e w',
     policy.GetAtManagementGroup (policyDefinitionsClient meta)
       name managementGroupID (remote st) = ((resp, Some e), w') ->
     run = (Ret None, read w'))
  /\ (forall resp h respName w',
        policy.GetAtManagementGroup (policyDefinitionsClient meta)
          name managementGroupID (remote st) = ((resp, None), w') ->
        autorest.httpResponse (policy.Response resp) = Some h ->
        http.StatusCode h <> http.StatusNotFound ->
        policy.Name resp = Some respName ->
        run = (Ret (Some (Errorf errStillExists [AString respName])), read w'))
  /\ (forall resp h w',
        policy.GetAtManagementGroup (policyDefinitionsClient meta)
          name managementGroupID (remote st) = ((resp, None), w') ->
        autorest.httpResponse (policy.Response resp) = Some h ->
        http.StatusCode h = http.StatusNotFound ->
        run = destroyRange (policyDefinitionsClient meta) post (read w')).
Proof.
  intros Hroot _ Hpre Htype Hprimary name managementGroupID run read.
  assert (Hrun : run = destroyRange (policyDefinitionsClient meta) (Some rs :: post) st).
  { unfold run, testCheckAzureRMManagementGroupPolicyDefinitionDestroy.
    unfold bind at 1. rewrite Hroot. cbn [lift deref].
    apply destroyRange_others. exact Hpre. }
  assert (Hvisit : destroyRange (policyDefinitionsClient meta) (Some rs :: post) st
                   = match policy.GetAtManagementGroup (policyDefinitionsClient meta)
                             name managementGroupID (remote st) with
                     | ((_, Some _), w') => (Ret None, read w')
                     | ((resp, None), w') =>
                         match autorest.httpResponse (policy.Response resp) with
                         | None =>
                             (Panic "invalid memory address or nil pointer dereference",
                              read w')
                         | Some h =>
                             if negb (http.StatusCode h =? http.StatusNotFound) then
                               match policy.Name resp with
                               | Some respName =>
                                   (Ret (Some (Errorf errStillExists [AString respName])),
                                    read w')
                               | None =>
                                   (Panic "invalid memory address or nil pointer dereference",
                                    read w')
                               end
                             else destroyRange (policyDefinitionsClient meta) post (read w')
                         end
                     end).
  { cbn [destroyRange]. unfold bind at 1. cbn [lift deref].
    rewrite Htype, String.eqb_refl. cbn [negb].
    unfold bind at 1. rewrite Hprimary. cbn [lift deref]. cbv zeta.
    fold name managementGroupID. unfold statusCodeOf. run_unfold. cbn [data remote calls].
    destruct (policy.GetAtManagementGroup _ _ _ _) as [[resp [e|]] w']; [reflexivity|].
    destruct (autorest.httpResponse (policy.Response resp)) as [h|]; [|reflexivity].
    destruct (negb (http.StatusCode h =? http.StatusNotFound)); [|reflexivity].
    cbn. destruct (policy.Name resp); reflexivity. }
  rewrite Hrun, Hvisit. repeat split.
  - intros resp e w' Hget. rewrite Hget. reflexivity.
  - intros resp h respName w' Hget Hh Hstatus Hname. rewrite Hget, Hh.
    apply Z.eqb_neq in Hstatus. rewrite Hstatus. cbn [negb]. rewrite Hname. reflexivity.
  - intros resp h w' Hget Hh Hstatus. rewrite Hget, Hh.
    apply Z.eqb_eq in Hstatus. rewrite Hstatus. reflexivity.
Qed.

End Checks.

(** ** The operations on the sample remote *)

(** C5 on a remote that reports not found, for a read and for a delete. *)
Lemma not_found_is_not_an_error_witness :
  resourceArmManagementGroupPolicyDefinitionRead sampleFlatten
    (sampleMeta (fun _ => notFound) gone)
    (start (stored (sampleData EmptyString EmptyString EmptyString)))
  = (Ret None,
     {| data := schema.SetId (stored (sampleData EmptyString EmptyString EmptyString))
                  EmptyString;
        remote := 1%nat;
        calls := [GetCall "pol1" "/providers/Microsoft.Management/managementGroups/mg1"] |})
  /\ resourceArmManagementGroupPolicyDefinitionDelete
       (sampleMeta (fun _ => notFound) gone)
       (start (stored (sampleData EmptyString EmptyString EmptyString)))
     = (Ret None,
        {| data := stored (sampleData EmptyString EmptyString EmptyString);
           remote := O;
           calls := [DeleteCall "pol1"
                       "/providers/Microsoft.Management/managementGroups/mg1"] |}).
Proof.
  pose proof (not_found_is_not_an_error sampleFlatten
                (sampleMeta (fun _ => notFound) gone)
                (start (stored (sampleData EmptyString EmptyString EmptyString)))
                sampleId eq_refl) as [Hread Hdelete].
  split.
  - exact (Hread absent errNotFound 1%nat eq_refl eq_refl).
  - exact (Hdelete (response 404) errNotFound O eq_refl eq_refl).
Defined.

(** C6 on resource data whose metadata does not decode. *)
Lemma malformed_json_fails_before_write_witness :
  offending sampleExpand
    (schema.Get (sampleData "{}" unparsable EmptyString) "metadata")
  /\ exists field e cs,
       In field ["policy_rule"; "metadata"; "parameters"]%string
       /\ schema.Get (sampleData "{}" unparsable EmptyString) field <> EmptyString
       /\ snd (sampleExpand (schema.Get (sampleData "{}" unparsable EmptyString) field))
          = Some e
       /\ resourceArmManagementGroupPolicyDefinitionCreateUpdate sampleExpand sampleFlatten
            (sampleMeta (fun _ => found) gone)
            (start (sampleData "{}" unparsable EmptyString))
          = (Ret (Some (Errorf ("unable to parse " ++ field ++ ": %s") [AError e])),
             recorded (start (sampleData "{}" unparsable EmptyString)) cs)
       /\ Forall (fun c => exists s, c = ExpandJsonFromStringCall s) cs
       /\ (forall name definition managementGroupID,
             ~ In (CreateOrUpdateCall name definition managementGroupID) cs).
Proof.
  assert (Hoff : offending sampleExpand
                   (schema.Get (sampleData "{}" unparsable EmptyString) "metadata"))
    by (split; vm_compute; discriminate).
  split; [exact Hoff|].
  exact (malformed_json_fails_before_write sampleExpand sampleFlatten
           (sampleMeta (fun _ => found) gone)
           (start (sampleData "{}" unparsable EmptyString))
           (or_intror (or_introl Hoff))).
Defined.

(** The sample of C6, run: the policy rule decodes, the metadata does not. *)
Example malformed_metadata_sample :
  resourceArmManagementGroupPolicyDefinitionCreateUpdate sampleExpand sampleFlatten
    (sampleMeta (fun _ => found) gone)
    (start (sampleData "{}" unparsable EmptyString))
  = (Ret (Some (Errorf "unable to parse metadata: %s"
                  [AError (LibraryError "invalid character")])),
     {| data := sampleData "{}" unparsable EmptyString;
        remote := O;
        calls := [ExpandJsonFromStringCall "{}"; ExpandJsonFromStringCall unparsable] |}).
Proof. vm_compute. reflexivity. Qed.

(** C10 on a definition whose policy rule is an array. *)
Lemma read_type_assertions_witness :
  let run := resourceArmManagementGroupPolicyDefinitionRead sampleFlatten
               (sampleMeta (fun _ => (answer 200 (Some arrayRule), None)) gone)
               (start (stored (sampleData EmptyString EmptyString EmptyString))) in
  let safe := objectOrNil (policy.PolicyRule arrayRule)
              && objectOrNil (policy.Metadata arrayRule)
              && objectOrNil (policy.Parameters arrayRule) in
  (safe = true -> exists r, fst run = Ret r)
  /\ (flattens sampleFlatten (policy.PolicyRule arrayRule) ->
      flattens sampleFlatten (policy.Metadata arrayRule) ->
      safe = false -> fst run = Panic errAssert)
  /\ (objectOrNil (policy.PolicyRule arrayRule) = false -> fst run = Panic errAssert).
Proof.
  exact (read_type_assertions sampleFlatten
           (sampleMeta (fun _ => (answer 200 (Some arrayRule), None)) gone)
           (start (stored (sampleData EmptyString EmptyString EmptyString)))
           sampleId (answer 200 (Some arrayRule)) 1%nat arrayRule
           eq_refl eq_refl eq_refl).
Defined.

(** Read on a definition whose policy rule is an array, and on one whose
    fields are objects. *)
Example read_array_rule_panics :
  fst (resourceArmManagementGroupPolicyDefinitionRead sampleFlatten
         (sampleMeta (fun _ => (answer 200 (Some arrayRule), None)) gone)
         (start (stored (sampleData EmptyString EmptyString EmptyString))))
  = Panic "interface conversion: interface {} is not map[string]interface {}".
Proof. vm_compute. reflexivity. Qed.

Example read_objects_returns :
  fst (resourceArmManagementGroupPolicyDefinitionRead sampleFlatten
         (sampleMeta (fun _ => found) gone)
         (start (stored (sampleData EmptyString EmptyString EmptyString))))
  = Ret None.
Proof. vm_compute. reflexivity. Qed.

(** C1 on the remote that answers three reads and then reports not found:
    Create/Update fails at the fourth poll. *)
Lemma not_found_poll_fails_create_witness :
  resourceArmManagementGroupPolicyDefinitionCreateUpdate sampleExpand sampleFlatten
    (sampleMeta flaky gone) (start (sampleData "{}" EmptyString EmptyString))
  = (Ret (Some (Errorf errWaiting
                  [AString "pol1";
                   AError (Errorf errRefresh [AString "pol1"; AError errNotFound])])),
     {| data := sampleData "{}" EmptyString EmptyString;
        remote := 4%nat;
        calls := [ExpandJsonFromStringCall "{}"; sampleWrite;
                  GetCall "pol1" "mg1"; GetCall "pol1" "mg1";
                  GetCall "pol1" "mg1"; GetCall "pol1" "mg1"] |}).
Proof.
  refine (not_found_poll_fails_create sampleExpand sampleFlatten (sampleMeta flaky gone)
            (start (sampleData "{}" EmptyString EmptyString))
            [ExpandJsonFromStringCall "{}"] sampleRequest
            (requestDefinition (sampleData "{}" EmptyString EmptyString) sampleRequest)
            absent O 4%nat (repeat foundOutcome 3)
            {| data := sampleData "{}" EmptyString EmptyString;
               remote := 3%nat;
               calls := [ExpandJsonFromStringCall "{}"; sampleWrite;
                         GetCall "pol1" "mg1"; GetCall "pol1" "mg1";
                         GetCall "pol1" "mg1"] |}
            (3 * (10 * time.Second)) 3 errNotFound _ _ _ _ _ _).
  - vm_compute. reflexivity.
  - vm_compute. reflexivity.
  - apply polls_polled with (n := 3%nat). vm_compute. reflexivity.
  - vm_compute. reflexivity.
  - vm_compute. reflexivity.
  - vm_compute. reflexivity.
Defined.

(** On a remote that answers 404 without an error three times and then
    answers, Create/Update polls until 10 reads in a row have succeeded, reads
    the id, and returns what Read returns. *)
Example create_polls_until_stable :
  let run := resourceArmManagementGroupPolicyDefinitionCreateUpdate sampleExpand sampleFlatten
               (sampleMeta settling gone)
               (start (sampleData "{}" EmptyString EmptyString)) in
  fst run = Ret None
  /\ remote (snd run) = 15%nat
  /\ schema.Id (data (snd run)) = literalId
  /\ calls (snd run)
     = ([ExpandJsonFromStringCall "{}"; sampleWrite]
        ++ repeat (GetCall "pol1" "mg1") 14
        ++ [GetCall "pol1" "/providers/Microsoft.Management/managementGroups/mg1";
            FlattenJsonToStringCall ∅; FlattenJsonToStringCall ∅])%list.
Proof. vm_compute. repeat split. Qed.



(** The same wait on the remote whose fourth answer is status 404 without an
    error: the fourth poll sets the count to zero. *)
Example error_free_404_resets_streak :
  resetsStreak (sampleMeta relapsing gone) "pol1" "mg1"
    (start (sampleData "{}" EmptyString EmptyString)) 4.
Proof.
  eexists _, _, _; split; [vm_compute; reflexivity|vm_compute; reflexivity].
Qed.

(** X1 on an answer without an HTTP response. *)
Lemma refresh_panics_without_response_witness :
  managementGroupPolicyDefinitionRefreshFunc
    (scriptedClient (fun _ => lost) gone) "pol1" "mg1"
    (start (sampleData "{}" EmptyString EmptyString))
  = (Panic "invalid memory address or nil pointer dereference",
     {| data := sampleData "{}" EmptyString EmptyString;
        remote := 1%nat;
        calls := [GetCall "pol1" "mg1"] |}).
Proof.
  exact (refresh_panics_without_response (sampleMeta (fun _ => lost) gone) "pol1" "mg1"
           (start (sampleData "{}" EmptyString EmptyString))
           (fst lost) (snd lost) 1%nat eq_refl eq_refl).
Defined.

(** X2 on a remote whose definition, read after the wait, has no id. *)
Lemma create_panics_without_id_witness :
  resourceArmManagementGroupPolicyDefinitionCreateUpdate sampleExpand sampleFlatten
    (sampleMeta nameless gone) (start (sampleData "{}" EmptyString EmptyString))
  = (Panic "invalid memory address or nil pointer dereference",
     {| data := sampleData "{}" EmptyString EmptyString;
        remote := 11%nat;
        calls := ([ExpandJsonFromStringCall "{}"; sampleWrite]
                  ++ repeat (GetCall "pol1" "mg1") 11)%list |}).
Proof.
  refine (create_panics_without_id sampleExpand sampleFlatten (sampleMeta nameless gone)
            (start (sampleData "{}" EmptyString EmptyString))
            {| data := sampleData "{}" EmptyString EmptyString;
               remote := 10%nat;
               calls := ([ExpandJsonFromStringCall "{}"; sampleWrite]
                         ++ repeat (GetCall "pol1" "mg1") 10)%list |}
            [ExpandJsonFromStringCall "{}"] sampleRequest
            (requestDefinition (sampleData "{}" EmptyString EmptyString) sampleRequest)
            (fst (nameless 10)) O 11%nat (Some (answer 200 (Some sampleProperties)))
            _ _ _ _ _).
  - vm_compute. reflexivity.
  - vm_compute. reflexivity.
  - vm_compute. reflexivity.
  - vm_compute. reflexivity.
  - vm_compute. reflexivity.
Defined.

(** ** The further properties on the samples *)

(** X3 on the group mg1 and the definition pol1. *)
Lemma parse_canonical_id_witness :
  parseManagementGroupPolicyDefinitionNameFromID (canonicalId "mg1" "pol1")
  = Ret (Some {| ManagementGroupID :=
                   "/providers/Microsoft.Management/managementGroups/" ++ "mg1";
                 Name := "pol1" |}, None).
Proof. exact (parse_canonical_id "mg1" "pol1" eq_refl eq_refl). Defined.

(** X4 on the literal identifier. *)
Lemma parse_result_shape_witness :
  Count "pol1" "/"%char = O
  /\ Count "/providers/Microsoft.Management/managementGroups/mg1" "/"%char = 4%nat
  /\ exists a b c : string,
       Count a "/"%char = O /\ Count b "/"%char = O /\ Count c "/"%char = O
       /\ literalId
       = ("/providers/Microsoft.Management/managementGroups/mg1"
          ++ "/" ++ a ++ "/" ++ b ++ "/" ++ c ++ "/" ++ "pol1")%string.
Proof.
  exact (parse_result_shape literalId
           {| ManagementGroupID := "/providers/Microsoft.Management/managementGroups/mg1";
              Name := "pol1" |} eq_refl).
Defined.

(** X5 on the attribute tags, which the schema does not declare, and Read. *)
Lemma operations_change_declared_attributes_witness :
  schema.attributes
    (data (snd (resourceArmManagementGroupPolicyDefinitionRead sampleFlatten
                  (sampleMeta (fun _ => found) gone)
                  (start (stored (sampleData EmptyString EmptyString EmptyString))))))
    !! "tags"
  = schema.attributes
      (data (start (stored (sampleData EmptyString EmptyString EmptyString)))) !! "tags".
Proof.
  refine (operations_change_declared_attributes sampleExpand sampleFlatten
            (sampleMeta (fun _ => found) gone)
            (start (stored (sampleData EmptyString EmptyString EmptyString)))
            "tags"
            (Read (resourceArmManagementGroupPolicyDefinition sampleExpand sampleFlatten))
            _ _).
  - simpl. tauto.
  - vm_compute. reflexivity.
Defined.

(** X6 on the sample definition. *)
Lemma read_sets_required_attributes_witness :
  let r := resourceArmManagementGroupPolicyDefinition sampleExpand sampleFlatten in
  let run := Read r (sampleMeta (fun _ => found) gone)
               (start (stored (sampleData EmptyString EmptyString EmptyString))) in
  (forall props, policy.Properties (fst found) = Some props ->
     forall key f, SchemaOf r !! key = Some f -> Required f = true ->
       schema.attributes (data (snd run)) !! key <> None)
  /\ (policy.Properties (fst found) = None ->
      fst run = Ret None
      /\ forall key, In key ["policy_type"; "mode"; "display_name"] ->
           schema.attributes (data (snd run)) !! key
           = schema.attributes
               (data (start (stored (sampleData EmptyString EmptyString EmptyString))))
               !! key).
Proof.
  exact (read_sets_required_attributes sampleExpand sampleFlatten
           (sampleMeta (fun _ => found) gone)
           (start (stored (sampleData EmptyString EmptyString EmptyString)))
           sampleId (fst found) 1%nat eq_refl eq_refl).
Defined.

(** X7 on the sample definition. *)
Lemma read_stores_identity_witness :
  let d' := data (snd (resourceArmManagementGroupPolicyDefinitionRead sampleFlatten
                         (sampleMeta (fun _ => found) gone)
                         (start (stored (sampleData EmptyString EmptyString EmptyString))))) in
  schema.Id d' = literalId
  /\ schema.Get d' "name" = "pol1"
  /\ schema.Get d' "management_group_id"
     = "/providers/Microsoft.Management/managementGroups/mg1"
  /\ Count (schema.Get d' "management_group_id") "/"%char = 4%nat.
Proof.
  exact (read_stores_identity sampleFlatten
           (sampleMeta (fun _ => found) gone)
           (start (stored (sampleData EmptyString EmptyString EmptyString)))
           sampleId (fst found) 1%nat eq_refl eq_refl).
Defined.

(** X8 on the sample definition, whose metadata is nil: Read leaves the
    metadata of the resource data as it was. *)
Lemma read_json_attributes_witness :
  let d := stored (sampleData EmptyString "{}" EmptyString) in
  let d' := data (snd (resourceArmManagementGroupPolicyDefinitionRead sampleFlatten
                         (sampleMeta (fun _ => found) gone) (start d))) in
  schema.Get d' "policy_type" = "Custom"
  /\ schema.Get d' "mode" = "All"
  /\ schema.Get d' "display_name" = "acctestpol"
  /\ schema.Get d' "description" = EmptyString
  /\ storedJson sampleFlatten d d' "policy_rule" (VMap ∅)
  /\ storedJson sampleFlatten d d' "metadata" VNil
  /\ storedJson sampleFlatten d d' "parameters" (VMap ∅).
Proof.
  refine (read_json_attributes sampleFlatten
            (sampleMeta (fun _ => found) gone)
            (start (stored (sampleData EmptyString "{}" EmptyString)))
            (snd (resourceArmManagementGroupPolicyDefinitionRead sampleFlatten
                    (sampleMeta (fun _ => found) gone)
                    (start (stored (sampleData EmptyString "{}" EmptyString)))))
            sampleId (fst found) 1%nat sampleProperties eq_refl eq_refl eq_refl _).
  vm_compute. reflexivity.
Defined.

(** X9 on the resource data whose id is empty. *)
Lemma malformed_id_stops_read_and_delete_witness :
  let st := start (sampleData EmptyString EmptyString EmptyString) in
  let e := Errorf errParsingId
             [AString EmptyString;
              AError (Errorf errIdSegments [AInt 0; AString EmptyString])] in
  resourceArmManagementGroupPolicyDefinitionRead sampleFlatten
    (sampleMeta (fun _ => found) gone) st = (Ret (Some e), st)
  /\ resourceArmManagementGroupPolicyDefinitionDelete
       (sampleMeta (fun _ => found) gone) st = (Ret (Some e), st).
Proof.
  refine (malformed_id_stops_read_and_delete sampleFlatten
            (sampleMeta (fun _ => found) gone)
            (start (sampleData EmptyString EmptyString EmptyString)) _).
  vm_compute. discriminate.
Defined.

(** X10 on a remote that answers with a server error. *)
Lemma other_errors_are_returned_witness :
  resourceArmManagementGroupPolicyDefinitionRead sampleFlatten
    (sampleMeta (fun _ => broken) brokenDelete)
    (start (stored (sampleData EmptyString EmptyString EmptyString)))
  = (Ret (Some (Errorf errReading [AError errServer])),
     {| data := stored (sampleData EmptyString EmptyString EmptyString);
        remote := 1%nat;
        calls := [GetCall "pol1" "/providers/Microsoft.Management/managementGroups/mg1"] |})
  /\ resourceArmManagementGroupPolicyDefinitionDelete
       (sampleMeta (fun _ => broken) brokenDelete)
       (start (stored (sampleData EmptyString EmptyString EmptyString)))
     = (Ret (Some (Errorf errDeleting [AString "pol1"; AError errServer])),
        {| data := stored (sampleData EmptyString EmptyString EmptyString);
           remote := O;
           calls := [DeleteCall "pol1"
                       "/providers/Microsoft.Management/managementGroups/mg1"] |}).
Proof.
  pose proof (other_errors_are_returned sampleFlatten
                (sampleMeta (fun _ => broken) brokenDelete)
                (start (stored (sampleData EmptyString EmptyString EmptyString)))
                sampleId eq_refl) as [Hread Hdelete].
  split.
  - exact (Hread (fst broken) errServer 1%nat eq_refl eq_refl).
  - exact (Hdelete (response 500) errServer O eq_refl eq_refl).
Defined.

(** X13 on the remote that refuses the write. *)
Lemma write_error_stops_create_witness :
  resourceArmManagementGroupPolicyDefinitionCreateUpdate sampleExpand sampleFlatten
    refusing (start (sampleData "{}" EmptyString EmptyString))
  = (Ret (Some (Errorf errCreating [AString "pol1"; AError errForbidden])),
     {| data := sampleData "{}" EmptyString EmptyString;
        remote := O;
        calls := [ExpandJsonFromStringCall "{}"; sampleWrite] |}).
Proof.
  refine (write_error_stops_create sampleExpand sampleFlatten refusing
            (start (sampleData "{}" EmptyString EmptyString))
            [ExpandJsonFromStringCall "{}"] sampleRequest
            (requestDefinition (sampleData "{}" EmptyString EmptyString) sampleRequest)
            errForbidden O _ _).
  - vm_compute. reflexivity.
  - vm_compute. reflexivity.
Defined.

(** X14 on a remote whose definition has an id of 5 segments: Create/Update
    returns the error of the parse, with that id stored. *)
Lemma create_ends_in_read_witness :
  let respID := "/providers/Microsoft.Authorization/policyDefinitions/pol1" in
  let st3 := {| data := schema.SetId (sampleData "{}" EmptyString EmptyString) respID;
                remote := 11%nat;
                calls := (([ExpandJsonFromStringCall "{}"; sampleWrite]
                           ++ repeat (GetCall "pol1" "mg1") 10)
                          ++ [GetCall "pol1" "mg1"])%list |} in
  resourceArmManagementGroupPolicyDefinitionCreateUpdate sampleExpand sampleFlatten
    (sampleMeta misplaced gone) (start (sampleData "{}" EmptyString EmptyString))
  = resourceArmManagementGroupPolicyDefinitionRead sampleFlatten
      (sampleMeta misplaced gone) st3
  /\ (len (strings.Split respID "/"%char) <> 9 ->
      resourceArmManagementGroupPolicyDefinitionCreateUpdate sampleExpand sampleFlatten
        (sampleMeta misplaced gone) (start (sampleData "{}" EmptyString EmptyString))
      = (Ret (Some (Errorf errParsingId
                      [AString respID;
                       AError (Errorf errIdSegments
                                 [AInt (len (strings.Split respID "/"%char) - 1);
                                  AString respID])])),
         st3)).
Proof.
  refine (create_ends_in_read sampleExpand sampleFlatten (sampleMeta misplaced gone)
            (start (sampleData "{}" EmptyString EmptyString))
            {| data := sampleData "{}" EmptyString EmptyString;
               remote := 10%nat;
               calls := ([ExpandJsonFromStringCall "{}"; sampleWrite]
                         ++ repeat (GetCall "pol1" "mg1") 10)%list |}
            [ExpandJsonFromStringCall "{}"] sampleRequest
            (requestDefinition (sampleData "{}" EmptyString EmptyString) sampleRequest)
            (fst (misplaced 10)) O 11%nat (Some (fst (misplaced 9)))
            "/providers/Microsoft.Authorization/policyDefinitions/pol1"
            _ _ _ _ _).
  - vm_compute. reflexivity.
  - vm_compute. reflexivity.
  - vm_compute. reflexivity.
  - vm_compute. reflexivity.
  - vm_compute. reflexivity.
Defined.

(** X15 on the remote on which the definition is gone at the eleventh read. *)
Lemma read_error_after_wait_witness :
  resourceArmManagementGroupPolicyDefinitionCreateUpdate sampleExpand sampleFlatten
    (sampleMeta vanishing gone) (start (sampleData "{}" EmptyString EmptyString))
  = (Ret (Some (Errorf errRetrieving [AString "pol1"; AError errNotFound])),
     {| data := sampleData "{}" EmptyString EmptyString;
        remote := 11%nat;
        calls := (([ExpandJsonFromStringCall "{}"; sampleWrite]
                   ++ repeat (GetCall "pol1" "mg1") 10)
                  ++ [GetCall "pol1" "mg1"])%list |}).
Proof.
  refine (read_error_after_wait sampleExpand sampleFlatten (sampleMeta vanishing gone)
            (start (sampleData "{}" EmptyString EmptyString))
            {| data := sampleData "{}" EmptyString EmptyString;
               remote := 10%nat;
               calls := ([ExpandJsonFromStringCall "{}"; sampleWrite]
                         ++ repeat (GetCall "pol1" "mg1") 10)%list |}
            [ExpandJsonFromStringCall "{}"] sampleRequest
            (requestDefinition (sampleData "{}" EmptyString EmptyString) sampleRequest)
            absent O 11%nat (Some (answer 200 (Some sampleProperties))) errNotFound
            _ _ _ _).
  - vm_compute. reflexivity.
  - vm_compute. reflexivity.
  - vm_compute. reflexivity.
  - vm_compute. reflexivity.
Defined.

(** X17 on two states with the sample id and other attributes. *)
Lemma read_and_delete_use_only_the_id_witness :
  let st1 := start (stored (sampleData EmptyString EmptyString EmptyString)) in
  let st2 := start (stored (sampleData "{}" "{}" unparsable)) in
  let read := resourceArmManagementGroupPolicyDefinitionRead sampleFlatten
                (sampleMeta (fun _ => found) gone) in
  let delete := resourceArmManagementGroupPolicyDefinitionDelete
                  (sampleMeta (fun _ => found) gone) in
  fst (read st1) = fst (read st2)
  /\ remote (snd (read st1)) = remote (snd (read st2))
  /\ schema.Id (data (snd (read st1))) = schema.Id (data (snd (read st2)))
  /\ fst (delete st1) = fst (delete st2)
  /\ remote (snd (delete st1)) = remote (snd (delete st2)).
Proof.
  exact (read_and_delete_use_only_the_id sampleFlatten
           (sampleMeta (fun _ => found) gone)
           (start (stored (sampleData EmptyString EmptyString EmptyString)))
           (start (stored (sampleData "{}" "{}" unparsable)))
           eq_refl eq_refl).
Defined.

(** X18 on the state of the test and a remote that has the definition. *)
Lemma exists_check_passes_iff_witness :
  fst (testCheckAzureRMManagementGroupPolicyDefinitionExists
         (sampleMeta (fun _ => found) gone)
         "azurerm_management_group_policy_definition.test" sampleState
         (start (sampleData EmptyString EmptyString EmptyString)))
  = Ret None.
Proof.
  apply (proj1 (exists_check_passes_iff (sampleMeta (fun _ => found) gone)
                  (start (sampleData EmptyString EmptyString EmptyString))
                  sampleState sampleRoot
                  "azurerm_management_group_policy_definition.test" eq_refl)).
  exists samplePolicy, sampleInstance, (fst found), 1%nat, {| http.StatusCode := 200 |}.
  repeat split; try (vm_compute; reflexivity). vm_compute. discriminate.
Defined.

(** X19 on the state of the test, the management group visited first, and a
    remote that reports not found. *)
Lemma destroy_check_first_definition_witness :
  testCheckAzureRMManagementGroupPolicyDefinitionDestroy
    (sampleMeta (fun _ => notFound) gone) sampleState
    [Some sampleGroup; Some samplePolicy]
    (start (sampleData EmptyString EmptyString EmptyString))
  = (Ret None,
     {| data := sampleData EmptyString EmptyString EmptyString;
        remote := 1%nat;
        calls := [GetCall "pol1" "/providers/Microsoft.Management/managementGroups/mg1"] |}).
Proof.
  refine (proj1 (destroy_check_first_definition (sampleMeta (fun _ => notFound) gone)
                   (start (sampleData EmptyString EmptyString EmptyString))
                   sampleState sampleRoot [Some sampleGroup] [] samplePolicy sampleInstance
                   eq_refl _ _ eq_refl eq_refl)
            absent errNotFound 1%nat _).
  - unfold rangeOrder. vm_compute. first [reflexivity | apply perm_swap].
  - constructor; [|constructor]. exists sampleGroup. split; [reflexivity|discriminate].
  - vm_compute. reflexivity.
Defined.

(** X16 on the remote that has the definition from the start. *)
Lemma create_success_means_witness :
  let st := start (sampleData "{}" EmptyString EmptyString) in
  let st' := snd (resourceArmManagementGroupPolicyDefinitionCreateUpdate sampleExpand
                    sampleFlatten (sampleMeta (fun _ => found) gone) st) in
  let name := schema.Get (data st) "name" in
  let managementGroupID := schema.Get (data st) "management_group_id" in
  exists cs p u w1 res st2 resp w3 respID,
    request sampleExpand (data st) = (cs, inr p)
    /\ policy.CreateOrUpdateAtManagementGroup
         (policyDefinitionsClient (sampleMeta (fun _ => found) gone))
         name (requestDefinition (data st) p) managementGroupID (remote st) = ((u, None), w1)
    /\ WaitForState
         (stateConf (policyDefinitionsClient (sampleMeta (fun _ => found) gone))
            name managementGroupID)
         {| data := data st; remote := w1;
            calls := (calls st ++ cs
                      ++ [CreateOrUpdateCall name (requestDefinition (data st) p)
                            managementGroupID])%list |}
       = (Ret (res, None), st2)
    /\ policy.GetAtManagementGroup
         (policyDefinitionsClient (sampleMeta (fun _ => found) gone))
         name managementGroupID (remote st2) = ((resp, None), w3)
    /\ policy.ID resp = Some respID
    /\ len (strings.Split respID "/"%char) = 9
    /\ resourceArmManagementGroupPolicyDefinitionRead sampleFlatten
         (sampleMeta (fun _ => found) gone)
         {| data := schema.SetId (data st) respID; remote := w3;
            calls := (calls st2 ++ [GetCall name managementGroupID])%list |}
       = (Ret None, st')
    /\ (schema.Id (data st') = respID \/ schema.Id (data st') = EmptyString).
Proof.
  refine (create_success_means sampleExpand sampleFlatten
            (sampleMeta (fun _ => found) gone)
            (start (sampleData "{}" EmptyString EmptyString))
            (snd (resourceArmManagementGroupPolicyDefinitionCreateUpdate sampleExpand
                    sampleFlatten (sampleMeta (fun _ => found) gone)
                    (start (sampleData "{}" EmptyString EmptyString)))) _).
  vm_compute. reflexivity.
Defined.

(** Create/Update on the remote on which the definition is gone when Read
    reads it: no error, and the stored id is empty. *)
Example create_succeeds_with_cleared_id :
  let run := resourceArmManagementGroupPolicyDefinitionCreateUpdate sampleExpand
               sampleFlatten (sampleMeta fleeting gone)
               (start (sampleData "{}" EmptyString EmptyString)) in
  fst run = Ret None /\ schema.Id (data (snd run)) = EmptyString.
Proof. vm_compute. split; reflexivity. Qed.
